(** * Edit sessions ("cloud changes") and the terminal service

    A shallow embedding of two workbench contributions:

    - [EditSessions]: [storeEditSession], [resumeEditSession],
      [generateChanges], [willChangeLocalContents],
      [getChangedResources], [hasEditSession],
      [shouldContinueOnWithEditSession] and [autoStoreEditSession] of
      [vs/workbench/contrib/editSessions/browser/editSessions.contribution.ts];
    - [ContinueOn]: the action 'Continue Working On...', the extension
      point [continueEditSession] and the items of its quick pick, of the
      same file;
    - [Terminal]: the bookkeeping of [TerminalService] in
      [vs/workbench/contrib/terminal/browser/terminalService.ts]: creation,
      lookup, backgrounded and reconnected terminals, the active instance,
      shutdown and disposal.

    Both classes are glue over injected platform services.  The services
    are interfaces of the host application, so they are taken as
    parameters (type classes); the methods of the two classes are
    state-passing programs over them. *)

From Stdlib Require Import ZArith String List Bool DecimalString.
From Stdlib.Strings Require Import Byte.
From stdpp Require Import base tactics option list gmap strings sorting.

Set Default Proof Using "Type".

(* ===================================================================== *)
(** * Part I: edit sessions                                              *)
(* ===================================================================== *)

Module EditSessions.

(** ** Data model *)

(** A [URI] is a JavaScript object.  [uri_str] is what [toString()]
    returns; [uri_obj] is the identity of the object, which is what
    [Set<URI>] compares ([SameValueZero] on objects is reference
    equality). *)
Record URI := { uri_obj : nat; uri_str : string }.

Record WorkspaceFolder := { wf_uri : URI; wf_name : string }.

(** [ISCMRepository]: [provider.rootUri] and, for every resource group of
    [provider.groups.elements], the [sourceUri] of its resources. *)
Record Repository := { rootUri : option URI; groups : list (list URI) }.

(** [ChangeType].  The enum has two members; [OtherChangeType] stands for
    any other value met at run time (sessions are read back from JSON),
    which is what the [default] branch of [willChangeLocalContents]
    handles. *)
Inductive ChangeType := Addition | Deletion | OtherChangeType.

Inductive FileType := File.

Record Change := {
  c_type : ChangeType;
  fileType : FileType;
  contents : option string;
  relativeFilePath : string
}.

Record Folder := {
  name : string;
  canonicalIdentity : option string;
  workingChanges : list Change
}.

Record EditSession := { version : Z; folders : list Folder }.

(** An element of the [changes] / [conflictingChanges] arrays of
    [generateChanges]: [{ uri, type, contents }]. *)
Record ResolvedChange := {
  rc_uri : URI;
  rc_type : ChangeType;
  rc_contents : option string
}.

Inductive WorkbenchState := EMPTY | FOLDER | WORKSPACE.

Inductive EditSessionIdentityMatch := Complete | Partial | NoMatch.

Inductive UserDataSyncErrorCode := TooLarge | OtherSyncError.

(** What a [throw] or a rejected promise carries. *)
Inductive Exn :=
| JsError (message : string)
| UserDataSyncStoreError (code : UserDataSyncErrorCode).

Inductive Result (A : Type) := Ok (a : A) | Err (e : Exn).
Arguments Ok {A} a.
Arguments Err {A} e.


Inductive Severity := Info | Warning | Error.

(** The localized messages, by their localization key. *)
Inductive Message :=
| NoCloudChanges                         (* 'no cloud changes' *)
| NoCloudChangesForRef (ref : string)    (* 'no cloud changes for ref' *)
| ClientTooOld                           (* 'client too old' *)
| ResumeFailed                           (* 'resume failed' *)
| NoWorkingChangesToStore                (* 'no working changes to store' *)
| PayloadTooLarge                        (* 'payload too large' *)
| PayloadFailed.                         (* 'payload failed' *)

(** One entry per awaited call to a host service and per notification,
    in call order.  (Synchronous getters are not recorded.) *)
Inductive Event :=
| EvGetEnvironment
| EvSaveAll
| EvInitialize
| EvStorageRead (ref : option string) (answer : Result (option (string * EditSession)))
| EvStorageWrite (data : EditSession)
| EvStorageDelete (ref : string)
| EvWillCreateIdentity (folder : WorkspaceFolder)
| EvGetIdentifier (folder : WorkspaceFolder)
| EvProvideMatch (folder : WorkspaceFolder) (identity1 identity2 : string)
| EvStat (uri : URI)
| EvExists (uri : URI) (answer : Result bool)
| EvReadFile (uri : URI)
| EvWriteFile (uri : URI) (content : list byte)
| EvDel (uri : URI)
| EvConfirm (conflicts : list URI)
| EvNotify (severity : Severity) (message : Message)
| EvPrompt (ref : string).

(** ** The host *)

(** The helpers imported from [vs/base] and from
    [editSessions/common/editSessions], which are not part of the two
    files. *)
Class Platform := {
  joinPath : URI -> string -> URI;
  relativePath : URI -> URI -> option string;
  uri_path : URI -> string;
  encodeBase64 : list byte -> string;
  sha1Hex : option string -> string;
  decodeEditSessionFileContent : Z -> option string -> Result (list byte);
  EditSessionSchemaVersion : Z
}.

(** The injected services over a host state [W].  Synchronous getters are
    total; every awaited call may reject.  Calls that only read leave the
    host state alone, the others return the next state. *)
Class Host (W : Type) := {
  (* IRemoteAgentService *)
  getEnvironment : W -> Result unit * W;
  (* IWorkspaceContextService *)
  getWorkbenchState : W -> WorkbenchState;
  workspaceFolders : W -> list WorkspaceFolder;
  getWorkspaceFolder : W -> URI -> option WorkspaceFolder;
  (* ISCMService *)
  repositories : W -> list Repository;
  (* IConfigurationService:
     getValue('workbench.experimental.cloudChanges.partialMatches.enabled') === true *)
  partialMatchesEnabled : W -> bool;
  (* IEditSessionIdentityService *)
  getEditSessionIdentifier : W -> WorkspaceFolder -> Result (option string);
  provideEditSessionIdentityMatch :
    W -> WorkspaceFolder -> string -> string -> Result (option EditSessionIdentityMatch);
  onWillCreateEditSessionIdentity : W -> WorkspaceFolder -> Result unit * W;
  (* IFileService *)
  fs_stat : W -> URI -> Result bool;          (* (await stat(uri)).isFile *)
  fs_exists : W -> URI -> Result bool;
  fs_readFile : W -> URI -> Result (list byte);
  fs_writeFile : W -> URI -> list byte -> Result unit * W;
  fs_del : W -> URI -> Result unit * W;
  (* IEditorService *)
  saveAll : W -> Result unit * W;
  (* IDialogService: the [confirmed] field of the answer *)
  dialog_confirm : W -> list URI -> Result bool;
  (* IEditSessionsStorageService *)
  storage_initialize : W -> Result bool * W;
  storage_read : W -> option string -> Result (option (string * EditSession));
  storage_write : W -> EditSession -> Result string * W;
  storage_delete : W -> string -> Result unit * W
}.

(** ** The monad: host state, call trace, exceptions *)

(** A method is run from a host state and yields its result (a value or
    an exception), the next host state and the service calls it made. *)
Definition Prog (W A : Type) : Type := W -> Result A * W * list Event.

Definition ret {W A} (a : A) : Prog W A := fun h => (Ok a, h, []).

Definition bind {W A B} (m : Prog W A) (k : A -> Prog W B) : Prog W B :=
  fun h => match m h with
           | (Ok a, h1, t1) =>
               match k a h1 with (r, h2, t2) => (r, h2, t1 ++ t2) end
           | (Err e, h1, t1) => (Err e, h1, t1)
           end.

Definition throw {W A} (e : Exn) : Prog W A := fun h => (Err e, h, []).

(** [try { m } catch (ex) { handler ex }] *)
Definition tryCatch {W A} (m : Prog W A) (handler : Exn -> Prog W A) : Prog W A :=
  fun h => match m h with
           | (Ok a, h1, t1) => (Ok a, h1, t1)
           | (Err e, h1, t1) =>
               match handler e h1 with (r, h2, t2) => (r, h2, t1 ++ t2) end
           end.

Notation "'let*' x ':=' m 'in' k" := (bind m (fun x => k))
  (at level 10, x pattern, m at level 100, k at level 200).

(** A synchronous getter. *)
Definition get {W A} (f : W -> A) : Prog W A := fun h => (Ok (f h), h, []).

(** An awaited call that reads the host. *)
Definition ask {W A} (ev : Result A -> Event) (f : W -> Result A) : Prog W A :=
  fun h => let r := f h in (r, h, [ev r]).

(** An awaited call that may change the host. *)
Definition perform {W A} (ev : Event) (f : W -> Result A * W) : Prog W A :=
  fun h => match f h with (r, h') => (r, h', [ev]) end.

(** A call of the notification service (it only shows something). *)
Definition emit {W} (ev : Event) : Prog W unit := fun h => (Ok tt, h, [ev]).

(** The three components of a run. *)
Definition result {W A} (m : Prog W A) (h : W) : Result A := fst (fst (m h)).
Definition final {W A} (m : Prog W A) (h : W) : W := snd (fst (m h)).
Definition calls {W A} (m : Prog W A) (h : W) : list Event := snd (m h).

Definition truthy (s : option string) : bool :=
  match s with
  | Some s => negb (String.eqb s EmptyString)
  | None => false
  end.

Definition option_eqb (a b : option string) : bool :=
  match a, b with
  | Some x, Some y => String.eqb x y
  | None, None => true
  | _, _ => false
  end.

Section Contribution.
Context {W : Type} `{HostW : Host W} `{Plat : Platform}.

#[local] Abbreviation M := (Prog W).

(** ** [getChangedResources] *)

(** [Set<URI>.add]: an object is added unless that same object is already
    a member; iteration is in insertion order. *)
Definition set_add (resources : list URI) (u : URI) : list URI :=
  if existsb (fun v => Nat.eqb (uri_obj v) (uri_obj u)) resources
  then resources else resources ++ [u].

Definition getChangedResources (repository : Repository) : list URI :=
  foldl (fun resources resourceGroup => foldl set_add resources resourceGroup)
        [] (groups repository).

(** ** [willChangeLocalContents] *)

Definition willChangeLocalContents (localChanges : gset string)
    (uriWithIncomingChanges : URI) (incomingChange : Change) : M bool :=
  if negb (bool_decide (uri_str uriWithIncomingChanges ∈ localChanges)) then ret false
  else
    match c_type incomingChange with
    | Addition =>
        let originalContents := sha1Hex (contents incomingChange) in
        let* value := ask (fun _ => EvReadFile uriWithIncomingChanges)
                          (fun h => fs_readFile h uriWithIncomingChanges) in
        let incomingContents := sha1Hex (Some (encodeBase64 value)) in
        ret (negb (String.eqb originalContents incomingContents))
    | Deletion =>
        ask (EvExists uriWithIncomingChanges)
            (fun h => fs_exists h uriWithIncomingChanges)
    | OtherChangeType => throw (JsError "Unhandled change type.")
    end.

(** ** [generateChanges] *)

(** The loop [for (const f of workspaceFolders)] that looks for the
    workspace folder of a session folder with a canonical identity. *)
Fixpoint matchIdentity (canonical ref : string) (force : bool)
    (workspaceFolders : list WorkspaceFolder) : M (option WorkspaceFolder) :=
  match workspaceFolders with
  | [] => ret None
  | f :: rest =>
      let* ident := ask (fun _ => EvGetIdentifier f)
                        (fun h => getEditSessionIdentifier h f) in
      if option_eqb ident (Some canonical) then ret (Some f)
      else
        match ident with
        | None => matchIdentity canonical ref force rest
        | Some ident =>
            let* m := ask (fun _ => EvProvideMatch f ident canonical)
                          (fun h => provideEditSessionIdentityMatch h f ident canonical) in
            match m with
            | Some Complete => ret (Some f)
            | Some Partial =>
                let* enabled := get partialMatchesEnabled in
                if enabled then
                  if negb force then
                    let* _ := emit (EvPrompt ref) in
                    matchIdentity canonical ref force rest
                  else ret (Some f)
                else matchIdentity canonical ref force rest
            | _ => matchIdentity canonical ref force rest
            end
        end
  end.

(** [folderRoot] of a session folder. *)
Definition findFolderRoot (folder : Folder) (ref : string) (force : bool)
    (workspaceFolders : list WorkspaceFolder) : M (option WorkspaceFolder) :=
  if truthy (canonicalIdentity folder) then
    matchIdentity (default EmptyString (canonicalIdentity folder)) ref force workspaceFolders
  else
    ret (List.find (fun f => String.eqb (wf_name f) (name folder)) workspaceFolders).

(** The [Set<string>] [localChanges] built from the SCM repositories whose
    root lies in a workspace folder named like the session folder. *)
Definition localChangesOf (h : W) (folder : Folder) : gset string :=
  foldl (fun localChanges repository =>
           match rootUri repository with
           | Some root =>
               if option_eqb (wf_name <$> getWorkspaceFolder h root) (Some (name folder))
               then foldl (fun s change => s ∪ {[ uri_str change ]})
                          localChanges (getChangedResources repository)
               else localChanges
           | None => localChanges
           end)
        ∅ (repositories h).

(** The loop [for (const change of folder.workingChanges)]. *)
Fixpoint resolveChanges (localChanges : gset string) (folderRoot : WorkspaceFolder)
    (incoming : list Change) (changes conflictingChanges : list ResolvedChange)
    : M (list ResolvedChange * list ResolvedChange) :=
  match incoming with
  | [] => ret (changes, conflictingChanges)
  | change :: rest =>
      let uri := joinPath (wf_uri folderRoot) (relativeFilePath change) in
      let entry := {| rc_uri := uri; rc_type := c_type change;
                      rc_contents := contents change |} in
      let* conflict := willChangeLocalContents localChanges uri change in
      resolveChanges localChanges folderRoot rest (changes ++ [entry])
        (if conflict then conflictingChanges ++ [entry] else conflictingChanges)
  end.

(** The loop [for (const folder of editSession.folders)]. *)
Fixpoint generateChanges_folders (sessionFolders : list Folder) (ref : string)
    (force : bool) (workspaceFolders : list WorkspaceFolder)
    (changes conflictingChanges : list ResolvedChange)
    : M (list ResolvedChange * list ResolvedChange) :=
  match sessionFolders with
  | [] => ret (changes, conflictingChanges)
  | folder :: rest =>
      let* folderRoot := findFolderRoot folder ref force workspaceFolders in
      match folderRoot with
      | None => ret ([], [])
      | Some folderRoot =>
          let* localChanges := get (fun h => localChangesOf h folder) in
          let* r := resolveChanges localChanges folderRoot (workingChanges folder)
                                   changes conflictingChanges in
          generateChanges_folders rest ref force workspaceFolders (fst r) (snd r)
      end
  end.

Definition generateChanges (editSession : EditSession) (ref : string) (force : bool)
    : M (list ResolvedChange * list ResolvedChange) :=
  let* workspaceFolders := get workspaceFolders in
  generateChanges_folders (folders editSession) ref force workspaceFolders [] [].

(** ** [resumeEditSession] *)

(** The loop [for (const { uri, type, contents } of changes)]. *)
Fixpoint applyChanges (sessionVersion : Z) (changes : list ResolvedChange) : M unit :=
  match changes with
  | [] => ret tt
  | {| rc_uri := uri; rc_type := type; rc_contents := contents |} :: rest =>
      let* _ :=
        match type with
        | Addition =>
            match decodeEditSessionFileContent sessionVersion contents with
            | Ok content =>
                perform (EvWriteFile uri content) (fun h => fs_writeFile h uri content)
            | Err e => throw e
            end
        | Deletion =>
            let* present := ask (EvExists uri) (fun h => fs_exists h uri) in
            if present then perform (EvDel uri) (fun h => fs_del h uri) else ret tt
        | OtherChangeType => ret tt
        end in
      applyChanges sessionVersion rest
  end.

(** The body of the [try] block. *)
Definition resumeEditSession_try (editSession : EditSession) (ref : string)
    (force : bool) : M unit :=
  let* r := generateChanges editSession ref force in
  let changes := fst r in
  let conflictingChanges := snd r in
  match changes with
  | [] => ret tt
  | _ =>
      let* confirmed :=
        match conflictingChanges with
        | [] => ret true
        | _ => ask (fun _ => EvConfirm (map rc_uri conflictingChanges))
                   (fun h => dialog_confirm h (map rc_uri conflictingChanges))
        end in
      if negb confirmed then ret tt
      else
        let* _ := applyChanges (version editSession) changes in
        perform (EvStorageDelete ref) (fun h => storage_delete h ref)
  end.

(** Lines 438-484: everything up to the [try] block.  The result is the
    [ref] and the edit session to apply, or [None] when the method
    returns early. *)
Definition resumeEditSession_read (ref : option string) (silent : bool)
    : M (option (string * EditSession)) :=
  let* _ := perform EvGetEnvironment getEnvironment in
  let* state := get getWorkbenchState in
  match state with
  | EMPTY => ret None
  | _ =>
      let* stop :=
        if silent then
          let* initialized := perform EvInitialize storage_initialize in
          ret (negb initialized)
        else ret false in
      if (stop : bool) then ret None
      else
        let* data := ask (EvStorageRead ref) (fun h => storage_read h ref) in
        match data with
        | None =>
            let* _ :=
              match ref with
              | None => if negb silent then emit (EvNotify Info NoCloudChanges) else ret tt
              | Some ref => emit (EvNotify Warning (NoCloudChangesForRef ref))
              end in
            ret None
        | Some (ref, editSession) =>
            if (EditSessionSchemaVersion <? version editSession)%Z then
              let* _ := emit (EvNotify Error ClientTooOld) in
              ret None
            else ret (Some (ref, editSession))
        end
  end.

Definition resumeEditSession (ref : option string) (silent force : bool) : M unit :=
  let* data := resumeEditSession_read ref silent in
  match data with
  | None => ret tt
  | Some (ref, editSession) =>
      tryCatch (resumeEditSession_try editSession ref force)
               (fun ex => emit (EvNotify Error ResumeFailed))
  end.

(** ** [storeEditSession] *)

(** The loop [for (const uri of trackedUris)]; [name], [hasEdits] and
    [workingChanges] are the variables it updates. *)
Fixpoint trackUris (trackedUris : list URI) (name : option string) (hasEdits : bool)
    (workingChanges : list Change) : M (option string * bool * list Change) :=
  match trackedUris with
  | [] => ret (name, hasEdits, workingChanges)
  | uri :: rest =>
      let* workspaceFolder := get (fun h => getWorkspaceFolder h uri) in
      match workspaceFolder with
      | None => trackUris rest name hasEdits workingChanges
      | Some workspaceFolder =>
          let* _ := perform (EvWillCreateIdentity workspaceFolder)
                            (fun h => onWillCreateEditSessionIdentity h workspaceFolder) in
          let name := Some (default (wf_name workspaceFolder) name) in
          let relativeFilePath :=
            default (uri_path uri) (relativePath (wf_uri workspaceFolder) uri) in
          let* skip :=
            tryCatch (let* isFile := ask (fun _ => EvStat uri) (fun h => fs_stat h uri) in
                      ret (negb isFile))
                     (fun _ => ret false) in
          if (skip : bool) then trackUris rest name hasEdits workingChanges
          else
            let* present := ask (EvExists uri) (fun h => fs_exists h uri) in
            if (present : bool) then
              let* value := ask (fun _ => EvReadFile uri) (fun h => fs_readFile h uri) in
              trackUris rest name true
                (workingChanges ++
                   [{| c_type := Addition; fileType := File;
                       contents := Some (encodeBase64 value);
                       relativeFilePath := relativeFilePath |}])
            else
              trackUris rest name true
                (workingChanges ++
                   [{| c_type := Deletion; fileType := File; contents := None;
                       relativeFilePath := relativeFilePath |}])
      end
  end.

(** The loop [for (const repository of this.scmService.repositories)]. *)
Fixpoint storeRepositories (repos : list Repository) (hasEdits : bool)
    (acc : list Folder) : M (bool * list Folder) :=
  match repos with
  | [] => ret (hasEdits, acc)
  | repository :: rest =>
      let trackedUris := getChangedResources repository in
      let* workspaceFolder :=
        match rootUri repository with
        | Some root => get (fun h => getWorkspaceFolder h root)
        | None => ret None
        end in
      let* r := trackUris trackedUris (wf_name <$> workspaceFolder) hasEdits [] in
      let '(name, hasEdits, workingChanges) := r in
      let* canonicalIdentity :=
        match workspaceFolder with
        | Some workspaceFolder =>
            ask (fun _ => EvGetIdentifier workspaceFolder)
                (fun h => getEditSessionIdentifier h workspaceFolder)
        | None => ret None
        end in
      storeRepositories rest hasEdits
        (acc ++ [{| workingChanges := workingChanges;
                    name := default EmptyString name;
                    canonicalIdentity := canonicalIdentity |}])
  end.

Definition storeEditSession (fromStoreCommand : bool) : M (option string) :=
  let* _ := perform EvSaveAll saveAll in
  let* repos := get repositories in
  let* r := storeRepositories repos false [] in
  let '(hasEdits, sessionFolders) := r in
  if negb hasEdits then
    let* _ := if fromStoreCommand then emit (EvNotify Info NoWorkingChangesToStore)
              else ret tt in
    ret None
  else
    let data := {| folders := sessionFolders; version := 2 |} in
    tryCatch
      (let* ref := perform (EvStorageWrite data) (fun h => storage_write h data) in
       ret (Some ref))
      (fun ex =>
         let* _ :=
           match ex with
           | UserDataSyncStoreError TooLarge => emit (EvNotify Error PayloadTooLarge)
           | UserDataSyncStoreError _ => emit (EvNotify Error PayloadFailed)
           | _ => ret tt
           end in
         ret None).

(** ** Vocabulary of the statements *)

(** Every call made by a run satisfies [P]. *)
Definition emits {A} (P : Event -> Prop) (m : M A) : Prop :=
  forall h, Forall P (calls m h).

(** A run leaves the host state as it found it. *)
Definition readonly {A} (m : M A) : Prop := forall h, final m h = h.



End Contribution.

Definition reads_storage (e : Event) : bool :=
  match e with EvStorageRead _ _ => true | _ => false end.

(** What may be called once the session has been read: anything but
    another read of the cloud store. *)
Definition after_read (e : Event) : Prop := reads_storage e = false.

Definition modifies_file (e : Event) : bool :=
  match e with EvWriteFile _ _ | EvDel _ => true | _ => false end.

Definition deletes_session (e : Event) : bool :=
  match e with EvStorageDelete _ => true | _ => false end.

(** A call that neither reads the cloud store nor changes a file or the
    stored sessions. *)
Definition quiet (e : Event) : Prop :=
  reads_storage e = false /\ modifies_file e = false /\ deletes_session e = false.

(** ** An in-memory host, for running the programs on concrete inputs *)

Record MemHost := {
  mh_state : WorkbenchState;
  mh_folders : list WorkspaceFolder;
  mh_repos : list Repository;
  mh_partial : bool;
  mh_identity : string -> option string;                (* by folder name *)
  mh_match : string -> string -> option EditSessionIdentityMatch;
  mh_files : gmap string (list byte);
  mh_dirs : gset string;
  mh_sessions : list (string * EditSession);            (* latest first *)
  mh_confirm : bool
}.

Definition mh_with_files (h : MemHost) (files : gmap string (list byte)) : MemHost :=
  {| mh_state := mh_state h; mh_folders := mh_folders h; mh_repos := mh_repos h;
     mh_partial := mh_partial h; mh_identity := mh_identity h; mh_match := mh_match h;
     mh_files := files; mh_dirs := mh_dirs h; mh_sessions := mh_sessions h;
     mh_confirm := mh_confirm h |}.

Definition mh_with_sessions (h : MemHost) (sessions : list (string * EditSession)) : MemHost :=
  {| mh_state := mh_state h; mh_folders := mh_folders h; mh_repos := mh_repos h;
     mh_partial := mh_partial h; mh_identity := mh_identity h; mh_match := mh_match h;
     mh_files := mh_files h; mh_dirs := mh_dirs h; mh_sessions := sessions;
     mh_confirm := mh_confirm h |}.

Definition mh_folderOf (h : MemHost) (u : URI) : option WorkspaceFolder :=
  List.find (fun f => String.prefix (uri_str (wf_uri f)) (uri_str u)) (mh_folders h).

Definition mh_known (h : MemHost) (u : URI) : bool :=
  bool_decide (is_Some (mh_files h !! uri_str u)) || bool_decide (uri_str u ∈ mh_dirs h).

#[export] Instance memHost : Host MemHost := {
  getEnvironment h := (Ok tt, h);
  getWorkbenchState := mh_state;
  workspaceFolders := mh_folders;
  getWorkspaceFolder := mh_folderOf;
  repositories := mh_repos;
  partialMatchesEnabled := mh_partial;
  getEditSessionIdentifier h f := Ok (mh_identity h (wf_name f));
  provideEditSessionIdentityMatch h f i1 i2 := Ok (mh_match h i1 i2);
  onWillCreateEditSessionIdentity h f := (Ok tt, h);
  fs_stat h u :=
    if bool_decide (is_Some (mh_files h !! uri_str u)) then Ok true
    else if bool_decide (uri_str u ∈ mh_dirs h) then Ok false
    else Err (JsError "ENOENT");
  fs_exists h u := Ok (mh_known h u);
  fs_readFile h u :=
    match mh_files h !! uri_str u with
    | Some content => Ok content
    | None => Err (JsError "ENOENT")
    end;
  fs_writeFile h u content :=
    if bool_decide (uri_str u ∈ mh_dirs h) then (Err (JsError "EISDIR"), h)
    else (Ok tt, mh_with_files h (<[uri_str u := content]> (mh_files h)));
  fs_del h u :=
    if mh_known h u then (Ok tt, mh_with_files h (delete (uri_str u) (mh_files h)))
    else (Err (JsError "ENOENT"), h);
  saveAll h := (Ok tt, h);
  dialog_confirm h conflicts := Ok (mh_confirm h);
  storage_initialize h := (Ok true, h);
  storage_read h ref :=
    Ok match ref with
       | None => head (mh_sessions h)
       | Some r => List.find (fun s => String.eqb (fst s) r) (mh_sessions h)
       end;
  storage_write h data := (Ok "stored"%string, mh_with_sessions h (("stored"%string, data) :: mh_sessions h));
  storage_delete h ref :=
    (Ok tt, mh_with_sessions h (List.filter (fun s => negb (String.eqb (fst s) ref)) (mh_sessions h)))
}.

(** Stand-ins for the helpers: paths are joined with a slash, and the
    encodings are the identity on the characters of a string. *)
#[export] Instance memPlatform : Platform := {
  joinPath root rel := {| uri_obj := 0; uri_str := uri_str root ++ "/" ++ rel |};
  relativePath from to :=
    if String.prefix (uri_str from ++ "/") (uri_str to)
    then Some (String.substring (S (String.length (uri_str from)))
                 (String.length (uri_str to) - S (String.length (uri_str from)))
                 (uri_str to))
    else None;
  uri_path := uri_str;
  encodeBase64 := string_of_list_byte;
  sha1Hex s := default EmptyString s;
  decodeEditSessionFileContent v c :=
    match c with
    | Some s => Ok (list_byte_of_string s)
    | None => Err (JsError "Cannot decode")
    end;
  EditSessionSchemaVersion := 2
}.

(** *** Concrete inputs *)

Definition uri (obj : nat) (s : string) : URI := {| uri_obj := obj; uri_str := s |}.

Definition folderW : WorkspaceFolder := {| wf_uri := uri 1 "file:///w"; wf_name := "w" |}.

Definition bytes (s : string) : list byte := list_byte_of_string s.

(** A folder workspace [w] with one file [a.txt]; nothing stored in the
    cloud and no SCM repository. *)
Definition host0 : MemHost := {|
  mh_state := FOLDER;
  mh_folders := [folderW];
  mh_repos := [];
  mh_partial := false;
  mh_identity := fun _ => None;
  mh_match := fun _ _ => None;
  mh_files := {[ "file:///w/a.txt"%string := bytes "local" ]};
  mh_dirs := ∅;
  mh_sessions := [];
  mh_confirm := true
|}.

Definition mh_with_state (h : MemHost) (st : WorkbenchState) : MemHost :=
  {| mh_state := st; mh_folders := mh_folders h; mh_repos := mh_repos h;
     mh_partial := mh_partial h; mh_identity := mh_identity h; mh_match := mh_match h;
     mh_files := mh_files h; mh_dirs := mh_dirs h; mh_sessions := mh_sessions h;
     mh_confirm := mh_confirm h |}.

Definition mh_with_repos (h : MemHost) (repos : list Repository) : MemHost :=
  {| mh_state := mh_state h; mh_folders := mh_folders h; mh_repos := repos;
     mh_partial := mh_partial h; mh_identity := mh_identity h; mh_match := mh_match h;
     mh_files := mh_files h; mh_dirs := mh_dirs h; mh_sessions := mh_sessions h;
     mh_confirm := mh_confirm h |}.

Definition addition (path content : string) : Change :=
  {| c_type := Addition; fileType := File; contents := Some content;
     relativeFilePath := path |}.

Definition deletion (path : string) : Change :=
  {| c_type := Deletion; fileType := File; contents := None;
     relativeFilePath := path |}.


(** The workspace is empty. *)
Definition hostEmpty : MemHost := mh_with_state host0 EMPTY.

(** A session of the current schema version: add [b.txt], delete [a.txt]. *)
Definition sessionA : EditSession :=
  {| version := 2;
     folders := [ {| name := "w"; canonicalIdentity := None;
                     workingChanges := [addition "b.txt" "hello"; deletion "a.txt"] |} ] |}.

Definition hostStored : MemHost := mh_with_sessions host0 [("r1"%string, sessionA)].

Definition changesA : list ResolvedChange :=
  [ {| rc_uri := uri 0 "file:///w/b.txt"; rc_type := Addition; rc_contents := Some "hello"%string |};
    {| rc_uri := uri 0 "file:///w/a.txt"; rc_type := Deletion; rc_contents := None |} ].

(** A session written by a newer client. *)
Definition sessionNew : EditSession := {| version := 3; folders := [] |}.

Definition hostNewer : MemHost := mh_with_sessions host0 [("r9"%string, sessionNew)].





Definition uriA : URI := uri 0 "file:///w/a.txt".

Definition localA : gset string := {[ "file:///w/a.txt"%string ]}.

(** One repository in which [a.txt] shows in two resource groups (say,
    staged and unstaged changes), each resource with a URI object of its
    own, as resources that are revived from the extension host have. *)
Definition repoTwice : Repository :=
  {| rootUri := Some (uri 1 "file:///w");
     groups := [ [uri 10 "file:///w/a.txt"]; [uri 11 "file:///w/a.txt"] ] |}.

Definition hostTwice : MemHost := mh_with_repos host0 [repoTwice].

(** ** Deciding whether to store *)

(** What [shouldContinueOnWithEditSession] and [autoStoreEditSession]
    read besides the services of [Host]. *)
Class Account (W : Type) := {
  (* IEditSessionsStorageService.isSignedIn *)
  isSignedIn : W -> bool;
  (* getValue('workbench.editSessions.continueOn') === 'off' *)
  continueOnOff : W -> bool;
  (* getValue('workbench.experimental.cloudChanges.autoStore') === 'onShutdown' *)
  autoStoreOnShutdown : W -> bool;
  (* IEditSessionsStorageService.initialize(true) *)
  storage_initialize_fromContinueOn : W -> Result bool * W
}.

Section Deciding.
Context {W : Type} `{HostW : Host W} `{Acc : Account W} `{Plat : Platform}.

(** [hasEditSession]: some repository has a changed resource. *)
Definition hasEditSession (h : W) : bool :=
  existsb (fun repository => (0 <? length (getChangedResources repository))%nat)
          (repositories h).

Definition shouldContinueOnWithEditSession : Prog W bool :=
  let* signedIn := get isSignedIn in
  if (signedIn : bool) then get hasEditSession
  else
    let* off := get continueOnOff in
    if (off : bool) then ret false
    else
      let* has := get hasEditSession in
      if (has : bool) then perform EvInitialize storage_initialize_fromContinueOn
      else ret false.


End Deciding.

(** ** More vocabulary *)

(** A change as [storeEditSession] builds them: an [Addition] with
    contents or a [Deletion] without. *)
Definition storable (c : Change) : bool :=
  match c_type c, contents c with
  | Addition, Some _ | Deletion, None => true
  | _, _ => false
  end.

(** The folder has a working change. *)
Definition hasChanges (f : Folder) : bool :=
  match workingChanges f with [] => false | _ => true end.

(** A call by which [generateChanges] looks at the workspace: a question
    to the identity service, a look at a file, or the prompt for a
    partial match. *)
Definition looks (e : Event) : bool :=
  match e with
  | EvGetIdentifier _ | EvProvideMatch _ _ _ | EvReadFile _ | EvExists _ _
  | EvPrompt _ => true
  | _ => false
  end.

(** A call by which [storeEditSession] collects the working changes. *)
Definition collects (e : Event) : bool :=
  match e with
  | EvWillCreateIdentity _ | EvStat _ | EvExists _ _ | EvReadFile _
  | EvGetIdentifier _ => true
  | _ => false
  end.

Definition is_notice (e : Event) : bool :=
  match e with EvNotify _ _ => true | _ => false end.

Definition is_prompt (e : Event) : bool :=
  match e with EvPrompt _ => true | _ => false end.

(** The entry of [changes] for a working change of a session folder whose
    root is [folderRoot]. *)
Definition resolved `{Plat : Platform} (folderRoot : WorkspaceFolder) (change : Change)
    : ResolvedChange :=
  {| rc_uri := joinPath (wf_uri folderRoot) (relativeFilePath change);
     rc_type := c_type change; rc_contents := contents change |}.

Definition writes_storage (e : Event) : bool :=
  match e with EvStorageWrite _ => true | _ => false end.

Definition asks_confirmation (e : Event) : bool :=
  match e with EvConfirm _ => true | _ => false end.

(** What is shown when an upload fails with [ex]. *)
Definition uploadFailureNotice (ex : Exn) : list Event :=
  match ex with
  | UserDataSyncStoreError TooLarge => [EvNotify Error PayloadTooLarge]
  | UserDataSyncStoreError _ => [EvNotify Error PayloadFailed]
  | JsError _ => []
  end.

(** What is shown when the cloud store has nothing for [ref]. *)
Definition nothingToResumeNotice (ref : option string) (silent : bool) : list Event :=
  match ref with
  | Some ref => [EvNotify Warning (NoCloudChangesForRef ref)]
  | None => if silent then [] else [EvNotify Info NoCloudChanges]
  end.

(** ** More hosts *)

(** A host whose user is not signed in to the cloud store: [initialize]
    answers [false] and an upload is refused with [so_refusal]. *)
Record SignedOut := { so_host : MemHost; so_refusal : Exn }.

Definition so_with (h : SignedOut) (m : MemHost) : SignedOut :=
  {| so_host := m; so_refusal := so_refusal h |}.

#[export] Instance signedOutHost : Host SignedOut := {
  getEnvironment h := (Ok tt, h);
  getWorkbenchState h := getWorkbenchState (so_host h);
  workspaceFolders h := workspaceFolders (so_host h);
  getWorkspaceFolder h := getWorkspaceFolder (so_host h);
  repositories h := repositories (so_host h);
  partialMatchesEnabled h := partialMatchesEnabled (so_host h);
  getEditSessionIdentifier h := getEditSessionIdentifier (so_host h);
  provideEditSessionIdentityMatch h := provideEditSessionIdentityMatch (so_host h);
  onWillCreateEditSessionIdentity h f := (Ok tt, h);
  fs_stat h := fs_stat (so_host h);
  fs_exists h := fs_exists (so_host h);
  fs_readFile h := fs_readFile (so_host h);
  fs_writeFile h u content :=
    (fst (fs_writeFile (so_host h) u content),
     so_with h (snd (fs_writeFile (so_host h) u content)));
  fs_del h u := (fst (fs_del (so_host h) u), so_with h (snd (fs_del (so_host h) u)));
  saveAll h := (Ok tt, h);
  dialog_confirm h := dialog_confirm (so_host h);
  storage_initialize h := (Ok false, h);
  storage_read h := storage_read (so_host h);
  storage_write h data := (Err (so_refusal h), h);
  storage_delete h ref :=
    (fst (storage_delete (so_host h) ref),
     so_with h (snd (storage_delete (so_host h) ref)))
}.

#[export] Instance memAccount : Account MemHost := {
  isSignedIn _ := true;
  continueOnOff _ := false;
  autoStoreOnShutdown _ := true;
  storage_initialize_fromContinueOn h := (Ok true, h)
}.

Definition mh_with_confirm (h : MemHost) (confirm : bool) : MemHost :=
  {| mh_state := mh_state h; mh_folders := mh_folders h; mh_repos := mh_repos h;
     mh_partial := mh_partial h; mh_identity := mh_identity h; mh_match := mh_match h;
     mh_files := mh_files h; mh_dirs := mh_dirs h; mh_sessions := mh_sessions h;
     mh_confirm := confirm |}.

Definition mh_with_dirs (h : MemHost) (dirs : gset string) : MemHost :=
  {| mh_state := mh_state h; mh_folders := mh_folders h; mh_repos := mh_repos h;
     mh_partial := mh_partial h; mh_identity := mh_identity h; mh_match := mh_match h;
     mh_files := mh_files h; mh_dirs := dirs; mh_sessions := mh_sessions h;
     mh_confirm := mh_confirm h |}.

(** [a.txt] has local changes, and the cloud has other contents for it;
    the user declines to overwrite. *)
Definition sessionConflict : EditSession :=
  {| version := 2;
     folders := [ {| name := "w"; canonicalIdentity := None;
                     workingChanges := [addition "a.txt" "remote"] |} ] |}.

Definition changesConflict : list ResolvedChange :=
  [ {| rc_uri := uri 0 "file:///w/a.txt"; rc_type := Addition;
       rc_contents := Some "remote"%string |} ].

Definition hostDeclines : MemHost :=
  mh_with_confirm (mh_with_sessions hostTwice [("r2"%string, sessionConflict)]) false.

(** [b.txt] of [sessionA] cannot be written: a directory is in the way. *)
Definition hostBlocked : MemHost :=
  mh_with_dirs hostStored {[ "file:///w/b.txt"%string ]}.

(** What [storeEditSession] uploads from [hostTwice]. *)
Definition sessionTwice : EditSession :=
  {| version := 2;
     folders := [ {| name := "w"; canonicalIdentity := None;
                     workingChanges := [addition "a.txt" "local";
                                        addition "a.txt" "local"] |} ] |}.

(** The store refuses the upload of the changes of [hostTwice]. *)
Definition hostRefused : SignedOut :=
  {| so_host := hostTwice; so_refusal := UserDataSyncStoreError TooLarge |}.

End EditSessions.

(* ===================================================================== *)
(** * Part I, continued: 'Continue Working On...'                        *)
(* ===================================================================== *)

Module ContinueOn.
Import EditSessions.

(** The command [ContinueEditSessionAction], the extension point
    [continueEditSession] and the items of the quick pick.  Telemetry and
    logging are left out, as in [EditSessions]; the quick pick itself
    ([pickContinueEditSessionDestination]) is a call to the host, and
    [progressService.withProgress] runs its task and gives the result of
    the task. *)

(** ** Data model *)

(** A URI to continue on: its query, and all the rest of it.
    [uri.with({ query })] changes the query alone. *)
Record Destination := { dest_rest : string; dest_query : string }.

(** What a command returns, as [resolveDestination] tells it apart:
    [undefined], a URI, or anything else. *)
Inductive CommandResult := ReturnsUndefined | ReturnsUri (uri : Destination) | ReturnsOther.

(** What [resolveDestination] returns when it does not return
    [undefined]: a URI or the string 'noDestinationUri'. *)
Inductive Resolved := ResolvedUri (uri : Destination) | NoDestinationUri.

Inductive Event :=
| Session (e : EditSessions.Event)      (* of [shouldContinueOnWithEditSession] or [storeEditSession] *)
| EvPickDestination                     (* [pickContinueEditSessionDestination] *)
| EvExecuteCommand (command : string)   (* [commandService.executeCommand] *)
| EvOpen (uri : Destination).           (* [openerService.open(uri, { openExternal: true })] *)

Class Commands (W : Type) := {
  pickContinueEditSessionDestination : W -> Result (option string) * W;
  executeCommand : W -> string -> Result CommandResult * W;
  opener_open : W -> Destination -> Result unit * W;
  (* the built-in function, on a well-formed string *)
  encodeURIComponent : string -> string
}.

(** ** Programs *)

Definition Prog (W A : Type) : Type := W -> Result A * W * list Event.

Definition ret {W A} (a : A) : Prog W A := fun h => (Ok a, h, []).

Definition bind {W A B} (m : Prog W A) (k : A -> Prog W B) : Prog W B :=
  fun h => match m h with
           | (Ok a, h1, t1) =>
               match k a h1 with (r, h2, t2) => (r, h2, t1 ++ t2) end
           | (Err e, h1, t1) => (Err e, h1, t1)
           end.

Definition tryCatch {W A} (m : Prog W A) (handler : Exn -> Prog W A) : Prog W A :=
  fun h => match m h with
           | (Ok a, h1, t1) => (Ok a, h1, t1)
           | (Err e, h1, t1) =>
               match handler e h1 with (r, h2, t2) => (r, h2, t1 ++ t2) end
           end.

Definition perform {W A} (ev : Event) (f : W -> Result A * W) : Prog W A :=
  fun h => match f h with (r, h') => (r, h', [ev]) end.

(** A method of the contribution that [EditSessions] models. *)
Definition lift {W A} (m : EditSessions.Prog W A) : Prog W A :=
  fun h => match m h with (r, h', t) => (r, h', map Session t) end.

Notation "'do*' x ':=' m 'in' k" := (bind m (fun x => k))
  (at level 10, x pattern, m at level 100, k at level 200).

Definition calls {W A} (m : Prog W A) (h : W) : list Event := snd (m h).

Section Action.
Context {W : Type} `{HostW : Host W} `{Acc : Account W} `{Cmd : Commands W}
        `{Plat : Platform}.

Definition queryParamName : string := "editSessionId".

(** The query of the URI that is opened with the [ref] of a stored
    session. *)
Definition withRef (uri : Destination) (ref : string) : Destination :=
  let encodedRef := encodeURIComponent ref in
  {| dest_rest := dest_rest uri;
     dest_query :=
       if (0 <? String.length (dest_query uri))%nat
       then dest_query uri ++ "&" ++ queryParamName ++ "=" ++ encodedRef ++ "&continueOn=1"
       else queryParamName ++ "=" ++ encodedRef ++ "&continueOn=1" |}.

Definition resolveDestination (command : string) : Prog W (option Resolved) :=
  tryCatch
    (do* uri := perform (EvExecuteCommand command) (fun h => executeCommand h command) in
     match uri with
     | ReturnsUndefined => ret (Some NoDestinationUri)
     | ReturnsUri uri => ret (Some (ResolvedUri uri))
     | ReturnsOther => ret None
     end)
    (fun _ => ret None).

(** [run] of [ContinueEditSessionAction], once a destination is known or
    a URI was given. *)
Definition continueOn (workspaceUri : option Destination) (destination : option string)
    : Prog W unit :=
  do* shouldStoreEditSession := lift shouldContinueOnWithEditSession in
  do* ref := if (shouldStoreEditSession : bool) then lift (storeEditSession false)
             else ret None in
  do* uri := if truthy destination
             then resolveDestination (default EmptyString destination)
             else ret (ResolvedUri <$> workspaceUri) in
  match uri with
  | None => ret tt
  | Some uri =>
      match ref, uri with
      | Some ref, ResolvedUri uri =>
          perform (EvOpen (withRef uri ref)) (fun h => opener_open h (withRef uri ref))
      | _, _ =>
          match shouldStoreEditSession, uri with
          | false, ResolvedUri uri => perform (EvOpen uri) (fun h => opener_open h uri)
          | _, _ => ret tt
          end
      end
  end.

(** [run(accessor, workspaceUri, destination)] of
    [ContinueEditSessionAction] *)
Definition run (workspaceUri : option Destination) (destination : option string)
    : Prog W unit :=
  if negb (truthy destination) && negb (bool_decide (is_Some workspaceUri)) then
    do* destination := perform EvPickDestination pickContinueEditSessionDestination in
    if negb (truthy destination) then ret tt
    else continueOn workspaceUri destination
  else continueOn workspaceUri destination.

End Action.



(** ** The extension point and the quick pick *)

(** A contribution to the extension point [continueEditSession]
    ([ICommand]). *)
Record Contribution := {
  contrib_command : string;
  contrib_when : option string;
  contrib_documentation : option string;
  qualifiedName : option string;
  remoteGroup : option string
}.

(** An extension with its contributions: whether the proposed API
    [contribEditSessions] is enabled for it, and its [value], if that is
    an array. *)
Record Extension := {
  proposedApiEnabled : bool;
  value : option (list Contribution)
}.

(** A command of the menu registry: [cmd_icon] is the id of its icon
    when that is a theme icon, [cmd_source] is [source?.title]. *)
Record Command := {
  cmd_id : string;
  cmd_title : string;
  cmd_icon : option string;
  cmd_source : option string;
  cmd_category : option string
}.

(** [ContinueEditSessionItem]; context key expressions are represented
    by strings. *)
Record ContinueEditSessionItem := {
  label : string;
  item_command : string;
  description : option string;
  item_when : option string;
  item_documentation : option string
}.

(** The constructor sets [buttons] (to the 'Learn More' button) when
    there is a documentation. *)
Definition hasButtons (item : ContinueEditSessionItem) : bool :=
  bool_decide (is_Some (item_documentation item)).

(** What [generateStandaloneOptionCommand] registers: an action, and an
    item of the remote indicator menu if there is a [remoteGroup]. *)
Record StandaloneCommand := {
  sc_id : string;
  sc_title : string;
  sc_category : option string;
  sc_precondition : option string;
  sc_remoteGroup : option string
}.

Inductive PickEntry := Pick (item : ContinueEditSessionItem) | Separator.

(** The registries and services that the handler and the quick pick
    read.  [sortByLabel] is [items.sort((item1, item2) =>
    item1.label.localeCompare(item2.label))], of which only this is
    assumed: that it rearranges the items. *)
Class Workbench := {
  getCommand : string -> option Command;
  deserialize : option string -> option string;
  contextMatchesRules : string -> bool;
  virtualWorkspaceOnDesktop : bool;
  sortByLabel : list ContinueEditSessionItem -> list ContinueEditSessionItem;
  sortByLabel_rearranges : forall items, sortByLabel items ≡ₚ items
}.

(** The fields of the contribution: [continueEditSessionOptions], and
    the standalone commands registered so far. *)
Record Options := {
  continueEditSessionOptions : list ContinueEditSessionItem;
  registered : list StandaloneCommand
}.

Definition continueWorkingOnCommand_id : string :=
  "_workbench.editSessions.actions.continueEditSession".

Definition openLocalFolderCommand_id : string :=
  "_workbench.editSessions.actions.continueEditSession.openLocalFolder".

Definition installAdditionalContinueOnOptionsCommand_id : string :=
  "workbench.action.continueOn.extensions".

Section ExtensionPoint.
Context `{WB : Workbench}.

Definition itemOf (command : Command) (contribution : Contribution)
    : ContinueEditSessionItem :=
  {| label := match cmd_icon command with
              | Some id => "$(" ++ id ++ ") " ++ cmd_title command
              | None => cmd_title command
              end;
     item_command := cmd_id command;
     description := cmd_source command;
     item_when := deserialize (contrib_when contribution);
     item_documentation := contrib_documentation contribution |}.

Definition generateStandaloneOptionCommand (commandId qualifiedName : string)
    (category when remoteGroup : option string) : StandaloneCommand :=
  {| sc_id := continueWorkingOnCommand_id ++ "." ++ commandId;
     sc_title := qualifiedName;
     sc_category := category;
     sc_precondition := when;
     sc_remoteGroup := remoteGroup |}.

(** The loop over the contributions of an extension; the result [None]
    is the [return] that leaves the handler. *)
Fixpoint contribute (contributions : list Contribution)
    (options : list ContinueEditSessionItem) (standalone : list StandaloneCommand)
    : option (list ContinueEditSessionItem) * list StandaloneCommand :=
  match contributions with
  | [] => (Some options, standalone)
  | contribution :: rest =>
      match getCommand (contrib_command contribution) with
      | None => (None, standalone)
      | Some command =>
          let item := itemOf command contribution in
          let standalone :=
            if truthy (qualifiedName contribution) then
              standalone ++
                [generateStandaloneOptionCommand (cmd_id command)
                   (default EmptyString (qualifiedName contribution))
                   (cmd_category command) (item_when item) (remoteGroup contribution)]
            else standalone in
          contribute rest (options ++ [item]) standalone
      end
  end.

(** The loop over the extensions. *)
Fixpoint handleExtensions (extensions : list Extension)
    (options : list ContinueEditSessionItem) (standalone : list StandaloneCommand)
    : option (list ContinueEditSessionItem) * list StandaloneCommand :=
  match extensions with
  | [] => (Some options, standalone)
  | extension :: rest =>
      if negb (proposedApiEnabled extension) then handleExtensions rest options standalone
      else
        match value extension with
        | None => handleExtensions rest options standalone
        | Some contributions =>
            match contribute contributions options standalone with
            | (Some options, standalone) => handleExtensions rest options standalone
            | (None, standalone) => (None, standalone)
            end
        end
  end.

(** The handler that [registerContributedEditSessionOptions] sets on the
    extension point. *)
Definition handler (extensions : list Extension) (st : Options) : Options :=
  match handleExtensions extensions [] (registered st) with
  | (Some options, standalone) =>
      {| continueEditSessionOptions := options; registered := standalone |}
  | (None, standalone) =>
      {| continueEditSessionOptions := continueEditSessionOptions st;
         registered := standalone |}
  end.

Definition builtinItem : ContinueEditSessionItem :=
  {| label := "$(folder) Open in Local Folder";
     item_command := openLocalFolderCommand_id;
     description := Some "Built-in"%string;
     item_when := None; item_documentation := None |}.

Definition installItem : ContinueEditSessionItem :=
  {| label := "Install additional development environment options";
     item_command := installAdditionalContinueOnOptionsCommand_id;
     description := None; item_when := None; item_documentation := None |}.

Definition shown (option : ContinueEditSessionItem) : bool :=
  match item_when option with
  | None => true
  | Some when => contextMatchesRules when
  end.

Definition createPickItems (st : Options) : list PickEntry :=
  let items := List.filter shown (continueEditSessionOptions st) in
  let items := if virtualWorkspaceOnDesktop then items ++ [builtinItem] else items in
  let sortedItems := sortByLabel items in
  map Pick sortedItems ++ [Separator; Pick installItem].

(** ** Vocabulary *)

(** The contributions that the handler looks at, in order. *)
Definition contributionsOf (extensions : list Extension) : list Contribution :=
  concat (map (fun extension =>
                 if proposedApiEnabled extension then default [] (value extension) else [])
              extensions).

Definition known (contribution : Contribution) : bool :=
  bool_decide (is_Some (getCommand (contrib_command contribution))).

(** The contributions before the first one whose command is not
    registered. *)
Fixpoint knownPrefix (contributions : list Contribution) : list Contribution :=
  match contributions with
  | [] => []
  | contribution :: rest =>
      if known contribution then contribution :: knownPrefix rest else []
  end.

Definition itemFor (contribution : Contribution) : option ContinueEditSessionItem :=
  command ← getCommand (contrib_command contribution);
  Some (itemOf command contribution).

Definition standaloneFor (contribution : Contribution) : option StandaloneCommand :=
  command ← getCommand (contrib_command contribution);
  if truthy (qualifiedName contribution) then
    Some (generateStandaloneOptionCommand (cmd_id command)
            (default EmptyString (qualifiedName contribution))
            (cmd_category command) (deserialize (contrib_when contribution))
            (remoteGroup contribution))
  else None.

End ExtensionPoint.

(** ** Concrete services, for running the programs *)

Definition localFolder : Destination :=
  {| dest_rest := "vscode://file/home/w"; dest_query := EmptyString |}.

(** The user dismisses the quick pick; the command 'Open in Local Folder'
    returns a URI and the other commands return nothing; the refs of the
    in-memory store need no escaping. *)
#[export] Instance memCommands : Commands MemHost := {
  pickContinueEditSessionDestination h := (Ok None, h);
  executeCommand h command :=
    (Ok (if String.eqb command openLocalFolderCommand_id
         then ReturnsUri localFolder else ReturnsUndefined), h);
  opener_open h u := (Ok tt, h);
  encodeURIComponent ref := ref
}.

Definition labelLe (item1 item2 : ContinueEditSessionItem) : Prop :=
  String.leb (label item1) (label item2) = true.

#[export] Instance labelLe_dec item1 item2 : Decision (labelLe item1 item2) :=
  decide (String.leb (label item1) (label item2) = true).

Definition remoteCommand : Command :=
  {| cmd_id := "remote.continueOn"; cmd_title := "Continue in Remote";
     cmd_icon := Some "remote"%string; cmd_source := Some "Remote"%string;
     cmd_category := None |}.

(** A workbench with one registered command, in a virtual workspace on
    the desktop; a [when] clause matches when it is 'true'. *)
#[export] Instance memWorkbench : Workbench := {
  getCommand id := if String.eqb id (cmd_id remoteCommand) then Some remoteCommand else None;
  deserialize when := when;
  contextMatchesRules when := String.eqb when "true";
  virtualWorkspaceOnDesktop := true;
  sortByLabel := merge_sort labelLe;
  sortByLabel_rearranges := merge_sort_Permutation labelLe
}.

End ContinueOn.

(* ===================================================================== *)
(** * Part II: the terminal service                                      *)
(* ===================================================================== *)

Module Terminal.

(** The service is modelled as a state machine: a method is a function
    on the [State] of the service, which holds the private fields of
    [TerminalService] and the instances held by the group, editor and
    instance services.  What is left out: listeners and disposables,
    context keys other than process support, and the calls that only ask
    another service to focus or to reveal something.  The awaited calls to
    other services are taken to resolve. *)

(** ** Data model *)

Inductive TerminalLocation := Panel | Editor.

Inductive TerminalConnectionState := Connecting | Connected.

Inductive Exn :=
| Error (message : string)
| TypeError.                  (* a property read on [undefined] *)

Inductive Result (A : Type) := Ok (a : A) | Err (e : Exn).
Arguments Ok {A} a.
Arguments Err {A} e.

Record ReconnectionProperties := { ownerId : string; data : string }.

(** [cwd] is a string or a URI. *)
Record CwdUri := { scheme : string; authority : string; path : string }.

Inductive Cwd := CwdString (s : string) | CwdOfUri (u : CwdUri).

Inductive InitialText := LocalTerminalVirtualWorkspace | LocalTerminalRemote.

(** The fields of [IShellLaunchConfig] that the service reads or writes.
    [customPtyImplementation] tells whether the property is set. *)
Record ShellLaunchConfig := {
  customPtyImplementation : bool;
  hideFromUser : bool;
  cwd : option Cwd;
  parentTerminalId : option nat;
  slc_reconnectionProperties : option ReconnectionProperties;
  initialText : option InitialText;
  launchType : option string
}.

Definition emptyShellLaunchConfig : ShellLaunchConfig := {|
  customPtyImplementation := false; hideFromUser := false; cwd := None;
  parentTerminalId := None; slc_reconnectionProperties := None;
  initialText := None; launchType := None
|}.

Definition slc_with_cwd (c : ShellLaunchConfig) (d : option Cwd) : ShellLaunchConfig := {|
  customPtyImplementation := customPtyImplementation c; hideFromUser := hideFromUser c;
  cwd := d; parentTerminalId := parentTerminalId c;
  slc_reconnectionProperties := slc_reconnectionProperties c;
  initialText := initialText c; launchType := launchType c
|}.

Definition slc_with_parentTerminalId (c : ShellLaunchConfig) (p : nat) : ShellLaunchConfig := {|
  customPtyImplementation := customPtyImplementation c; hideFromUser := hideFromUser c;
  cwd := cwd c; parentTerminalId := Some p;
  slc_reconnectionProperties := slc_reconnectionProperties c;
  initialText := initialText c; launchType := launchType c
|}.

Definition slc_with_hideFromUser (c : ShellLaunchConfig) (b : bool) : ShellLaunchConfig := {|
  customPtyImplementation := customPtyImplementation c; hideFromUser := b;
  cwd := cwd c; parentTerminalId := parentTerminalId c;
  slc_reconnectionProperties := slc_reconnectionProperties c;
  initialText := initialText c; launchType := launchType c
|}.

Definition slc_with_initialText (c : ShellLaunchConfig) (t : InitialText) : ShellLaunchConfig := {|
  customPtyImplementation := customPtyImplementation c; hideFromUser := hideFromUser c;
  cwd := cwd c; parentTerminalId := parentTerminalId c;
  slc_reconnectionProperties := slc_reconnectionProperties c;
  initialText := Some t; launchType := Some "Local"%string
|}.

(** An [ITerminalInstance] object.  Instances are referred to by their
    [instanceId]; the objects live in the [heap] of the state. *)
Record Instance := {
  shellLaunchConfig : ShellLaunchConfig;
  target : option TerminalLocation;
  reconnectionProperties : option ReconnectionProperties
}.

Record TerminalProfile := { profileName : string }.

Record ExtensionTerminalProfile := { extensionIdentifier : string; profileId : string }.

(** [options.config]: a shell launch configuration, a profile or a
    contributed (extension) profile. *)
Inductive Config :=
| ConfigShellLaunch (c : ShellLaunchConfig)
| ConfigProfile (p : TerminalProfile)
| ConfigExtension (e : ExtensionTerminalProfile).

(** [ITerminalLocationOptions] *)
Inductive LocationOptions :=
| AtLocation (l : TerminalLocation)
| ViewColumn (viewColumn : Z)
| ParentTerminal (parentTerminal : nat)
| SplitActiveTerminal (splitActiveTerminal : bool).

(** [ICreateTerminalOptions]; a missing [options] is the record with no
    field set. *)
Record CreateTerminalOptions := {
  config : option Config;
  opt_cwd : option Cwd;
  location : option LocationOptions
}.

Inductive InstanceHost := GroupHost | EditorHost.

Inductive ServiceEvent :=
| OnDidChangeConnectionState
| OnDidChangeInstances
| OnDidChangeGroups
| OnDidChangeActiveInstance (instance : option nat).

(** What [handleNewRegisteredBackend] waits for before [_setConnected]. *)
Inductive Reconnection :=
| ReconnectToRemoteTerminals
| ReconnectToLocalTerminals
| ResolvedPromise.                (* [Promise.resolve()] *)

Record Backend := { backendRemoteAuthority : option string }.

(** ** State *)

(** The terminal instance, group and editor services: the instance
    objects, the counter of instance ids, the [terminalInstances] of every
    group and the instances of the editor service. *)
Record Hosts := {
  heap : gmap nat Instance;
  nextInstanceId : nat;
  groups : list (list nat);
  editorInstances : list nat
}.

Record Active := {
  activeInstance_ : option nat;        (* [_activeInstance] *)
  groupHostActive : option nat;        (* [_hostActiveTerminals], group service *)
  editorHostActive : option nat;       (* [_hostActiveTerminals], editor service *)
  focused : option nat                 (* the instance whose [hasFocus] is true *)
}.

Record Connection := {
  connectionState : TerminalConnectionState;
  primaryBackend : option Backend;
  pending : list Reconnection          (* promises with [_setConnected] attached *)
}.

Record State := {
  hosts : Hosts;
  active : Active;
  connection : Connection;
  backgroundedTerminalInstances : list nat;
  reconnectedTerminals : gmap string (list nat);
  processSupportContextKey : option bool;
  terminalHasBeenCreated : bool;
  fired : list ServiceEvent
}.

Definition with_hosts (st : State) (x : Hosts) : State := {|
  hosts := x; active := active st; connection := connection st;
  backgroundedTerminalInstances := backgroundedTerminalInstances st;
  reconnectedTerminals := reconnectedTerminals st;
  processSupportContextKey := processSupportContextKey st;
  terminalHasBeenCreated := terminalHasBeenCreated st; fired := fired st |}.

Definition with_active (st : State) (x : Active) : State := {|
  hosts := hosts st; active := x; connection := connection st;
  backgroundedTerminalInstances := backgroundedTerminalInstances st;
  reconnectedTerminals := reconnectedTerminals st;
  processSupportContextKey := processSupportContextKey st;
  terminalHasBeenCreated := terminalHasBeenCreated st; fired := fired st |}.

Definition with_connection (st : State) (x : Connection) : State := {|
  hosts := hosts st; active := active st; connection := x;
  backgroundedTerminalInstances := backgroundedTerminalInstances st;
  reconnectedTerminals := reconnectedTerminals st;
  processSupportContextKey := processSupportContextKey st;
  terminalHasBeenCreated := terminalHasBeenCreated st; fired := fired st |}.

Definition with_backgrounded (st : State) (x : list nat) : State := {|
  hosts := hosts st; active := active st; connection := connection st;
  backgroundedTerminalInstances := x;
  reconnectedTerminals := reconnectedTerminals st;
  processSupportContextKey := processSupportContextKey st;
  terminalHasBeenCreated := terminalHasBeenCreated st; fired := fired st |}.

Definition with_reconnected (st : State) (x : gmap string (list nat)) : State := {|
  hosts := hosts st; active := active st; connection := connection st;
  backgroundedTerminalInstances := backgroundedTerminalInstances st;
  reconnectedTerminals := x;
  processSupportContextKey := processSupportContextKey st;
  terminalHasBeenCreated := terminalHasBeenCreated st; fired := fired st |}.

Definition with_hasBeenCreated (st : State) : State := {|
  hosts := hosts st; active := active st; connection := connection st;
  backgroundedTerminalInstances := backgroundedTerminalInstances st;
  reconnectedTerminals := reconnectedTerminals st;
  processSupportContextKey := processSupportContextKey st;
  terminalHasBeenCreated := true; fired := fired st |}.

Definition fire (ev : ServiceEvent) (st : State) : State := {|
  hosts := hosts st; active := active st; connection := connection st;
  backgroundedTerminalInstances := backgroundedTerminalInstances st;
  reconnectedTerminals := reconnectedTerminals st;
  processSupportContextKey := processSupportContextKey st;
  terminalHasBeenCreated := terminalHasBeenCreated st; fired := fired st ++ [ev] |}.

(** The state of a freshly constructed service: [isWeb] and the remote
    connection decide the process support context key. *)
Definition initial (processSupport : bool) : State := {|
  hosts := {| heap := ∅; nextInstanceId := 1; groups := []; editorInstances := [] |};
  active := {| activeInstance_ := None; groupHostActive := None;
               editorHostActive := None; focused := None |};
  connection := {| connectionState := Connecting; primaryBackend := None; pending := [] |};
  backgroundedTerminalInstances := [];
  reconnectedTerminals := ∅;
  processSupportContextKey := Some processSupport;
  terminalHasBeenCreated := false;
  fired := []
|}.

(** ** The environment *)

(** Configuration values and helpers of other modules, and the part of
    the world the service cannot see into: what a contributed profile
    provider does when it is asked to create a terminal. *)
Class TerminalEnv := {
  (* IWorkbenchEnvironmentService.remoteAuthority *)
  remoteAuthority : option string;
  (* configHelper.config.enablePersistentSessions *)
  enablePersistentSessions : bool;
  (* the getter defaultLocation *)
  defaultLocation : TerminalLocation;
  (* ITerminalProfileService *)
  getDefaultProfile : option TerminalProfile;
  getContributedDefaultProfile : ShellLaunchConfig -> option ExtensionTerminalProfile;
  getContributedProfileProvider :
    string -> string -> option (option LocationOptions -> State -> State);
  (* ITerminalInstanceService.convertProfileToShellLaunchConfig *)
  convertProfileToShellLaunchConfig : option Config -> ShellLaunchConfig;
  (* terminalActions.getCwdForSplit *)
  getCwdForSplit : Instance -> option Cwd;
  (* the getter reconnectionProperties of a terminal instance *)
  reconnectionPropertiesOf : ShellLaunchConfig -> option ReconnectionProperties;
  (* VirtualWorkspaceContext and IRemoteAgentService.getConnection() *)
  isVirtualWorkspace : bool;
  hasRemoteConnection : bool
}.

(** [SIDE_GROUP] of the editor service. *)
Definition SIDE_GROUP : Z := (-2)%Z.

(** ** Array helpers *)

(** [array.indexOf(x)]: the first index of [x], or -1. *)
Definition indexOf (x : nat) (l : list nat) : Z :=
  match list_find (fun y => y = x) l with
  | Some (i, _) => Z.of_nat i
  | None => (-1)%Z
  end.

(** [array.splice(start, 1)]: a negative [start] counts from the end. *)
Definition splice1 (start : Z) (l : list nat) : list nat :=
  let len := Z.of_nat (length l) in
  let actualStart := if (start <? 0)%Z then Z.max (len + start) 0 else Z.min start len in
  delete (Z.to_nat actualStart) l.

Section Service.
Context `{Env : TerminalEnv}.

(** ** Getters *)

Definition groupInstances (st : State) : list nat := concat (groups (hosts st)).

(** [get instances()] *)
Definition instances (st : State) : list nat :=
  groupInstances st ++ editorInstances (hosts st).

Definition getReconnectedTerminals (reconnectionOwner : string) (st : State)
    : option (list nat) :=
  reconnectedTerminals st !! reconnectionOwner.

(** [get isProcessSupportRegistered()]: [!!this._processSupportContextKey.get()] *)
Definition isProcessSupportRegistered (st : State) : bool :=
  match processSupportContextKey st with Some b => b | None => false end.

Definition hasFocus (st : State) (i : nat) : bool :=
  bool_decide (focused (active st) = Some i).

(** [get activeInstance()]: the first of the host terminals (group
    service, then editor service) that has the focus, else
    [_activeInstance]. *)
Definition activeInstance (st : State) : option nat :=
  match List.find (hasFocus st)
          (omap id [groupHostActive (active st); editorHostActive (active st)]) with
  | Some i => Some i
  | None => activeInstance_ (active st)
  end.

(** The object behind an instance reference. *)
Definition instanceOf (st : State) (i : nat) : Instance :=
  default {| shellLaunchConfig := emptyShellLaunchConfig; target := None;
             reconnectionProperties := None |}
          (heap (hosts st) !! i).

(** ** The instance, group and editor services *)

(** These services are injected.  They are modelled by what the terminal
    service relies on: an instance service that makes a new object for
    every call, a group service whose groups are lists of instances, and
    an editor service with a list of instances. *)

(** [ITerminalInstanceService.createInstance]: a new object with the
    next instance id; the target is only set for editor terminals. *)
Definition createInstance (c : ShellLaunchConfig) (t : TerminalLocation) (st : State)
    : nat * State :=
  let i := nextInstanceId (hosts st) in
  let obj := {| shellLaunchConfig := c;
                target := match t with Editor => Some Editor | Panel => None end;
                reconnectionProperties := reconnectionPropertiesOf c |} in
  (i, with_hosts st {| heap := <[i := obj]> (heap (hosts st));
                       nextInstanceId := S i;
                       groups := groups (hosts st);
                       editorInstances := editorInstances (hosts st) |}).

Definition addGroup (g : list nat) (st : State) : State :=
  with_hosts st {| heap := heap (hosts st); nextInstanceId := nextInstanceId (hosts st);
                   groups := groups (hosts st) ++ [g];
                   editorInstances := editorInstances (hosts st) |}.

Definition addEditorInstance (i : nat) (st : State) : State :=
  with_hosts st {| heap := heap (hosts st); nextInstanceId := nextInstanceId (hosts st);
                   groups := groups (hosts st);
                   editorInstances := editorInstances (hosts st) ++ [i] |}.

(** [ITerminalGroupService.createGroup(shellLaunchConfig)]; the result is
    [group.terminalInstances[0]]. *)
Definition createGroup (c : ShellLaunchConfig) (st : State) : nat * State :=
  let '(i, st) := createInstance c Panel st in (i, addGroup [i] st).

(** [ITerminalGroupService.getGroupForInstance]: the index of the group. *)
Definition getGroupForInstance (i : nat) (st : State) : option nat :=
  fst <$> list_find (fun g => i ∈ g) (groups (hosts st)).

(** [group.split(shellLaunchConfig)] on the group of index [g]. *)
Definition splitGroup (g : nat) (c : ShellLaunchConfig) (st : State) : nat * State :=
  let '(i, st) := createInstance c Panel st in
  (i, with_hosts st {| heap := heap (hosts st); nextInstanceId := nextInstanceId (hosts st);
                       groups := alter (fun l => l ++ [i]) g (groups (hosts st));
                       editorInstances := editorInstances (hosts st) |}).

(** [ITerminalEditorService.splitInstance] *)
Definition splitInstance (c : ShellLaunchConfig) (st : State) : nat * State :=
  let '(i, st) := createInstance c Editor st in (i, addEditorInstance i st).

(** ** Reconnected terminals *)

Definition _addToReconnected (instance : nat) (st : State) : State :=
  match reconnectionProperties (instanceOf st instance) with
  | Some props =>
      match reconnectedTerminals st !! ownerId props with
      | Some terminals =>
          with_reconnected st
            (<[ownerId props := terminals ++ [instance]]> (reconnectedTerminals st))
      | None =>
          with_reconnected st (<[ownerId props := [instance]]> (reconnectedTerminals st))
      end
  | None => st
  end.

(** ** Creating terminals *)

Definition cwd_truthy (c : option Cwd) : bool :=
  match c with
  | Some (CwdString s) => negb (String.eqb s EmptyString)
  | Some (CwdOfUri _) => true
  | None => false
  end.

Definition _splitTerminal (c : ShellLaunchConfig) (loc : TerminalLocation) (parent : nat)
    (st : State) : Result nat * State :=
  let parentObj := instanceOf st parent in
  let c :=
    match cwd c, cwd (shellLaunchConfig parentObj) with
    | Some (CwdOfUri _), _ => c
    | own, Some (CwdOfUri p) =>
        slc_with_cwd c
          (Some (CwdOfUri {| scheme := scheme p; authority := authority p;
                             path := match own with
                                     | Some (CwdString s) =>
                                         if String.eqb s EmptyString then path p else s
                                     | _ => path p
                                     end |}))
    | _, _ => c
    end in
  let isEditor :=
    match loc, target parentObj with
    | Editor, _ | _, Some Editor => true
    | _, _ => false
    end in
  if isEditor then
    let '(i, st) := splitInstance c st in (Ok i, _addToReconnected i st)
  else
    match getGroupForInstance parent st with
    | None => (Err (Error "Cannot split a terminal without a group"), st)
    | Some g =>
        let '(i, st) := splitGroup g (slc_with_parentTerminalId c parent) st in
        (Ok i, _addToReconnected i st)
    end.

Definition _createTerminal (c : ShellLaunchConfig) (loc : TerminalLocation) (st : State)
    : nat * State :=
  match loc with
  | Editor =>
      let '(i, st) := createInstance c Editor st in
      let st := addEditorInstance i st in
      (i, _addToReconnected i st)
  | Panel =>
      let '(i, st) := createGroup c st in
      (i, _addToReconnected i st)
  end.

Definition resolveLocation (loc : option LocationOptions) (st : State)
    : option TerminalLocation :=
  match loc with
  | Some (ParentTerminal p) => Some (default Panel (target (instanceOf st p)))
  | Some (ViewColumn _) => Some Editor
  | Some (SplitActiveTerminal _) =>
      Some (default Panel
              (i ← activeInstance_ (active st); target (instanceOf st i)))
  | Some (AtLocation l) => Some l
  | None => None
  end.

Definition _getSplitParent (loc : option LocationOptions) (st : State) : option nat :=
  match loc with
  | Some (ParentTerminal p) => Some p
  | Some (SplitActiveTerminal _) => activeInstance st
  | _ => None
  end.

Definition _resolveCwd (c : ShellLaunchConfig) (splitActiveTerminal : bool)
    (options : CreateTerminalOptions) (st : State) : Result ShellLaunchConfig :=
  if cwd_truthy (cwd c) then Ok c
  else if cwd_truthy (opt_cwd options) then Ok (slc_with_cwd c (opt_cwd options))
  else
    match splitActiveTerminal, location options with
    | true, Some loc =>
        let parent :=
          match loc with
          | ParentTerminal p => Some p
          | _ => activeInstance st
          end in
        match parent with
        | None => Err (Error "Cannot split without an active instance")
        | Some p => Ok (slc_with_cwd c (getCwdForSplit (instanceOf st p)))
        end
    | _, _ => Ok c
    end.

Definition _evaluateLocalCwd (c : ShellLaunchConfig) : ShellLaunchConfig :=
  match cwd c with
  | Some (CwdOfUri u) =>
      if String.eqb (scheme u) "file" then
        if isVirtualWorkspace then slc_with_initialText c LocalTerminalVirtualWorkspace
        else if hasRemoteConnection then slc_with_initialText c LocalTerminalRemote
        else c
      else c
  | _ => c
  end.

(** [createContributedTerminalProfile]: without a provider an error is
    notified; otherwise the provider does whatever it does. *)
Definition createContributedTerminalProfile (profile : ExtensionTerminalProfile)
    (loc : option LocationOptions) (st : State) : State :=
  match getContributedProfileProvider (extensionIdentifier profile) (profileId profile) with
  | None => st
  | Some provider => provider loc st
  end.

(** The branch [if (shellLaunchConfig.hideFromUser)] of [createTerminal]. *)
Definition createBackgroundTerminal (c : ShellLaunchConfig) (st : State) : nat * State :=
  let '(i, st) := createInstance c Panel st in
  (i, with_hasBeenCreated
        (with_backgrounded st (backgroundedTerminalInstances st ++ [i]))).

Definition processSupportError : Exn :=
  Error "Could not create terminal when process support is not registered".

(** [options?.config || this._terminalProfileService.getDefaultProfile()] *)
Definition configOf (options : CreateTerminalOptions) : option Config :=
  match config options with
  | Some c => Some c
  | None => ConfigProfile <$> getDefaultProfile
  end.

(** The [shellLaunchConfig] of [createTerminal], before [_resolveCwd]. *)
Definition shellLaunchConfigOf (options : CreateTerminalOptions) : ShellLaunchConfig :=
  match configOf options with
  | Some (ConfigExtension _) => emptyShellLaunchConfig
  | cfg => convertProfileToShellLaunchConfig cfg
  end.

(** The [contributedProfile] of [createTerminal]. *)
Definition contributedProfileOf (options : CreateTerminalOptions)
    : option ExtensionTerminalProfile :=
  match configOf options with
  | Some (ConfigExtension e) => Some e
  | _ => match config options with
         | None => getContributedDefaultProfile (shellLaunchConfigOf options)
         | Some _ => None
         end
  end.

(** The [splitActiveTerminal] of [createTerminal]. *)
Definition splitActiveTerminalOf (options : CreateTerminalOptions) : bool :=
  match location options with
  | Some (SplitActiveTerminal b) => b
  | Some (ParentTerminal _) => true
  | _ => false
  end.

(** The [Launch the contributed profile] branch of [createTerminal]. *)
Definition launchContributedProfile (profile : ExtensionTerminalProfile)
    (options : CreateTerminalOptions) (st : State) : Result nat * State :=
  let resolvedLocation := resolveLocation (location options) st in
  let loc :=
    if splitActiveTerminalOf options then
      match resolvedLocation with
      | Some Editor => Some (ViewColumn SIDE_GROUP)
      | _ => Some (SplitActiveTerminal true)
      end
    else
      match location options with
      | Some (ViewColumn v) => Some (ViewColumn v)
      | _ => AtLocation <$> resolvedLocation
      end in
  let st := createContributedTerminalProfile profile loc st in
  let hostInstances :=
    match resolvedLocation with
    | Some Editor => editorInstances (hosts st)
    | _ => groupInstances st
    end in
  (* [instanceHost.instances[instanceHost.instances.length - 1]] *)
  match last hostInstances with
  | None => (Err TypeError, st)            (* [instance.focusWhenReady()] *)
  | Some instance => (Ok instance, with_hasBeenCreated st)
  end.

(** The end of [createTerminal], after the process support guard: a
    background terminal, a split or a new terminal. *)
Definition launchTerminal (shellLaunchConfig : ShellLaunchConfig)
    (options : CreateTerminalOptions) (st : State) : Result nat * State :=
  if hideFromUser shellLaunchConfig then
    let '(i, st) := createBackgroundTerminal shellLaunchConfig st in (Ok i, st)
  else
    let shellLaunchConfig := _evaluateLocalCwd shellLaunchConfig in
    let loc := default defaultLocation (resolveLocation (location options) st) in
    let parent := _getSplitParent (location options) st in
    let st := with_hasBeenCreated st in
    match parent with
    | Some parent => _splitTerminal shellLaunchConfig loc parent st
    | None =>
        let '(i, st) := _createTerminal shellLaunchConfig loc st in (Ok i, st)
    end.

Definition createTerminal (options : CreateTerminalOptions) (st : State)
    : Result nat * State :=
  match _resolveCwd (shellLaunchConfigOf options) (splitActiveTerminalOf options)
                    options st with
  | Err e => (Err e, st)
  | Ok shellLaunchConfig =>
      match contributedProfileOf options with
      | Some profile => launchContributedProfile profile options st
      | None =>
          if negb (customPtyImplementation shellLaunchConfig)
             && negb (isProcessSupportRegistered st)
          then (Err processSupportError, st)
          else launchTerminal shellLaunchConfig options st
      end
  end.

(** ** Background terminals *)

Definition _showBackgroundTerminal (instance : nat) (st : State) : State :=
  let st := with_backgrounded st
              (splice1 (indexOf instance (backgroundedTerminalInstances st))
                       (backgroundedTerminalInstances st)) in
  let obj := instanceOf st instance in
  let obj := {| shellLaunchConfig := slc_with_hideFromUser (shellLaunchConfig obj) false;
                target := target obj;
                reconnectionProperties := reconnectionProperties obj |} in
  let st := with_hosts st {| heap := <[instance := obj]> (heap (hosts st));
                             nextInstanceId := nextInstanceId (hosts st);
                             groups := groups (hosts st);
                             editorInstances := editorInstances (hosts st) |} in
  (* [this._terminalGroupService.createGroup(instance)] *)
  let st := addGroup [instance] st in
  fire OnDidChangeGroups (fire OnDidChangeInstances st).

Definition setActiveInstance (value : nat) (st : State) : State :=
  if hideFromUser (shellLaunchConfig (instanceOf st value))
  then _showBackgroundTerminal value st
  else st.

Definition _evaluateActiveInstance (host : InstanceHost) (instance : option nat)
    (st : State) : State :=
  let a := active st in
  let a := match host with
           | GroupHost => {| activeInstance_ := activeInstance_ a;
                             groupHostActive := instance;
                             editorHostActive := editorHostActive a;
                             focused := focused a |}
           | EditorHost => {| activeInstance_ := activeInstance_ a;
                              groupHostActive := groupHostActive a;
                              editorHostActive := instance;
                              focused := focused a |}
           end in
  let instance :=
    match instance with
    | Some i => Some i
    | None => match editorHostActive a with
              | Some j => Some j
              | None => groupHostActive a
              end
    end in
  fire (OnDidChangeActiveInstance instance)
    (with_active st {| activeInstance_ := instance;
                       groupHostActive := groupHostActive a;
                       editorHostActive := editorHostActive a;
                       focused := focused a |}).

(** ** Connection state *)

Definition _setConnected (st : State) : State :=
  fire OnDidChangeConnectionState
    (with_connection st {| connectionState := Connected;
                           primaryBackend := primaryBackend (connection st);
                           pending := pending (connection st) |}).

Definition string_truthy (s : option string) : bool :=
  match s with
  | Some s => negb (String.eqb s EmptyString)
  | None => false
  end.

(** The reconnection that [handleNewRegisteredBackend] starts. *)
Definition reconnection : Reconnection :=
  let isPersistentRemote := string_truthy remoteAuthority && enablePersistentSessions in
  if isPersistentRemote then ReconnectToRemoteTerminals
  else if enablePersistentSessions then ReconnectToLocalTerminals
  else ResolvedPromise.

Definition handleNewRegisteredBackend (backend : Backend) (st : State) : State :=
  if bool_decide (backendRemoteAuthority backend = remoteAuthority) then
    with_connection st {| connectionState := Connecting;
                          primaryBackend := Some backend;
                          pending := pending (connection st) ++ [reconnection] |}
  else st.

(** The pending promise of index [n] settles.  When it is fulfilled the
    callback given to [then] runs, which is [_setConnected]; nothing was
    registered for a rejection.  [Promise.resolve()] is always
    fulfilled. *)
Definition settle (n : nat) (fulfilled : bool) (st : State) : State :=
  match pending (connection st) !! n with
  | None => st
  | Some r =>
      let st := with_connection st {| connectionState := connectionState (connection st);
                                      primaryBackend := primaryBackend (connection st);
                                      pending := delete n (pending (connection st)) |} in
      match r, fulfilled with
      | ResolvedPromise, _ | _, true => _setConnected st
      | _, false => st
      end
  end.

(** ** Histories *)

(** What happens to a service over time, as far as the bookkeeping of
    instances goes: the three ways in which [createTerminal] creates an
    instance itself (the end of [launchTerminal]), [setActiveInstance], and
    the active instance events of the two hosts. *)
Inductive Op :=
| OpCreate (c : ShellLaunchConfig) (loc : TerminalLocation)
| OpSplit (c : ShellLaunchConfig) (loc : TerminalLocation) (parent : nat)
| OpBackground (c : ShellLaunchConfig)
| OpSetActive (value : nat)
| OpEvaluateActive (host : InstanceHost) (instance : option nat).

(** [createTerminal] takes the background branch exactly for the
    configurations with [hideFromUser]. *)
Definition valid_op (op : Op) : Prop :=
  match op with
  | OpCreate c _ | OpSplit c _ _ => hideFromUser c = false
  | OpBackground c => hideFromUser c = true
  | _ => True
  end.

(** The next state, and the instance that [_createTerminal] or
    [_splitTerminal] returned, if one of them ran. *)
Definition step (op : Op) (st : State) : State * option nat :=
  match op with
  | OpCreate c loc =>
      let '(i, st) := _createTerminal c loc (with_hasBeenCreated st) in (st, Some i)
  | OpSplit c loc parent =>
      match _splitTerminal c loc parent (with_hasBeenCreated st) with
      | (Ok i, st) => (st, Some i)
      | (Err _, st) => (st, None)
      end
  | OpBackground c => (snd (createBackgroundTerminal c st), None)
  | OpSetActive value => (setActiveInstance value st, None)
  | OpEvaluateActive host instance => (_evaluateActiveInstance host instance st, None)
  end.

Fixpoint run (ops : list Op) (st : State) (created : list nat) : State * list nat :=
  match ops with
  | [] => (st, created)
  | op :: rest =>
      let '(st, i) := step op st in
      run rest st (created ++ option_list i)
  end.

(** The instances among [created] whose reconnection owner is [owner]. *)
Definition ownedBy (st : State) (owner : string) (created : list nat) : list nat :=
  List.filter
    (fun i => bool_decide (ownerId <$> reconnectionProperties (instanceOf st i) = Some owner))
    created.

(** A JavaScript array that was never created is [undefined]. *)
Definition nonempty (l : list nat) : option (list nat) :=
  match l with [] => None | _ => Some l end.

(** [instance] was appended to the reconnected terminals of its owner,
    between [st] and [st']; an instance without reconnection properties
    leaves the map alone. *)
Definition appended (st st' : State) (instance : nat) : Prop :=
  match reconnectionProperties (instanceOf st' instance) with
  | Some props =>
      reconnectedTerminals st' =
      <[ownerId props := default [] (reconnectedTerminals st !! ownerId props) ++ [instance]]>
        (reconnectedTerminals st)
  | None => reconnectedTerminals st' = reconnectedTerminals st
  end.

(** Instance ids are handed out in increasing order. *)
Definition fresh (st : State) (l : list nat) : Prop :=
  forall i, i ∈ l -> i < nextInstanceId (hosts st).

(** The reconnected terminals are those of [created], owner by owner. *)
Definition recorded (st : State) (created : list nat) : Prop :=
  fresh st created /\
  forall owner, reconnectedTerminals st !! owner = nonempty (ownedBy st owner created).

(** Background terminals are kept apart from the instances of the two
    hosts, and they are the instances still marked [hideFromUser]. *)
Definition wellFormed (st : State) : Prop :=
  fresh st (instances st) /\
  fresh st (backgroundedTerminalInstances st) /\
  NoDup (backgroundedTerminalInstances st) /\
  (forall i, i ∈ backgroundedTerminalInstances st -> i ∉ instances st) /\
  (forall i, hideFromUser (shellLaunchConfig (instanceOf st i)) = true ->
             i ∈ backgroundedTerminalInstances st).

(** The instance is in the background: in the backgrounded list, and
    still marked [hideFromUser]. *)
Definition parked (st : State) (i : nat) : Prop :=
  i ∈ backgroundedTerminalInstances st /\
  hideFromUser (shellLaunchConfig (instanceOf st i)) = true.

(** ** The claim on the errors of [createTerminal], as it is worded *)



End Service.

(** The active instance is the active terminal of one of the two hosts,
    and there is one as soon as a host has one. *)
Definition activeFollowsHosts (st : State) : Prop :=
  (activeInstance_ (active st) = groupHostActive (active st) \/
   activeInstance_ (active st) = editorHostActive (active st)) /\
  (activeInstance_ (active st) = None ->
   groupHostActive (active st) = None /\ editorHostActive (active st) = None).

(** ** A concrete environment, for running the service *)

#[export] Instance localEnv : TerminalEnv := {
  remoteAuthority := None;
  enablePersistentSessions := true;
  defaultLocation := Panel;
  getDefaultProfile := Some {| profileName := "bash" |};
  getContributedDefaultProfile _ := None;
  getContributedProfileProvider _ _ := None;
  convertProfileToShellLaunchConfig cfg :=
    match cfg with
    | Some (ConfigShellLaunch c) => c
    | _ => emptyShellLaunchConfig
    end;
  getCwdForSplit i := cwd (shellLaunchConfig i);
  reconnectionPropertiesOf := slc_reconnectionProperties;
  isVirtualWorkspace := false;
  hasRemoteConnection := false
}.

Definition noOptions : CreateTerminalOptions :=
  {| config := None; opt_cwd := None; location := None |}.


Definition taskConfig (owner : string) : ShellLaunchConfig := {|
  customPtyImplementation := false; hideFromUser := false; cwd := None;
  parentTerminalId := None;
  slc_reconnectionProperties := Some {| ownerId := owner; data := "d" |};
  initialText := None; launchType := None
|}.

Definition hiddenConfig : ShellLaunchConfig :=
  slc_with_hideFromUser emptyShellLaunchConfig true.

(** [{ config: { hideFromUser: true } }] *)
Definition hiddenOptions : CreateTerminalOptions :=
  {| config := Some (ConfigShellLaunch hiddenConfig); opt_cwd := None; location := None |}.

Definition localBackend : Backend := {| backendRemoteAuthority := None |}.

(** A task terminal of owner [Task] in the panel, then a split of it. *)
Definition historyA : list Op :=
  [OpCreate (taskConfig "Task") Panel; OpSplit (taskConfig "Task") Panel 1].

(** The service after the first step of [historyA]. *)
Definition stateA : State :=
  fst (run [OpCreate (taskConfig "Task") Panel] (initial true) []).

(** ** Looking up instances *)

(** The index that a loop [forEach((x, i) => { if (x === id) index = i })]
    leaves in [index], which starts at -1: the last index of [x]. *)
Definition lastIndexOf (x : nat) (l : list nat) : Z :=
  fst (foldl (fun '(index, i) y => (if bool_decide (y = x) then i else index, (i + 1)%Z))
             ((-1)%Z, 0%Z) l).

Section Lookup.
Context `{Env : TerminalEnv}.

Definition _getIndexFromId (terminalId : nat) (st : State) : Result nat :=
  let terminalIndex := lastIndexOf terminalId (instances st) in
  if (terminalIndex =? -1)%Z then
    Err (Error ("Terminal with ID "
                ++ NilZero.string_of_uint (Nat.to_uint terminalId)
                ++ " does not exist (has it already been disposed?)"))
  else Ok (Z.to_nat terminalIndex).

Definition getInstanceFromId (terminalId : nat) (st : State) : option nat :=
  let bgIndex := lastIndexOf terminalId (backgroundedTerminalInstances st) in
  if negb (bgIndex =? -1)%Z then backgroundedTerminalInstances st !! Z.to_nat bgIndex
  else
    match _getIndexFromId terminalId st with
    | Ok terminalIndex => instances st !! terminalIndex
    | Err _ => None
    end.

(** [getInstanceHost]; the result [TheService] is [this], the terminal
    service itself. *)
Inductive TerminalInstanceHost := TheGroupService | TheEditorService | TheService.

Definition getInstanceHost (loc : option LocationOptions) (st : State)
    : TerminalInstanceHost :=
  match loc with
  | Some (AtLocation Editor) => TheEditorService
  | Some (AtLocation Panel) => TheGroupService
  | Some (ViewColumn _) => TheEditorService
  | Some (ParentTerminal p) =>
      match target (instanceOf st p) with
      | Some Editor => TheEditorService
      | _ => TheGroupService
      end
  | Some (SplitActiveTerminal _) => TheService
  | None => TheService
  end.

End Lookup.

(** ** Lifecycle *)

(** The fields of the service that [State] leaves out and that matter
    when the window shuts down, with the calls that the service makes on
    instances and on other services ([effects], in call order).  The
    decorator [debounce] of [_saveState] is left out: [_saveState] is the
    body that runs when the debounced call fires. *)

Inductive ShutdownReason := CLOSE | QUIT | RELOAD | LOAD.

(** [config.persistentSessionReviveProcess] *)
Inductive ReviveProcess := OnExit | OnExitAndWindowClose | NeverRevive.

(** [config.confirmOnExit] *)
Inductive ConfirmOnExit := ExitNever | ExitAlways | ExitHasChildProcesses.

(** [config.confirmOnKill] *)
Inductive ConfirmOnKill := KillNever | KillEditor | KillPanel | KillAlways.

Inductive TerminalExitReason := ExitShutdown | ExitUser.

(** The two messages of [_showTerminalCloseConfirmation]. *)
Inductive CloseMessage := Singular | Plural (count : nat).

(** What [group.getLayoutInfo(isActive)] is given, and for which group. *)
Record TabLayout := { tab_isActive : bool; tab_instances : list nat }.

Inductive Effect :=
| FireDidRegisterProcessSupport
| GetWindowCount
| PersistTerminalState
| ConfirmClose (message : CloseMessage)
| DetachProcessAndDispose (instance : nat) (reason : TerminalExitReason)
| DisposeInstance (instance : nat) (reason : TerminalExitReason)
| SetTerminalLayoutInfo (tabs : option (list TabLayout)).

(** An [IEditableData] object. *)
Inductive EditableData := editableData (id : nat).

Record Lifecycle := {
  service : State;
  isShuttingDown : bool;                        (* [_isShuttingDown] *)
  shutdownWindowCount : option Z;               (* [_shutdownWindowCount] *)
  nativeDelegate : bool;                        (* [_nativeDelegate] is set *)
  editable : option (nat * EditableData);       (* [_editable] *)
  activeGroup : option nat;                     (* the active group, by index *)
  effects : list Effect
}.

Definition started (st : State) : Lifecycle := {|
  service := st; isShuttingDown := false; shutdownWindowCount := None;
  nativeDelegate := false; editable := None; activeGroup := None; effects := []
|}.

Definition with_service (lc : Lifecycle) (st : State) : Lifecycle := {|
  service := st; isShuttingDown := isShuttingDown lc;
  shutdownWindowCount := shutdownWindowCount lc; nativeDelegate := nativeDelegate lc;
  editable := editable lc; activeGroup := activeGroup lc; effects := effects lc |}.

Definition shutting (lc : Lifecycle) : Lifecycle := {|
  service := service lc; isShuttingDown := true;
  shutdownWindowCount := shutdownWindowCount lc; nativeDelegate := nativeDelegate lc;
  editable := editable lc; activeGroup := activeGroup lc; effects := effects lc |}.

Definition with_shutdownWindowCount (lc : Lifecycle) (n : option Z) : Lifecycle := {|
  service := service lc; isShuttingDown := isShuttingDown lc;
  shutdownWindowCount := n; nativeDelegate := nativeDelegate lc;
  editable := editable lc; activeGroup := activeGroup lc; effects := effects lc |}.

Definition with_editable (lc : Lifecycle) (e : option (nat * EditableData)) : Lifecycle := {|
  service := service lc; isShuttingDown := isShuttingDown lc;
  shutdownWindowCount := shutdownWindowCount lc; nativeDelegate := nativeDelegate lc;
  editable := e; activeGroup := activeGroup lc; effects := effects lc |}.

Definition setNativeDelegate (lc : Lifecycle) : Lifecycle := {|
  service := service lc; isShuttingDown := isShuttingDown lc;
  shutdownWindowCount := shutdownWindowCount lc; nativeDelegate := true;
  editable := editable lc; activeGroup := activeGroup lc; effects := effects lc |}.

Definition does (lc : Lifecycle) (l : list Effect) : Lifecycle := {|
  service := service lc; isShuttingDown := isShuttingDown lc;
  shutdownWindowCount := shutdownWindowCount lc; nativeDelegate := nativeDelegate lc;
  editable := editable lc; activeGroup := activeGroup lc; effects := effects lc ++ l |}.

Definition with_processSupport (st : State) (b : bool) : State := {|
  hosts := hosts st; active := active st; connection := connection st;
  backgroundedTerminalInstances := backgroundedTerminalInstances st;
  reconnectedTerminals := reconnectedTerminals st;
  processSupportContextKey := Some b;
  terminalHasBeenCreated := terminalHasBeenCreated st; fired := fired st |}.

(** What was done between two states of the service. *)
Definition since (lc lc' : Lifecycle) : list Effect :=
  drop (length (effects lc)) (effects lc').

Definition is_reload (reason : ShutdownReason) : bool :=
  match reason with RELOAD => true | _ => false end.

(** The platform, the configuration and what an instance answers. *)
Class LifecycleEnv := {
  isWeb : bool;
  isMacintosh : bool;
  persistentSessionReviveProcess : ReviveProcess;
  confirmOnExit : ConfirmOnExit;
  confirmOnKill : ConfirmOnKill;
  hasChildProcesses : nat -> bool
}.

(** What the awaited calls of [_onBeforeShutdown] answer: the native
    delegate, the race of [persistTerminalState] with the timeout of two
    seconds, and the [confirmed] of the dialog. *)
Record Answers := {
  getWindowCount : Result Z;
  persisted : Result unit;
  confirmed : Result bool
}.

Section LifecycleMethods.
Context `{Env : TerminalEnv} `{LEnv : LifecycleEnv}.

Definition registerProcessSupport (isSupported : bool) (lc : Lifecycle) : Lifecycle :=
  if negb isSupported then lc
  else does (with_service lc (with_processSupport (service lc) isSupported))
            [FireDidRegisterProcessSupport].

Definition _shouldReviveProcesses (reason : ShutdownReason) (lc : Lifecycle) : bool :=
  if negb enablePersistentSessions then false
  else
    match persistentSessionReviveProcess with
    | OnExit =>
        match reason with
        | CLOSE =>
            if bool_decide (shutdownWindowCount lc = Some 1%Z) && negb isMacintosh
            then true else false
        | LOAD | QUIT => true
        | RELOAD => false
        end
    | OnExitAndWindowClose =>
        match reason with RELOAD => false | _ => true end
    | NeverRevive => false
    end.

Definition _showTerminalCloseConfirmation (singleTerminal : bool)
    (answer : Result bool) (lc : Lifecycle) : Result bool * Lifecycle :=
  let count := length (instances (service lc)) in
  let message := if (count =? 1)%nat || singleTerminal then Singular else Plural count in
  let lc := does lc [ConfirmClose message] in
  match answer with
  | Ok confirmed => (Ok (negb confirmed), lc)
  | Err e => (Err e, lc)
  end.

Definition _onBeforeShutdownConfirmation (a : Answers) (lc : Lifecycle)
    : Result bool * Lifecycle :=
  match _showTerminalCloseConfirmation false (confirmed a) lc with
  | (Ok veto, lc) => (Ok veto, if negb veto then shutting lc else lc)
  | (Err e, lc) => (Err e, lc)
  end.

(** [hasDirtyInstances] of [_onBeforeShutdownAsync] *)
Definition hasDirtyInstances (st : State) : bool :=
  match confirmOnExit with
  | ExitAlways => (0 <? length (instances st))%nat
  | ExitHasChildProcesses => existsb hasChildProcesses (instances st)
  | ExitNever => false
  end.

(** The [try] block of [_onBeforeShutdownAsync]: [None] when it runs to
    its end or when its exception is swallowed by the [catch], otherwise
    what it returns (the promise of the confirmation, which is returned
    without [await], so that the [catch] does not see its rejection). *)
Definition _onBeforeShutdownAsync_try (reason : ShutdownReason) (a : Answers)
    (lc : Lifecycle) : option (Result bool * Lifecycle) * Lifecycle :=
  let '(count, lc) :=
    if nativeDelegate lc
    then (match getWindowCount a with Ok n => Ok (Some n) | Err e => Err e end,
          does lc [GetWindowCount])
    else (Ok None, lc) in
  match count with
  | Err _ => (None, lc)
  | Ok n =>
      let lc := with_shutdownWindowCount lc n in
      let '(p, lc) :=
        if _shouldReviveProcesses reason lc then
          match primaryBackend (connection (service lc)) with
          | Some _ => (persisted a, does lc [PersistTerminalState])
          | None => (Ok tt, lc)
          end
        else (Ok tt, lc) in
      match p with
      | Err _ => (None, lc)
      | Ok _ =>
          let shouldPersistProcesses :=
            enablePersistentSessions
            && match reason with RELOAD => true | _ => false end in
          if negb shouldPersistProcesses && hasDirtyInstances (service lc)
          then (Some (_onBeforeShutdownConfirmation a lc), lc)
          else (None, lc)
      end
  end.

Definition _onBeforeShutdownAsync (reason : ShutdownReason) (a : Answers)
    (lc : Lifecycle) : Result bool * Lifecycle :=
  match instances (service lc) with
  | [] => (Ok false, lc)
  | _ =>
      match _onBeforeShutdownAsync_try reason a lc with
      | (Some r, _) => r
      | (None, lc) => (Ok false, shutting lc)
      end
  end.

Definition _onBeforeShutdown (reason : ShutdownReason) (a : Answers) (lc : Lifecycle)
    : Result bool * Lifecycle :=
  if isWeb then (Ok false, shutting lc)
  else _onBeforeShutdownAsync reason a lc.

Definition _onWillShutdown (reason : ShutdownReason) (lc : Lifecycle) : Lifecycle :=
  let shouldPersistTerminals :=
    enablePersistentSessions && match reason with RELOAD => true | _ => false end in
  if shouldPersistTerminals then
    does lc (map (fun i => DetachProcessAndDispose i ExitShutdown)
                 (groupInstances (service lc)))
  else
    let lc := does lc (map (fun i => DisposeInstance i ExitShutdown)
                           (groupInstances (service lc))) in
    if negb (_shouldReviveProcesses reason lc) then
      match primaryBackend (connection (service lc)) with
      | Some _ => does lc [SetTerminalLayoutInfo None]
      | None => lc
      end
    else lc.

Definition _saveState (lc : Lifecycle) : Lifecycle :=
  if isShuttingDown lc then lc
  else if negb enablePersistentSessions then lc
  else
    let tabs :=
      imap (fun i g => {| tab_isActive := bool_decide (activeGroup lc = Some i);
                          tab_instances := g |})
           (groups (hosts (service lc))) in
    match primaryBackend (connection (service lc)) with
    | Some _ => does lc [SetTerminalLayoutInfo (Some tabs)]
    | None => lc
    end.

(** [safeDisposeTerminal]; the promise it returns resolves when the
    instance has exited. *)
Definition safeDisposeTerminal (instance : nat) (answer : Result bool) (lc : Lifecycle)
    : Result unit * Lifecycle :=
  let notEditor :=
    match target (instanceOf (service lc) instance) with
    | Some Editor => false
    | _ => true
    end in
  let asks :=
    notEditor && hasChildProcesses instance
    && match confirmOnKill with KillPanel | KillAlways => true | _ => false end in
  if asks then
    match _showTerminalCloseConfirmation true answer lc with
    | (Err e, lc) => (Err e, lc)
    | (Ok true, lc) => (Ok tt, lc)
    | (Ok false, lc) => (Ok tt, does lc [DisposeInstance instance ExitUser])
    end
  else (Ok tt, does lc [DisposeInstance instance ExitUser]).

(** ** The editable terminal *)

(** [setEditable], but for the call that tells the view. *)
Definition setEditable (instance : nat) (data : option EditableData) (lc : Lifecycle)
    : Lifecycle :=
  match data with
  | None => with_editable lc None
  | Some data => with_editable lc (Some (instance, data))
  end.

Definition isEditable (instance : option nat) (lc : Lifecycle) : bool :=
  match editable lc with
  | Some (i, _) =>
      match instance with
      | Some j => bool_decide (i = j)
      | None => true
      end
  | None => false
  end.

Definition getEditableData (instance : nat) (lc : Lifecycle) : option EditableData :=
  match editable lc with
  | Some (i, data) => if bool_decide (i = instance) then Some data else None
  | None => None
  end.

End LifecycleMethods.

(** A desktop window that confirms when a terminal has child processes;
    the instance 1 has some. *)
#[export] Instance desktopEnv : LifecycleEnv := {
  isWeb := false;
  isMacintosh := false;
  persistentSessionReviveProcess := OnExit;
  confirmOnExit := ExitHasChildProcesses;
  confirmOnKill := KillPanel;
  hasChildProcesses i := bool_decide (i = 1)
}.

(** [{ location: TerminalLocation.Editor }] *)
Definition inEditor : CreateTerminalOptions :=
  {| config := None; opt_cwd := None; location := Some (AtLocation Editor) |}.

(** The service with one terminal in the panel, which has child
    processes. *)
Definition lifeA : Lifecycle := started stateA.


Definition accepts : Answers :=
  {| getWindowCount := Ok 1%Z; persisted := Ok tt; confirmed := Ok true |}.

(** The dialog fails. *)
Definition dialogFails : Answers :=
  {| getWindowCount := Ok 1%Z; persisted := Ok tt;
     confirmed := Err (Error "dialog") |}.

End Terminal.

(* ===================================================================== *)
(** * Part III: properties of the edit sessions contribution             *)
(* ===================================================================== *)

Module EditSessionsTheory.
Import EditSessions.

Section Laws.
Context {W : Type} `{HostW : Host W} `{Plat : Platform}.

(** ** The monad *)

Lemma bind_Ok {A B} (m : Prog W A) (k : A -> Prog W B) h a h1 t1 :
  m h = (Ok a, h1, t1) ->
  bind m k h = (fst (fst (k a h1)), snd (fst (k a h1)), t1 ++ snd (k a h1)).
Proof. intros E. unfold bind. rewrite E. by destruct (k a h1) as [[? ?] ?]. Qed.

Lemma bind_Err {A B} (m : Prog W A) (k : A -> Prog W B) h e h1 t1 :
  m h = (Err e, h1, t1) -> bind m k h = (Err e, h1, t1).
Proof. intros E. unfold bind. by rewrite E. Qed.

Lemma emits_ret {A} P (a : A) : emits (W:=W) P (ret a).
Proof. intros h. constructor. Qed.

Lemma emits_throw {A} P e : emits (W:=W) (A:=A) P (throw e).
Proof. intros h. constructor. Qed.

Lemma emits_get {A} P (f : W -> A) : emits P (get f).
Proof. intros h. constructor. Qed.

Lemma emits_emit (P : Event -> Prop) ev : P ev -> emits (W:=W) P (emit ev).
Proof. intros Hev h. by repeat constructor. Qed.

Lemma emits_ask {A} (P : Event -> Prop) ev (f : W -> Result A) :
  (forall r, P (ev r)) -> emits P (ask ev f).
Proof. intros Hev h. by repeat constructor. Qed.

Lemma emits_perform {A} (P : Event -> Prop) ev (f : W -> Result A * W) :
  P ev -> emits P (perform ev f).
Proof.
  intros Hev h. unfold calls, perform. destruct (f h). by repeat constructor.
Qed.

Lemma emits_bind {A B} P (m : Prog W A) (k : A -> Prog W B) :
  emits P m -> (forall a, emits P (k a)) -> emits P (bind m k).
Proof.
  intros Hm Hk h. specialize (Hm h). unfold calls, bind in *.
  destruct (m h) as [[[a|e] h1] t1]; simpl in *; [|done].
  specialize (Hk a h1). unfold calls in Hk.
  destruct (k a h1) as [[r h2] t2]; simpl in *. by apply Forall_app.
Qed.

Lemma emits_tryCatch {A} P (m : Prog W A) handler :
  emits P m -> (forall e, emits P (handler e)) -> emits P (tryCatch m handler).
Proof.
  intros Hm Hk h. specialize (Hm h). unfold calls, tryCatch in *.
  destruct (m h) as [[[a|e] h1] t1]; simpl in *; [done|].
  specialize (Hk e h1). unfold calls in Hk.
  destruct (handler e h1) as [[r h2] t2]; simpl in *. by apply Forall_app.
Qed.

Lemma emits_impl {A} (P Q : Event -> Prop) (m : Prog W A) :
  (forall e, P e -> Q e) -> emits P m -> emits Q m.
Proof. intros HPQ Hm h. eapply Forall_impl; [apply Hm|done]. Qed.

Lemma readonly_ret {A} (a : A) : readonly (W:=W) (ret a).
Proof. done. Qed.

Lemma readonly_throw {A} e : readonly (W:=W) (A:=A) (throw e).
Proof. done. Qed.

Lemma readonly_get {A} (f : W -> A) : readonly (get f).
Proof. done. Qed.

Lemma readonly_emit ev : readonly (W:=W) (emit ev).
Proof. done. Qed.

Lemma readonly_ask {A} ev (f : W -> Result A) : readonly (ask ev f).
Proof. done. Qed.

Lemma readonly_bind {A B} (m : Prog W A) (k : A -> Prog W B) :
  readonly m -> (forall a, readonly (k a)) -> readonly (bind m k).
Proof.
  intros Hm Hk h. specialize (Hm h). unfold final, bind in *.
  destruct (m h) as [[[a|e] h1] t1]; simpl in *; [|done].
  specialize (Hk a h1). unfold final in Hk.
  destruct (k a h1) as [[r h2] t2]; simpl in *. congruence.
Qed.

End Laws.

(** One step of a proof that a program only makes calls in [P], or only
    reads: follow the structure of the program. *)
Ltac prog_step :=
  first
    [ solve [eauto]
    | apply emits_ret | apply emits_throw | apply emits_get
    | apply emits_emit; done
    | apply emits_ask; intros; done
    | apply emits_perform; done
    | apply emits_bind; [| intros ?]
    | apply emits_tryCatch; [| intros ?]
    | apply readonly_ret | apply readonly_throw | apply readonly_get
    | apply readonly_emit | apply readonly_ask
    | apply readonly_bind; [| intros ?]
    | match goal with
      | |- emits _ (match ?x with _ => _ end) => destruct x
      | |- readonly (match ?x with _ => _ end) => destruct x
      end ].

Ltac prog := repeat prog_step.

Section Resume.
Context {W : Type} `{HostW : Host W} `{Plat : Platform}.

(** ** Frame properties *)

Lemma willChangeLocalContents_readonly localChanges u change :
  readonly (willChangeLocalContents localChanges u change).
Proof. unfold willChangeLocalContents. prog. Qed.

Lemma matchIdentity_readonly canonical ref force wfs :
  readonly (matchIdentity canonical ref force wfs).
Proof. induction wfs as [|f rest IH]; simpl; prog. Qed.

Lemma findFolderRoot_readonly folder ref force wfs :
  readonly (findFolderRoot folder ref force wfs).
Proof. unfold findFolderRoot. pose proof matchIdentity_readonly. prog. Qed.

Lemma resolveChanges_readonly localChanges root incoming changes conflicting :
  readonly (resolveChanges localChanges root incoming changes conflicting).
Proof.
  revert changes conflicting. pose proof willChangeLocalContents_readonly.
  induction incoming as [|c rest IH]; intros; simpl; prog.
Qed.

Lemma generateChanges_folders_readonly fs ref force wfs changes conflicting :
  readonly (generateChanges_folders fs ref force wfs changes conflicting).
Proof.
  revert changes conflicting.
  pose proof findFolderRoot_readonly. pose proof resolveChanges_readonly.
  induction fs as [|folder rest IH]; intros; simpl; prog.
Qed.

Lemma generateChanges_readonly editSession ref force :
  readonly (generateChanges editSession ref force).
Proof. unfold generateChanges. pose proof generateChanges_folders_readonly. prog. Qed.

Lemma willChangeLocalContents_emits localChanges u change :
  emits quiet (willChangeLocalContents localChanges u change).
Proof. unfold willChangeLocalContents. prog. Qed.

Lemma matchIdentity_emits canonical ref force wfs :
  emits quiet (matchIdentity canonical ref force wfs).
Proof. induction wfs as [|f rest IH]; simpl; prog. Qed.

Lemma resolveChanges_emits localChanges root incoming changes conflicting :
  emits quiet (resolveChanges localChanges root incoming changes conflicting).
Proof.
  revert changes conflicting. pose proof willChangeLocalContents_emits.
  induction incoming as [|c rest IH]; intros; simpl; prog.
Qed.

(** [generateChanges] only looks. *)
Lemma generateChanges_emits editSession ref force :
  emits quiet (generateChanges editSession ref force).
Proof.
  unfold generateChanges. prog.
  generalize (@nil ResolvedChange) at 1. generalize (@nil ResolvedChange).
  pose proof matchIdentity_emits. pose proof resolveChanges_emits.
  induction (folders editSession) as [|folder rest IH]; intros; simpl;
    unfold findFolderRoot; prog.
Qed.

Lemma applyChanges_emits v changes : emits after_read (applyChanges v changes).
Proof. induction changes as [|[u [] c] rest IH]; simpl; prog. Qed.

Lemma resumeEditSession_try_emits editSession ref force :
  emits after_read (resumeEditSession_try editSession ref force).
Proof.
  unfold resumeEditSession_try. pose proof applyChanges_emits.
  assert (emits after_read (generateChanges editSession ref force))
    by (eapply emits_impl; [|apply generateChanges_emits]; by intros e [? _]).
  prog.
Qed.

(** ** [willChangeLocalContents] *)

(** C4. [willChangeLocalContents] reports a conflict only if the URI of
    the incoming change is among the locally changed SCM resources; and
    for such a URI: for an [Addition], exactly when the SHA-1 of the
    stored contents differs from the SHA-1 of the base64 encoding of the
    current contents of the local file; for a [Deletion], exactly when the
    local file exists; and any other change type raises the error
    'Unhandled change type.'. *)
Theorem willChangeLocalContents_spec (localChanges : gset string) (u : URI)
    (change : Change) (h : W) :
  (result (willChangeLocalContents localChanges u change) h = Ok true ->
   uri_str u ∈ localChanges) /\
  (uri_str u ∈ localChanges ->
   match c_type change with
   | Addition =>
       forall value, fs_readFile h u = Ok value ->
         result (willChangeLocalContents localChanges u change) h =
         Ok (bool_decide (sha1Hex (contents change) <> sha1Hex (Some (encodeBase64 value))))
   | Deletion =>
       result (willChangeLocalContents localChanges u change) h = fs_exists h u
   | OtherChangeType =>
       result (willChangeLocalContents localChanges u change) h =
       Err (JsError "Unhandled change type.")
   end).
Proof.
  unfold result, willChangeLocalContents, bind, ask, ret, throw.
  case_bool_decide as Hin; simpl.
  - split; [done|]. intros _. destruct (c_type change); simpl; [|done..].
    intros value ->. f_equal.
    destruct (String.eqb_spec (sha1Hex (contents change))
                (sha1Hex (Some (encodeBase64 value)))) as [E|E]; simpl.
    + by rewrite bool_decide_eq_false_2; [|intros ?].
    + by rewrite bool_decide_eq_true_2.
  - split; [intros [=]|done].
Qed.

(** ** Matching session folders to workspace folders *)

Lemma readonly_run {A} (m : Prog W A) h :
  readonly m -> m h = (result m h, h, calls m h).
Proof.
  intros Hm. specialize (Hm h). unfold final, result, calls in *.
  destruct (m h) as [[r h1] t1]; simpl in *. by subst.
Qed.

Lemma result_bind_readonly {A B} (m : Prog W A) (k : A -> Prog W B) h :
  readonly m ->
  result (bind m k) h =
  match result m h with Ok a => result (k a) h | Err e => Err e end.
Proof.
  intros Hm. unfold result at 1. unfold bind. rewrite (readonly_run m h Hm).
  destruct (result m h) as [a|e]; [|done].
  unfold result. by destruct (k a h) as [[r h2] t2].
Qed.

Lemma result_get {A} (f : W -> A) h : result (get f) h = Ok (f h).
Proof. done. Qed.





(** ** Early returns of [resumeEditSession] *)

(** What the part before the [try] block does, whatever the host
    answers: it touches no file and deletes no session, and a session that
    was read is handed on exactly when its version is supported. *)
Lemma resumeEditSession_read_spec ref silent h :
  Forall (fun e => modifies_file e = false /\ deletes_session e = false)
         (calls (resumeEditSession_read ref silent) h) /\
  forall q ref' s,
    In (EvStorageRead q (Ok (Some (ref', s)))) (calls (resumeEditSession_read ref silent) h) ->
    if (EditSessionSchemaVersion <? version s)%Z
    then result (resumeEditSession_read ref silent) h = Ok None /\
         In (EvNotify Error ClientTooOld) (calls (resumeEditSession_read ref silent) h)
    else result (resumeEditSession_read ref silent) h = Ok (Some (ref', s)).
Proof.
  unfold calls, result, resumeEditSession_read, bind, perform, get, ask, emit, ret.
  destruct (getEnvironment h) as [[[]|e] h1]; simpl.
  2:{ split; [repeat constructor|]. intros ??? [|[]]; done. }
  destruct (getWorkbenchState h1); simpl.
  1:{ split; [repeat constructor|]. intros ??? [|[]]; done. }
  all: destruct silent; simpl.
  all: try (destruct (storage_initialize h1) as [[[]|e] h2]; simpl).
  all: try (split; [repeat constructor|]; intros ??? [|[|[]]]; done).
  all: match goal with |- context [storage_read ?x ?r] =>
         destruct (storage_read x r) as [[[ref0 s0]|]|?] eqn:E; simpl end.
  all: try destruct (EditSessionSchemaVersion <? version s0)%Z eqn:V; simpl.
  all: try destruct ref; simpl.
  all: split; [repeat constructor|].
  all: intros ? ? ? Hin; simpl in Hin; intuition (try discriminate).
  all: repeat match goal with H : EvStorageRead _ _ = EvStorageRead _ _ |- _ =>
         injection H as <- <- <- end.
  all: rewrite V; simpl; auto 10.
Qed.

(** C9. For every [ref] (and every [silent] and [force]),
    [resumeEditSession] returns without reading the cloud store and
    without modifying any file when the workbench state is [EMPTY]: it
    returns as soon as the remote environment has resolved (and it fails
    as that promise fails), and the only call it has awaited is
    [getEnvironment] of the remote agent service. *)
Theorem resumeEditSession_empty_workspace (ref : option string) (silent force : bool)
    (h : W) :
  getWorkbenchState (snd (getEnvironment h)) = EMPTY ->
  resumeEditSession ref silent force h
  = (fst (getEnvironment h), snd (getEnvironment h), [EvGetEnvironment]) /\
  Forall (fun e => reads_storage e = false /\ modifies_file e = false)
         (calls (resumeEditSession ref silent force) h).
Proof.
  intros Hs.
  assert (resumeEditSession ref silent force h
          = (fst (getEnvironment h), snd (getEnvironment h), [EvGetEnvironment])) as E.
  { revert Hs.
    unfold resumeEditSession, resumeEditSession_read, bind, perform, get, ret.
    destruct (getEnvironment h) as [[[]|e] h1]; simpl; [|done]. by intros ->. }
  split; [done|]. unfold calls. rewrite E. by repeat constructor.
Qed.

(** C8. If [resumeEditSession] reads a session whose version is greater
    than [EditSessionSchemaVersion], it notifies an error ('client too
    old') and returns; it has not written or deleted any workspace file
    and has not deleted the stored session from the cloud store. *)
Theorem resumeEditSession_newer_schema (ref : option string) (silent force : bool)
    (h : W) (q : option string) (ref' : string) (s : EditSession) :
  In (EvStorageRead q (Ok (Some (ref', s)))) (calls (resumeEditSession ref silent force) h) ->
  (EditSessionSchemaVersion < version s)%Z ->
  result (resumeEditSession ref silent force) h = Ok tt /\
  In (EvNotify Error ClientTooOld) (calls (resumeEditSession ref silent force) h) /\
  Forall (fun e => modifies_file e = false /\ deletes_session e = false)
         (calls (resumeEditSession ref silent force) h).
Proof.
  intros Hin Hv.
  destruct (resumeEditSession_read_spec ref silent h) as [Hframe Hread].
  specialize (Hread q ref' s).
  apply Z.ltb_lt in Hv. rewrite Hv in Hread.
  revert Hin Hframe Hread.
  unfold calls, result, resumeEditSession, bind.
  destruct (resumeEditSession_read ref silent h) as [[[[[ref0 s0]|]|e] h1] t1] eqn:E;
    simpl.
  - (* a session was handed on: its version is supported *)
    intros Hin _ Hread. exfalso.
    assert (emits after_read
              (tryCatch (resumeEditSession_try s0 ref0 force)
                        (fun _ => emit (EvNotify Error ResumeFailed)))) as Hafter
      by (pose proof resumeEditSession_try_emits; prog).
    specialize (Hafter h1). unfold calls in Hafter.
    destruct (tryCatch _ _ h1) as [[r2 h2] t2]; simpl in *.
    apply in_app_or in Hin as [Hin|Hin].
    + by destruct (Hread Hin).
    + rewrite Forall_forall in Hafter. by apply list_elem_of_In, Hafter in Hin.
  - rewrite app_nil_r. intros Hin Hframe Hread. by destruct (Hread Hin).
  - intros Hin _ Hread. by destruct (Hread Hin).
Qed.

(** ** Applying an edit session *)

(** A completed run of the loop has written every addition. *)
Lemma applyChanges_writes v changes : forall h h2 t2,
  applyChanges v changes h = (Ok tt, h2, t2) ->
  forall c, In c changes -> rc_type c = Addition ->
    exists content, decodeEditSessionFileContent v (rc_contents c) = Ok content /\
                    In (EvWriteFile (rc_uri c) content) t2.
Proof.
  induction changes as [|[u ty cs] rest IH]; intros h h2 t2 Hrun c Hc Hty; [done|].
  revert Hrun. simpl. unfold bind at 1.
  destruct ty.
  - destruct (decodeEditSessionFileContent v cs) as [content|e] eqn:Hd; [|done].
    unfold perform at 1. destruct (fs_writeFile h u content) as [[[]|e] h1]; [|done].
    destruct (applyChanges v rest h1) as [[r h3] t3] eqn:Hrest.
    intros [= -> -> <-].
    destruct Hc as [<-|Hc]; simpl in *.
    + exists content. auto.
    + destruct (IH _ _ _ Hrest c Hc Hty) as (content' & ? & ?). eauto.
  - destruct Hc as [<-|Hc]; [done|].
    unfold bind at 1, ask at 1.
    destruct (fs_exists h u) as [[]|e]; [| |done].
    + unfold perform at 1. destruct (fs_del h u) as [[[]|e] h1]; [|done].
      destruct (applyChanges v rest h1) as [[r h3] t3] eqn:Hrest.
      intros [= -> -> <-].
      destruct (IH _ _ _ Hrest c Hc Hty) as (content' & ? & ?).
      exists content'. split; [done|]. simpl. auto.
    + unfold ret at 1. simpl.
      destruct (applyChanges v rest h) as [[r h3] t3] eqn:Hrest.
      intros [= -> -> <-].
      destruct (IH _ _ _ Hrest c Hc Hty) as (content' & ? & ?).
      exists content'. split; [done|]. simpl. auto.
  - destruct Hc as [<-|Hc]; [done|].
    unfold ret at 1.
    destruct (applyChanges v rest h) as [[r h3] t3] eqn:Hrest.
    intros [= -> -> <-]. eauto.
Qed.

(** Whatever happens, a file is deleted only for a [Deletion] whose target
    was just found to exist. *)
Lemma applyChanges_deletes v changes : forall h r h2 t2,
  applyChanges v changes h = (r, h2, t2) ->
  forall u, In (EvDel u) t2 ->
    (exists c, In c changes /\ rc_type c = Deletion /\ rc_uri c = u) /\
    (exists pre post, t2 = pre ++ EvExists u (Ok true) :: EvDel u :: post).
Proof.
  induction changes as [|[u0 ty cs] rest IH]; intros h r h2 t2 Hrun u Hin.
  { injection Hrun as <- <- <-. destruct Hin. }
  assert (forall h1 r3 h3 t3 pre,
            applyChanges v rest h1 = (r3, h3, t3) -> ~ In (EvDel u) pre ->
            In (EvDel u) (pre ++ t3) ->
            (exists c, In c ({| rc_uri := u0; rc_type := ty; rc_contents := cs |} :: rest)
                       /\ rc_type c = Deletion /\ rc_uri c = u) /\
            (exists pre' post, pre ++ t3 = pre' ++ EvExists u (Ok true) :: EvDel u :: post))
    as Hrest.
  { intros h1 r3 h3 t3 pre Hr Hpre Hin'.
    apply in_app_or in Hin' as [?|Hin']; [done|].
    destruct (IH _ _ _ _ Hr u Hin') as [(c & ? & ? & ?) (pre' & post & ->)].
    split; [exists c; simpl; auto|].
    exists (pre ++ pre'), post. by rewrite <- app_assoc. }
  revert Hrun Hin. simpl. unfold bind at 1.
  destruct ty.
  - destruct (decodeEditSessionFileContent v cs) as [content|e] eqn:Hd;
      [|intros [= <- <- <-] []].
    unfold perform at 1. destruct (fs_writeFile h u0 content) as [[[]|e] h1].
    + destruct (applyChanges v rest h1) as [[r3 h3] t3] eqn:Hr.
      intros [= <- <- <-] Hin.
      apply (Hrest h1 r3 h3 t3 [EvWriteFile u0 content]); auto. by intros [|[]].
    + intros [= <- <- <-] [|[]]. done.
  - unfold bind at 1, ask at 1.
    destruct (fs_exists h u0) as [[]|e].
    + unfold perform at 1. destruct (fs_del h u0) as [[[]|e] h1].
      * destruct (applyChanges v rest h1) as [[r3 h3] t3] eqn:Hr.
        intros [= <- <- <-] Hin. simpl in Hin.
        destruct Hin as [|[[= <-]|Hin]]; [done| |].
        -- split; [eexists; simpl; eauto|]. by exists [], t3.
        -- destruct (IH _ _ _ _ Hr u Hin) as [(c & ? & ? & ?) (pre' & post & ->)].
           split; [exists c; simpl; auto|].
           by exists (EvExists u0 (Ok true) :: EvDel u0 :: pre'), post.
      * intros [= <- <- <-] Hin. simpl in Hin.
        destruct Hin as [|[[= <-]|[]]]; [done|].
        split; [eexists; simpl; eauto|]. by exists [], [].
    + unfold ret at 1. simpl.
      destruct (applyChanges v rest h) as [[r3 h3] t3] eqn:Hr.
      intros [= <- <- <-] Hin.
      apply (Hrest h r3 h3 t3 [EvExists u0 (Ok false)]); auto. by intros [|[]].
    + intros [= <- <- <-] [|[]]. done.
  - unfold ret at 1.
    destruct (applyChanges v rest h) as [[r3 h3] t3] eqn:Hr.
    intros [= <- <- <-] Hin. apply (Hrest h r3 h3 t3 []); auto.
Qed.

(** C2. When [resumeEditSession] applies an edit session, that is, when
    the session read has non-empty [changes], the user has confirmed the
    conflicts (if there are any) and the loop over the changes runs to its
    end, then: for every change of type [Addition] the decoded contents of
    the session file were written to the target URI; a target was deleted
    only for a [Deletion] whose file had just been found to exist; and
    after these the edit session with that [ref] is deleted from the cloud
    store. *)
Theorem resumeEditSession_applies (ref : option string) (silent force : bool)
    (h h0 h1 h2 : W) (ref' : string) (s : EditSession)
    (changes conflicts : list ResolvedChange) (t0 t1 t2 : list Event) :
  resumeEditSession_read ref silent h = (Ok (Some (ref', s)), h0, t0) ->
  generateChanges s ref' force h0 = (Ok (changes, conflicts), h1, t1) ->
  changes <> [] ->
  (conflicts <> [] -> dialog_confirm h1 (map rc_uri conflicts) = Ok true) ->
  applyChanges (version s) changes h1 = (Ok tt, h2, t2) ->
  (forall c, In c changes -> rc_type c = Addition ->
     exists content,
       decodeEditSessionFileContent (version s) (rc_contents c) = Ok content /\
       In (EvWriteFile (rc_uri c) content) t2) /\
  (forall u, In (EvDel u) t2 ->
     (exists c, In c changes /\ rc_type c = Deletion /\ rc_uri c = u) /\
     (exists pre post, t2 = pre ++ EvExists u (Ok true) :: EvDel u :: post)) /\
  result (resumeEditSession ref silent force) h = Ok tt /\
  final (resumeEditSession ref silent force) h = snd (storage_delete h2 ref') /\
  calls (resumeEditSession ref silent force) h =
    t0 ++ t1
       ++ match conflicts with [] => [] | _ => [EvConfirm (map rc_uri conflicts)] end
       ++ t2 ++ EvStorageDelete ref'
       :: match fst (storage_delete h2 ref') with
          | Ok _ => []
          | Err _ => [EvNotify Error ResumeFailed]
          end.
Proof.
  intros Hread Hgen Hne Hconf Happly.
  split; [by eapply applyChanges_writes|].
  split; [by eapply applyChanges_deletes|].
  assert (resumeEditSession_try s ref' force h0
          = (fst (storage_delete h2 ref'), snd (storage_delete h2 ref'),
             t1 ++ match conflicts with [] => [] | _ => [EvConfirm (map rc_uri conflicts)] end
                ++ t2 ++ [EvStorageDelete ref'])) as Htry.
  { unfold resumeEditSession_try. unfold bind at 1. rewrite Hgen. cbn [fst snd].
    destruct changes as [|c0 changes']; [done|].
    remember (c0 :: changes') as cl eqn:Hcl. clear Hcl.
    unfold bind at 1.
    destruct conflicts as [|c1 conflicts'].
    - unfold ret at 1. cbn [negb]. unfold bind. rewrite Happly.
      unfold perform. by destruct (storage_delete h2 ref').
    - unfold ask at 1. rewrite Hconf by done. cbn [negb]. unfold bind. rewrite Happly.
      unfold perform. by destruct (storage_delete h2 ref'). }
  assert (resumeEditSession ref silent force h
          = (Ok tt, snd (storage_delete h2 ref'),
             t0 ++ t1
                ++ match conflicts with [] => [] | _ => [EvConfirm (map rc_uri conflicts)] end
                ++ t2 ++ EvStorageDelete ref'
                :: match fst (storage_delete h2 ref') with
                   | Ok _ => []
                   | Err _ => [EvNotify Error ResumeFailed]
                   end)) as Hrun.
  { unfold resumeEditSession. unfold bind at 1. rewrite Hread.
    unfold tryCatch. rewrite Htry.
    destruct (storage_delete h2 ref') as [[[]|e] h3]; simpl; [done|].
    by rewrite <- !app_assoc. }
  unfold result, final, calls. by rewrite Hrun.
Qed.

End Resume.

(** ** [storeEditSession] and the set of changed resources *)

(** [getChangedResources] keeps two URI objects apart whatever their
    strings are: only an object that is already in the set is dropped. *)
Lemma getChangedResources_by_reference (root : option URI) (u1 u2 : URI) :
  uri_obj u1 <> uri_obj u2 ->
  getChangedResources {| rootUri := root; groups := [[u1]; [u2]] |} = [u1; u2].
Proof.
  intros Hne. unfold getChangedResources, set_add. simpl.
  apply Nat.eqb_neq in Hne. by rewrite Hne.
Qed.

Lemma getChangedResources_same_object (root : option URI) (u : URI) :
  getChangedResources {| rootUri := root; groups := [[u]; [u]] |} = [u].
Proof. unfold getChangedResources, set_add. simpl. by rewrite Nat.eqb_refl. Qed.

(** Whatever is stored has version 2. *)
Lemma storeEditSession_version {W : Type} `{HostW : Host W} `{Plat : Platform}
    (fromStoreCommand : bool) :
  emits (fun e => forall data, e = EvStorageWrite data -> version data = 2%Z)
        (storeEditSession fromStoreCommand).
Proof.
  assert (forall uris nm hasEdits wc,
            emits (fun e => forall data, e = EvStorageWrite data -> version data = 2%Z)
                  (trackUris uris nm hasEdits wc)) as Htrack.
  { induction uris as [|u rest IH]; intros; simpl; prog. }
  assert (forall repos hasEdits acc,
            emits (fun e => forall data, e = EvStorageWrite data -> version data = 2%Z)
                  (storeRepositories repos hasEdits acc)) as Hrepos.
  { induction repos as [|r rest IH]; intros; simpl; prog. }
  unfold storeEditSession. prog.
  apply emits_perform. by intros ? [= <-].
Qed.

(** The sibling path, [localChanges] of [generateChanges], goes through
    [toString()] and so does identify the two objects. *)
Lemma localChanges_by_value :
  length (getChangedResources repoTwice) = 2 /\
  localChangesOf hostTwice
    {| name := "w"; canonicalIdentity := None; workingChanges := [] |}
  = {[ "file:///w/a.txt"%string ]}.
Proof. split; [reflexivity|]. vm_compute. reflexivity. Qed.

(** C1 (the code departs from it).  C1 has one entry of [workingChanges]
    for every changed URI, duplicates removed.  But a file that shows in
    two resource groups of a repository, through two URI objects with the
    same string, is stored twice: the [workingChanges] of the stored
    folder hold two entries for that one URI. *)
Theorem storeEditSession_stores_uri_twice :
  last (calls (storeEditSession true) hostTwice) =
  Some (EvStorageWrite
          {| version := 2;
             folders := [ {| name := "w"; canonicalIdentity := None;
                             workingChanges := [addition "a.txt" "local";
                                                addition "a.txt" "local"] |} ] |}).
Proof. vm_compute. reflexivity. Qed.

(** ** The theorems at concrete inputs *)

Lemma resumeEditSession_empty_workspace_witness :
  getWorkbenchState (snd (getEnvironment hostEmpty)) = EMPTY /\
  resumeEditSession (Some "r1"%string) false false hostEmpty
  = (Ok tt, hostEmpty, [EvGetEnvironment]).
Proof.
  split; [reflexivity|].
  exact (proj1 (resumeEditSession_empty_workspace (Some "r1"%string) false false
                  hostEmpty eq_refl)).
Defined.

Lemma resumeEditSession_newer_schema_witness :
  In (EvStorageRead None (Ok (Some ("r9"%string, sessionNew))))
     (calls (resumeEditSession None false false) hostNewer) /\
  (EditSessionSchemaVersion < version sessionNew)%Z /\
  result (resumeEditSession None false false) hostNewer = Ok tt /\
  In (EvNotify Error ClientTooOld) (calls (resumeEditSession None false false) hostNewer).
Proof.
  assert (In (EvStorageRead None (Ok (Some ("r9"%string, sessionNew))))
             (calls (resumeEditSession None false false) hostNewer)) as Hin
    by (right; left; reflexivity).
  assert ((EditSessionSchemaVersion < version sessionNew)%Z) as Hv by reflexivity.
  split; [exact Hin|]. split; [exact Hv|].
  destruct (resumeEditSession_newer_schema None false false hostNewer None "r9"%string
              sessionNew Hin Hv) as (Hr & Hn & _).
  split; [exact Hr | exact Hn].
Defined.

Lemma willChangeLocalContents_spec_witness :
  uri_str uriA ∈ localA /\
  fs_readFile host0 uriA = Ok (bytes "local") /\
  result (willChangeLocalContents localA uriA (addition "a.txt" "remote")) host0
  = Ok (bool_decide (sha1Hex (Some "remote"%string)
                     <> sha1Hex (Some (encodeBase64 (bytes "local"))))).
Proof.
  assert (uri_str uriA ∈ localA) as Hin by (by apply elem_of_singleton).
  split; [exact Hin|]. split; [reflexivity|].
  exact (proj2 (willChangeLocalContents_spec localA uriA (addition "a.txt" "remote") host0)
               Hin (bytes "local") eq_refl).
Defined.


Lemma resumeEditSession_applies_witness :
  resumeEditSession_read None false hostStored
  = (Ok (Some ("r1"%string, sessionA)), hostStored,
     calls (resumeEditSession_read None false) hostStored) /\
  generateChanges sessionA "r1" false hostStored = (Ok (changesA, []), hostStored, []) /\
  applyChanges (version sessionA) changesA hostStored
  = (Ok tt, final (applyChanges (version sessionA) changesA) hostStored,
     calls (applyChanges (version sessionA) changesA) hostStored) /\
  result (resumeEditSession None false false) hostStored = Ok tt /\
  calls (resumeEditSession None false false) hostStored
  = calls (resumeEditSession_read None false) hostStored
    ++ [] ++ [] ++ calls (applyChanges (version sessionA) changesA) hostStored
    ++ [EvStorageDelete "r1"].
Proof.
  assert (resumeEditSession_read None false hostStored
          = (Ok (Some ("r1"%string, sessionA)), hostStored,
             calls (resumeEditSession_read None false) hostStored)) as Hread
    by reflexivity.
  assert (generateChanges sessionA "r1" false hostStored
          = (Ok (changesA, []), hostStored, [])) as Hgen by reflexivity.
  assert (applyChanges (version sessionA) changesA hostStored
          = (Ok tt, final (applyChanges (version sessionA) changesA) hostStored,
             calls (applyChanges (version sessionA) changesA) hostStored)) as Happly
    by reflexivity.
  split; [exact Hread|]. split; [exact Hgen|]. split; [exact Happly|].
  destruct (resumeEditSession_applies None false false hostStored hostStored hostStored
              (final (applyChanges (version sessionA) changesA) hostStored)
              "r1"%string sessionA changesA [] _ _ _ Hread Hgen
              ltac:(discriminate) ltac:(intros Hc; by destruct Hc) Happly)
    as (_ & _ & Hr & _ & Hc).
  split; [exact Hr | exact Hc].
Defined.

End EditSessionsTheory.

(* ===================================================================== *)
(** * Part IV: properties of the terminal service                        *)
(* ===================================================================== *)

Module TerminalTheory.
Import Terminal.

Section Connection.
Context `{Env : TerminalEnv}.

(** C5. After [handleNewRegisteredBackend] is invoked with a backend whose
    [remoteAuthority] equals that of the environment, [connectionState]
    is [Connecting] and one reconnection is pending: the remote one when
    there is a (non-empty) remote authority and persistent sessions are
    enabled, the local one when only persistent sessions are enabled, and
    otherwise a promise that is already resolved.  Once that reconnection
    completes, in whatever state the service then is, [connectionState]
    becomes [Connected] and [onDidChangeConnectionState] fires. *)
Theorem handleNewRegisteredBackend_connects (backend : Backend) (st : State) :
  backendRemoteAuthority backend = remoteAuthority ->
  connectionState (connection (handleNewRegisteredBackend backend st)) = Connecting /\
  pending (connection (handleNewRegisteredBackend backend st))
    = pending (connection st) ++ [reconnection] /\
  (reconnection = ReconnectToRemoteTerminals <->
   string_truthy remoteAuthority = true /\ enablePersistentSessions = true) /\
  (reconnection = ReconnectToLocalTerminals <->
   string_truthy remoteAuthority = false /\ enablePersistentSessions = true) /\
  (reconnection = ResolvedPromise <-> enablePersistentSessions = false) /\
  forall (later : State) (n : nat) (fulfilled : bool),
    pending (connection later) !! n = Some reconnection ->
    fulfilled = true \/ enablePersistentSessions = false ->
    connectionState (connection (settle n fulfilled later)) = Connected /\
    fired (settle n fulfilled later) = fired later ++ [OnDidChangeConnectionState].
Proof.
  intros Hauth. unfold handleNewRegisteredBackend.
  rewrite bool_decide_eq_true_2 by done. simpl.
  split; [done|]. split; [done|].
  unfold reconnection.
  destruct (string_truthy remoteAuthority), enablePersistentSessions; simpl;
    (split; [|split; [|split]]); try (split; intros; intuition congruence).
  all: intros later n fulfilled Hn Hf; unfold settle; rewrite Hn.
  all: destruct fulfilled; simpl; try done.
  all: by destruct Hf.
Qed.

End Connection.

Section Create.
Context `{Env : TerminalEnv}.

(** ** The errors of [createTerminal] *)

Lemma _resolveCwd_customPty c split options st c' :
  _resolveCwd c split options st = Ok c' ->
  customPtyImplementation c' = customPtyImplementation c /\
  hideFromUser c' = hideFromUser c.
Proof.
  unfold _resolveCwd.
  repeat case_match; intros [= <-]; done.
Qed.

Lemma _resolveCwd_error c split options st e :
  _resolveCwd c split options st = Err e ->
  e = Error "Cannot split without an active instance".
Proof.
  unfold _resolveCwd.
  repeat case_match; intros [= <-]; done.
Qed.

Lemma _splitTerminal_error c loc parent st e :
  fst (_splitTerminal c loc parent st) = Err e ->
  e = Error "Cannot split a terminal without a group".
Proof.
  unfold _splitTerminal.
  repeat (case_match; simpl); intros [= <-]; done.
Qed.

Lemma launchTerminal_cases c options st :
  (exists i, fst (launchTerminal c options st) = Ok i) \/
  (_getSplitParent (location options) st <> None /\
   fst (launchTerminal c options st)
   = Err (Error "Cannot split a terminal without a group")).
Proof.
  unfold launchTerminal.
  destruct (hideFromUser c).
  { destruct (createBackgroundTerminal c st) as [i st0]. left. by exists i. }
  destruct (_getSplitParent (location options) st) as [parent|].
  - destruct (_splitTerminal _ _ parent _) as [[i|e] st0] eqn:Hs.
    + left. by exists i.
    + right. split; [done|]. simpl. f_equal.
      apply (_splitTerminal_error (_evaluateLocalCwd c)
               (default defaultLocation (resolveLocation (location options) st))
               parent (with_hasBeenCreated st)).
      by rewrite Hs.
  - destruct (_createTerminal _ _ _) as [i st0]. left. by exists i.
Qed.


End Create.

Section Reconnected.
Context `{Env : TerminalEnv}.

(** ** Reconnected terminals *)

Lemma nonempty_default l i :
  Some (default [] (nonempty l) ++ [i]) = nonempty (l ++ [i]).
Proof. by destruct l. Qed.

Lemma _addToReconnected_hosts i st : hosts (_addToReconnected i st) = hosts st.
Proof. unfold _addToReconnected. by repeat case_match. Qed.

Lemma _addToReconnected_backgrounded i st :
  backgroundedTerminalInstances (_addToReconnected i st) = backgroundedTerminalInstances st.
Proof. unfold _addToReconnected. by repeat case_match. Qed.

Lemma instanceOf_hosts st st' i : hosts st' = hosts st -> instanceOf st' i = instanceOf st i.
Proof. unfold instanceOf. by intros ->. Qed.

Lemma _addToReconnected_appended i st : appended st (_addToReconnected i st) i.
Proof.
  unfold appended. rewrite (instanceOf_hosts st) by apply _addToReconnected_hosts.
  unfold _addToReconnected.
  destruct (reconnectionProperties (instanceOf st i)) as [props|]; [|done].
  by destruct (reconnectedTerminals st !! ownerId props).
Qed.

Lemma appended_after st st1 i :
  reconnectedTerminals st1 = reconnectedTerminals st ->
  appended st (_addToReconnected i st1) i.
Proof.
  intros Hmap. pose proof (_addToReconnected_appended i st1) as Happ.
  unfold appended in *. by rewrite <- Hmap.
Qed.

Lemma ownedBy_ext st st' owner l :
  (forall i, i ∈ l ->
     reconnectionProperties (instanceOf st' i) = reconnectionProperties (instanceOf st i)) ->
  ownedBy st' owner l = ownedBy st owner l.
Proof.
  intros Hsame. unfold ownedBy. apply List.filter_ext_in.
  intros i Hi. by rewrite Hsame by by apply list_elem_of_In.
Qed.

Lemma recorded_frame st st' created :
  recorded st created ->
  nextInstanceId (hosts st) <= nextInstanceId (hosts st') ->
  (forall i, i < nextInstanceId (hosts st) ->
     reconnectionProperties (instanceOf st' i) = reconnectionProperties (instanceOf st i)) ->
  reconnectedTerminals st' = reconnectedTerminals st ->
  recorded st' created.
Proof.
  intros [Hfresh Hrec] Hnext Hsame Hmap. split.
  - intros i Hi. specialize (Hfresh i Hi). lia.
  - intros owner. rewrite Hmap, Hrec. f_equal. symmetry.
    apply ownedBy_ext. intros i Hi. apply Hsame. by apply Hfresh.
Qed.

Lemma recorded_add st created i :
  recorded st created -> i < nextInstanceId (hosts st) ->
  recorded (_addToReconnected i st) (created ++ [i]).
Proof.
  intros [Hfresh Hrec] Hi. split.
  - intros j Hj. rewrite _addToReconnected_hosts.
    apply elem_of_app in Hj as [Hj|Hj]; [by apply Hfresh|].
    apply list_elem_of_singleton in Hj as ->. done.
  - intros owner.
    rewrite (ownedBy_ext st)
      by (intros; f_equal; apply instanceOf_hosts, _addToReconnected_hosts).
    unfold ownedBy. rewrite List.filter_app. simpl. fold (ownedBy st owner created).
    pose proof (_addToReconnected_appended i st) as Happ. unfold appended in Happ.
    rewrite (instanceOf_hosts st) in Happ by apply _addToReconnected_hosts.
    destruct (reconnectionProperties (instanceOf st i)) as [props|] eqn:Hprops; simpl.
    + rewrite Happ. destruct (decide (ownerId props = owner)) as [<-|Hne].
      * rewrite lookup_insert_eq, bool_decide_eq_true_2 by done.
        rewrite Hrec. apply nonempty_default.
      * rewrite lookup_insert_ne, bool_decide_eq_false_2 by congruence.
        by rewrite app_nil_r.
    + by rewrite Happ, app_nil_r.
Qed.

Lemma instanceOf_createInstance c t st j :
  j <> nextInstanceId (hosts st) ->
  instanceOf (snd (createInstance c t st)) j = instanceOf st j.
Proof. intros Hj. unfold instanceOf, createInstance. simpl. by rewrite lookup_insert_ne. Qed.

Lemma recorded_createInstance c t st created :
  recorded st created -> recorded (snd (createInstance c t st)) created.
Proof.
  intros Hrec. eapply recorded_frame; [done|simpl; lia| |done].
  intros i Hi. rewrite instanceOf_createInstance; [done|lia].
Qed.

Lemma recorded_hosts st st' created :
  recorded st created ->
  heap (hosts st') = heap (hosts st) ->
  nextInstanceId (hosts st') = nextInstanceId (hosts st) ->
  reconnectedTerminals st' = reconnectedTerminals st ->
  recorded st' created.
Proof.
  intros Hrec Hheap Hnext Hmap. eapply recorded_frame; [done|lia| |done].
  intros i _. unfold instanceOf. by rewrite Hheap.
Qed.

Lemma _createTerminal_recorded c loc st created :
  recorded st created ->
  recorded (snd (_createTerminal c loc st)) (created ++ [fst (_createTerminal c loc st)]).
Proof.
  intros Hrec. pose proof (recorded_createInstance c Editor st created Hrec) as He.
  pose proof (recorded_createInstance c Panel st created Hrec) as Hp.
  unfold _createTerminal, createGroup. destruct loc; simpl.
  - apply recorded_add; [|simpl; lia].
    by apply (recorded_hosts (snd (createInstance c Panel st))).
  - apply recorded_add; [|simpl; lia].
    by apply (recorded_hosts (snd (createInstance c Editor st))).
Qed.

Lemma _splitTerminal_recorded c loc parent st created i st' :
  recorded st created ->
  _splitTerminal c loc parent st = (Ok i, st') ->
  recorded st' (created ++ [i]).
Proof.
  intros Hrec. unfold _splitTerminal.
  set (c' := match cwd c with Some (CwdOfUri _) => c | _ => _ end).
  pose proof (recorded_createInstance c' Editor st created Hrec) as He.
  pose proof (recorded_createInstance (slc_with_parentTerminalId c' parent) Panel st
                created Hrec) as Hp.
  destruct (match loc with Editor => _ | _ => _ end).
  - unfold splitInstance. simpl. intros [= <- <-].
    apply recorded_add; [|simpl; lia].
    by apply (recorded_hosts (snd (createInstance c' Editor st))).
  - destruct (getGroupForInstance parent st) as [g|]; [|done].
    unfold splitGroup. simpl. intros [= <- <-].
    apply recorded_add; [|simpl; lia].
    by apply (recorded_hosts
                (snd (createInstance (slc_with_parentTerminalId c' parent) Panel st))).
Qed.

Lemma _showBackgroundTerminal_recorded i st created :
  recorded st created -> recorded (_showBackgroundTerminal i st) created.
Proof.
  intros Hrec. eapply recorded_frame; [done|done| |done].
  intros j _. unfold _showBackgroundTerminal, instanceOf. simpl.
  destruct (decide (i = j)) as [<-|Hne].
  - by rewrite lookup_insert_eq.
  - by rewrite lookup_insert_ne.
Qed.

Lemma step_recorded op st created :
  recorded st created ->
  recorded (fst (step op st)) (created ++ option_list (snd (step op st))).
Proof.
  intros Hrec.
  assert (recorded (with_hasBeenCreated st) created) as Hrec' by exact Hrec.
  destruct op as [c loc|c loc parent|c|value|host instance]; simpl.
  - pose proof (_createTerminal_recorded c loc _ created Hrec').
    by destruct (_createTerminal c loc (with_hasBeenCreated st)).
  - destruct (_splitTerminal c loc parent (with_hasBeenCreated st))
      as [[i|e] st'] eqn:Hs; simpl.
    + by eapply _splitTerminal_recorded.
    + rewrite app_nil_r. revert Hs. unfold _splitTerminal.
      repeat (case_match; simpl); by intros [= <- <-].
  - rewrite app_nil_r. unfold createBackgroundTerminal.
    pose proof (recorded_createInstance c Panel st created Hrec) as Hp.
    unfold createInstance in *. simpl in *.
    by apply (recorded_hosts _ _ _ Hp).
  - rewrite app_nil_r. unfold setActiveInstance.
    destruct (hideFromUser _); [|done]. by apply _showBackgroundTerminal_recorded.
  - rewrite app_nil_r. by apply (recorded_hosts st).
Qed.

Lemma run_recorded ops : forall st created,
  recorded st created ->
  recorded (fst (run ops st created)) (snd (run ops st created)).
Proof.
  induction ops as [|op rest IH]; intros st created Hrec; [done|].
  simpl. pose proof (step_recorded op st created Hrec) as Hstep.
  destruct (step op st) as [st' i]. by apply IH.
Qed.

(** C6. Every terminal instance created by [_createTerminal] or by
    [_splitTerminal] (the paths of [createTerminal] that are neither
    contributed nor background) is appended to the reconnected terminals
    under the [ownerId] of its reconnection properties, if it has any; and
    after any history of the service, [getReconnectedTerminals(owner)]
    returns exactly the instances so created whose owner is [owner], in
    creation order, or [undefined] when there is none. *)
Theorem reconnected_terminals_recorded :
  (forall c loc st,
     appended st (snd (_createTerminal c loc st)) (fst (_createTerminal c loc st))) /\
  (forall c loc parent st i st',
     _splitTerminal c loc parent st = (Ok i, st') -> appended st st' i) /\
  (forall (processSupport : bool) (ops : list Op) (owner : string),
     getReconnectedTerminals owner (fst (run ops (initial processSupport) [])) =
     nonempty (ownedBy (fst (run ops (initial processSupport) [])) owner
                       (snd (run ops (initial processSupport) [])))).
Proof.
  split; [|split].
  - intros c loc st. unfold _createTerminal, createGroup.
    destruct loc; simpl; by apply appended_after.
  - intros c loc parent st i st'. unfold _splitTerminal.
    destruct (match loc with Editor => _ | _ => _ end).
    + unfold splitInstance. simpl. intros [= <- <-]. by apply appended_after.
    + destruct (getGroupForInstance parent st) as [g|]; [|done].
      unfold splitGroup. simpl. intros [= <- <-]. by apply appended_after.
  - intros processSupport ops owner.
    apply (run_recorded ops (initial processSupport) []).
    split; [by intros i Hi; apply elem_of_nil in Hi|done].
Qed.

End Reconnected.

Section Background.
Context `{Env : TerminalEnv}.

(** ** Background terminals *)

(** [splice(indexOf(v), 1)] removes the first occurrence of a member. *)
Lemma splice1_indexOf v l :
  v ∈ l ->
  exists l1 l2, l = l1 ++ v :: l2 /\ (v ∉ l1) /\ splice1 (indexOf v l) l = l1 ++ l2.
Proof.
  intros Hv. unfold indexOf.
  destruct (list_find_elem_of (fun y => (y = v)) l v Hv eq_refl) as [[i x] Hfind].
  rewrite Hfind. apply list_find_Some in Hfind as (Hi & -> & Hmin).
  exists (take i l), (drop (S i) l). split; [|split].
  - by rewrite <- (take_drop_middle l i v Hi) at 1.
  - intros Hin. apply list_elem_of_lookup in Hin as [j Hj].
    pose proof (lookup_lt_Some _ _ _ Hj) as Hlt. rewrite length_take in Hlt.
    rewrite lookup_take_lt in Hj by lia. eapply Hmin; [done|lia|done].
  - unfold splice1. pose proof (lookup_lt_Some _ _ _ Hi).
    replace (Z.of_nat i <? 0)%Z with false by (symmetry; apply Z.ltb_ge; lia).
    rewrite Z.min_l by lia. rewrite Nat2Z.id. apply delete_take_drop.
Qed.

Lemma elem_of_instances_addGroup x i st :
  x ∈ instances (addGroup [i] st) <-> x ∈ instances st \/ x = i.
Proof.
  unfold instances, groupInstances, addGroup. simpl.
  rewrite concat_app. simpl. rewrite !elem_of_app, list_elem_of_singleton.
  tauto.
Qed.

Lemma elem_of_instances_addEditorInstance x i st :
  x ∈ instances (addEditorInstance i st) <-> x ∈ instances st \/ x = i.
Proof.
  unfold instances, groupInstances, addEditorInstance. simpl.
  rewrite !elem_of_app, list_elem_of_singleton. tauto.
Qed.

Lemma elem_of_concat_alter (x i g : nat) (gs : list (list nat)) :
  x ∈ concat (alter (fun l => l ++ [i]) g gs) -> x ∈ concat gs \/ x = i.
Proof.
  revert g. induction gs as [|l gs IH]; intros g; [by left|].
  destruct g as [|g]; simpl; rewrite !elem_of_app.
  - rewrite list_elem_of_singleton. tauto.
  - intros [?|Hx]; [tauto|]. destruct (IH g Hx); tauto.
Qed.

(** A step that allocates the next instance, not hidden from the user,
    and puts it at most among the instances. *)
Lemma wellFormed_extend st st' i :
  wellFormed st ->
  i = nextInstanceId (hosts st) ->
  nextInstanceId (hosts st') = S i ->
  (forall x, x ∈ instances st' -> x ∈ instances st \/ x = i) ->
  backgroundedTerminalInstances st' = backgroundedTerminalInstances st ->
  (forall j, j <> i -> instanceOf st' j = instanceOf st j) ->
  hideFromUser (shellLaunchConfig (instanceOf st' i)) = false ->
  wellFormed st'.
Proof.
  intros (Hinst & Hbg & Hnd & Hsep & Hflag) -> Hnext Hin Hbg' Hobj Hnew.
  unfold wellFormed, fresh. rewrite Hbg', Hnext. repeat split.
  - intros x Hx. destruct (Hin x Hx) as [Hx'| ->]; [|lia]. specialize (Hinst x Hx'). lia.
  - intros x Hx. specialize (Hbg x Hx). lia.
  - done.
  - intros x Hx Hx'. destruct (Hin x Hx') as [?| ->]; [by eapply Hsep|].
    specialize (Hbg _ Hx). lia.
  - intros x Hx. destruct (decide (x = nextInstanceId (hosts st))) as [->|Hne].
    + congruence.
    + rewrite Hobj in Hx by done. by apply Hflag.
Qed.

Lemma hideFromUser_split_cwd c parentObj :
  hideFromUser
    (match cwd c, cwd (shellLaunchConfig parentObj) with
     | Some (CwdOfUri _), _ => c
     | own, Some (CwdOfUri p) =>
         slc_with_cwd c
           (Some (CwdOfUri {| scheme := scheme p; authority := authority p;
                              path := match own with
                                      | Some (CwdString s) =>
                                          if String.eqb s EmptyString then path p else s
                                      | _ => path p
                                      end |}))
     | _, _ => c
     end) = hideFromUser c.
Proof. by repeat case_match. Qed.

Lemma _createTerminal_wellFormed c loc st :
  wellFormed st -> hideFromUser c = false ->
  wellFormed (snd (_createTerminal c loc st)).
Proof.
  intros Hwf Hc.
  apply (wellFormed_extend st _ (nextInstanceId (hosts st))); try done.
  - unfold _createTerminal, createGroup. destruct loc; simpl;
      by rewrite _addToReconnected_hosts.
  - intros x. unfold _createTerminal, createGroup. destruct loc; simpl.
    + unfold instances, groupInstances. rewrite _addToReconnected_hosts.
      apply elem_of_instances_addGroup.
    + unfold instances, groupInstances. rewrite _addToReconnected_hosts.
      apply elem_of_instances_addEditorInstance.
  - unfold _createTerminal, createGroup.
    destruct loc; simpl; by rewrite _addToReconnected_backgrounded.
  - intros j Hj. unfold _createTerminal, createGroup. destruct loc; simpl.
    all: rewrite (instanceOf_hosts _ _ _ (_addToReconnected_hosts _ _)).
    all: unfold instanceOf; simpl; by rewrite lookup_insert_ne.
  - unfold _createTerminal, createGroup. destruct loc; simpl.
    all: rewrite (instanceOf_hosts _ _ _ (_addToReconnected_hosts _ _)).
    all: unfold instanceOf; simpl; by rewrite lookup_insert_eq.
Qed.

Lemma _splitTerminal_wellFormed c loc parent st :
  wellFormed st -> hideFromUser c = false ->
  wellFormed (snd (_splitTerminal c loc parent st)).
Proof.
  intros Hwf Hc. unfold _splitTerminal.
  pose proof (hideFromUser_split_cwd c (instanceOf st parent)) as Hcwd.
  set (c' := match cwd c with Some (CwdOfUri _) => c | _ => _ end) in *.
  destruct (match loc with Editor => _ | _ => _ end).
  - unfold splitInstance. simpl.
    apply (wellFormed_extend st _ (nextInstanceId (hosts st))); try done.
    + by rewrite _addToReconnected_hosts.
    + intros x. unfold instances, groupInstances. rewrite _addToReconnected_hosts.
      apply elem_of_instances_addEditorInstance.
    + by rewrite _addToReconnected_backgrounded.
    + intros j Hj. rewrite (instanceOf_hosts _ _ _ (_addToReconnected_hosts _ _)).
      unfold instanceOf; simpl; by rewrite lookup_insert_ne.
    + rewrite (instanceOf_hosts _ _ _ (_addToReconnected_hosts _ _)).
      unfold instanceOf; simpl. rewrite lookup_insert_eq. simpl. congruence.
  - destruct (getGroupForInstance parent st) as [g|]; [|done].
    unfold splitGroup. simpl.
    apply (wellFormed_extend st _ (nextInstanceId (hosts st))); try done.
    + by rewrite _addToReconnected_hosts.
    + intros x. unfold instances, groupInstances. rewrite _addToReconnected_hosts.
      simpl. rewrite !elem_of_app. intros [Hx|Hx]; [|tauto].
      apply elem_of_concat_alter in Hx. tauto.
    + by rewrite _addToReconnected_backgrounded.
    + intros j Hj. rewrite (instanceOf_hosts _ _ _ (_addToReconnected_hosts _ _)).
      unfold instanceOf; simpl; by rewrite lookup_insert_ne.
    + rewrite (instanceOf_hosts _ _ _ (_addToReconnected_hosts _ _)).
      unfold instanceOf; simpl. rewrite lookup_insert_eq. simpl. congruence.
Qed.

Lemma createBackgroundTerminal_wellFormed c st :
  wellFormed st -> wellFormed (snd (createBackgroundTerminal c st)).
Proof.
  intros (Hinst & Hbg & Hnd & Hsep & Hflag).
  unfold createBackgroundTerminal, createInstance, wellFormed, fresh, instances,
    groupInstances, instanceOf. simpl. repeat split.
  - intros x Hx. specialize (Hinst x Hx). lia.
  - intros x Hx. apply elem_of_app in Hx as [Hx|Hx].
    + specialize (Hbg x Hx). lia.
    + apply list_elem_of_singleton in Hx as ->. lia.
  - apply NoDup_app. split; [done|]. split; [|apply NoDup_singleton].
    intros x Hx Hx'. apply list_elem_of_singleton in Hx' as ->.
    specialize (Hbg _ Hx). lia.
  - intros x Hx Hx'. apply elem_of_app in Hx as [Hx|Hx]; [by eapply Hsep|].
    apply list_elem_of_singleton in Hx as ->. specialize (Hinst _ Hx'). lia.
  - intros x Hx. apply elem_of_app.
    destruct (decide (x = nextInstanceId (hosts st))) as [->|Hne].
    + right. by apply list_elem_of_singleton.
    + left. apply Hflag. unfold instanceOf. by rewrite lookup_insert_ne in Hx.
Qed.

Lemma _showBackgroundTerminal_wellFormed v st :
  wellFormed st -> v ∈ backgroundedTerminalInstances st ->
  wellFormed (_showBackgroundTerminal v st).
Proof.
  intros (Hinst & Hbg & Hnd & Hsep & Hflag) Hv.
  destruct (splice1_indexOf v _ Hv) as (l1 & l2 & Hl & Hv1 & Hsplice).
  rewrite Hl in Hnd. apply NoDup_app in Hnd as (Hnd1 & Hnd12 & Hnd2).
  apply NoDup_cons in Hnd2 as [Hv2 Hnd2].
  assert (forall x, x ∈ l1 ++ l2 <-> x ∈ backgroundedTerminalInstances st /\ x <> v)
    as Hrest.
  { intros x. rewrite Hl, !elem_of_app, elem_of_cons. split.
    - intros [Hx|Hx]; (split; [tauto|]); intros ->; [done|done].
    - intros [[Hx|[->|Hx]] Hne]; tauto. }
  unfold _showBackgroundTerminal, wellFormed, fresh, instances, groupInstances,
    instanceOf. simpl. rewrite Hsplice, concat_app. simpl.
  repeat split.
  - intros x. rewrite !elem_of_app, list_elem_of_singleton.
    intros [[Hx| ->]|Hx].
    + apply Hinst. unfold instances, groupInstances. apply elem_of_app. tauto.
    + by apply Hbg.
    + apply Hinst. unfold instances, groupInstances. apply elem_of_app. tauto.
  - intros x Hx. apply Hbg. by apply Hrest.
  - apply NoDup_app. split; [done|]. split; [|done].
    intros x Hx Hx'. apply (Hnd12 x Hx). by right.
  - intros x Hx. apply Hrest in Hx as [Hx Hne].
    rewrite !elem_of_app, list_elem_of_singleton.
    intros [[Hx'| ->]|Hx']; [|done|].
    + apply (Hsep x Hx). unfold instances, groupInstances. apply elem_of_app. tauto.
    + apply (Hsep x Hx). unfold instances, groupInstances. apply elem_of_app. tauto.
  - intros x Hx. apply Hrest.
    destruct (decide (v = x)) as [<-|Hne].
    + by rewrite lookup_insert_eq in Hx.
    + rewrite lookup_insert_ne in Hx by done. split; [by apply Hflag|done].
Qed.

Lemma step_wellFormed op st :
  wellFormed st -> valid_op op -> wellFormed (fst (step op st)).
Proof.
  intros Hwf Hop.
  assert (wellFormed (with_hasBeenCreated st)) as Hwf' by exact Hwf.
  destruct op as [c loc|c loc parent|c|value|host instance]; simpl.
  - pose proof (_createTerminal_wellFormed c loc _ Hwf' Hop).
    by destruct (_createTerminal c loc (with_hasBeenCreated st)).
  - pose proof (_splitTerminal_wellFormed c loc parent _ Hwf' Hop).
    by destruct (_splitTerminal c loc parent (with_hasBeenCreated st)) as [[i|e] st'].
  - by apply createBackgroundTerminal_wellFormed.
  - unfold setActiveInstance.
    destruct (hideFromUser _) eqn:Hh; [|done].
    apply _showBackgroundTerminal_wellFormed; [done|].
    by apply Hwf.
  - done.
Qed.

Lemma run_wellFormed ops : forall st created,
  wellFormed st -> Forall valid_op ops -> wellFormed (fst (run ops st created)).
Proof.
  induction ops as [|op rest IH]; intros st created Hwf Hops; [done|].
  apply Forall_cons in Hops as [Hop Hops]. simpl.
  pose proof (step_wellFormed op st Hwf Hop). destruct (step op st) as [st' i].
  by apply IH.
Qed.

Lemma initial_wellFormed processSupport : wellFormed (initial processSupport).
Proof.
  unfold wellFormed, fresh, instances, groupInstances, instanceOf. simpl.
  repeat split; try (intros i Hi; by apply elem_of_nil in Hi).
  - apply NoDup_nil_2.
  - intros i. by rewrite lookup_empty.
Qed.

Lemma step_parked op st i :
  wellFormed st -> parked st i -> op <> OpSetActive i -> parked (fst (step op st)) i.
Proof.
  intros (Hinst & Hbg & Hnd & Hsep & Hflag) [Hi Hhide] Hop.
  assert (i <> nextInstanceId (hosts st)) as Hne by (specialize (Hbg i Hi); lia).
  unfold parked.
  destruct op as [c loc|c loc parent|c|value|host instance]; simpl.
  - unfold _createTerminal, createGroup. destruct loc; simpl.
    all: rewrite _addToReconnected_backgrounded.
    all: rewrite (instanceOf_hosts _ _ _ (_addToReconnected_hosts _ _)).
    all: unfold instanceOf in *; simpl; by rewrite lookup_insert_ne.
  - unfold _splitTerminal.
    destruct (match loc with Editor => _ | _ => _ end).
    + unfold splitInstance. simpl. rewrite _addToReconnected_backgrounded.
      rewrite (instanceOf_hosts _ _ _ (_addToReconnected_hosts _ _)).
      unfold instanceOf in *; simpl; by rewrite lookup_insert_ne.
    + destruct (getGroupForInstance parent _) as [g|]; [|done].
      unfold splitGroup. simpl. rewrite _addToReconnected_backgrounded.
      rewrite (instanceOf_hosts _ _ _ (_addToReconnected_hosts _ _)).
      unfold instanceOf in *; simpl; by rewrite lookup_insert_ne.
  - unfold createBackgroundTerminal, createInstance, instanceOf in *. simpl.
    rewrite lookup_insert_ne by done. split; [|done]. apply elem_of_app. by left.
  - unfold setActiveInstance.
    destruct (hideFromUser (shellLaunchConfig (instanceOf st value))) eqn:Hv; [|done].
    assert (value <> i) as Hvi by congruence.
    destruct (splice1_indexOf value _ (Hflag _ Hv)) as (l1 & l2 & Hl & _ & Hsplice).
    unfold _showBackgroundTerminal, instanceOf in *. simpl.
    rewrite Hsplice, lookup_insert_ne by done. split; [|done].
    rewrite Hl in Hi. revert Hi. rewrite !elem_of_app, elem_of_cons.
    intros [?|[?|?]]; [tauto|congruence|tauto].
  - done.
Qed.

Lemma run_parked ops i : forall st created,
  wellFormed st -> Forall valid_op ops -> parked st i -> OpSetActive i ∉ ops ->
  parked (fst (run ops st created)) i.
Proof.
  induction ops as [|op rest IH]; intros st created Hwf Hops Hi Hshow; [done|].
  apply Forall_cons in Hops as [Hop Hops].
  apply not_elem_of_cons in Hshow as [Hne Hshow]. simpl.
  pose proof (step_wellFormed op st Hwf Hop).
  pose proof (step_parked op st i Hwf Hi (not_eq_sym Hne)).
  destruct (step op st) as [st' j]. by apply IH.
Qed.

Lemma hideFromUser_evaluateLocalCwd c :
  hideFromUser (_evaluateLocalCwd c) = hideFromUser c.
Proof. unfold _evaluateLocalCwd. by repeat case_match. Qed.

(** The histories cover [createTerminal]: without a contributed profile,
    a call either throws and leaves the service as it was, or it is one
    of the three creating steps. *)
Lemma createTerminal_is_step options st :
  contributedProfileOf options = None ->
  (exists e, createTerminal options st = (Err e, st)) \/
  (exists op, valid_op op /\ snd (createTerminal options st) = fst (step op st)).
Proof.
  intros Hcontrib. unfold createTerminal. rewrite Hcontrib.
  destruct (_resolveCwd _ _ options st) as [c|e]; [|left; by exists e].
  destruct (negb _ && negb _); [left; by eexists|]. right.
  unfold launchTerminal. destruct (hideFromUser c) eqn:Hhide.
  - exists (OpBackground c). split; [done|]. simpl.
    by destruct (createBackgroundTerminal c st).
  - destruct (_getSplitParent (location options) st) as [parent|].
    + exists (OpSplit (_evaluateLocalCwd c)
                (default defaultLocation (resolveLocation (location options) st)) parent).
      split; [simpl; by rewrite hideFromUser_evaluateLocalCwd|]. simpl.
      by destruct (_splitTerminal _ _ parent _) as [[i|e] st'].
    + exists (OpCreate (_evaluateLocalCwd c)
                (default defaultLocation (resolveLocation (location options) st))).
      split; [simpl; by rewrite hideFromUser_evaluateLocalCwd|]. simpl.
      by destruct (_createTerminal _ _ _) as [i st'].
Qed.

(** C7. The [instances] getter always returns the instances of the
    terminal group service followed by those of the terminal editor
    service.  A background terminal, created by [createTerminal] from a
    configuration with [hideFromUser], is held in the list of backgrounded
    instances and is not among [instances]; this stays so, whatever the
    service does, until the terminal is shown, upon which it is removed
    from the backgrounded list and added to a terminal group. *)
Theorem background_terminals (processSupport : bool) (before : list Op)
    (options : CreateTerminalOptions) (c : ShellLaunchConfig) :
  Forall valid_op before ->
  _resolveCwd (shellLaunchConfigOf options) (splitActiveTerminalOf options) options
    (fst (run before (initial processSupport) [])) = Ok c ->
  contributedProfileOf options = None ->
  customPtyImplementation c = true \/
    isProcessSupportRegistered (fst (run before (initial processSupport) [])) = true ->
  hideFromUser c = true ->
  instances (fst (run before (initial processSupport) []))
  = groupInstances (fst (run before (initial processSupport) []))
    ++ editorInstances (hosts (fst (run before (initial processSupport) []))) /\
  exists i st1,
    createTerminal options (fst (run before (initial processSupport) [])) = (Ok i, st1) /\
    i ∈ backgroundedTerminalInstances st1 /\
    (i ∉ instances st1) /\
    forall between,
      Forall valid_op between -> OpSetActive i ∉ between ->
      i ∈ backgroundedTerminalInstances (fst (run between st1 [])) /\
      (i ∉ instances (fst (run between st1 []))) /\
      setActiveInstance i (fst (run between st1 []))
      = _showBackgroundTerminal i (fst (run between st1 [])) /\
      (i ∉ backgroundedTerminalInstances
             (_showBackgroundTerminal i (fst (run between st1 [])))) /\
      i ∈ groupInstances (_showBackgroundTerminal i (fst (run between st1 []))) /\
      i ∈ instances (_showBackgroundTerminal i (fst (run between st1 []))).
Proof.
  intros Hbefore Hcwd Hcontrib Hguard Hhide. split; [done|].
  pose proof (run_wellFormed before (initial processSupport) []
                (initial_wellFormed processSupport) Hbefore) as Hwf.
  set (st := fst (run before (initial processSupport) [])) in *.
  exists (nextInstanceId (hosts st)), (snd (createBackgroundTerminal c st)).
  assert (createTerminal options st
          = (Ok (nextInstanceId (hosts st)), snd (createBackgroundTerminal c st))) as Hrun.
  { unfold createTerminal. rewrite Hcwd, Hcontrib.
    replace (negb (customPtyImplementation c) && negb (isProcessSupportRegistered st))
      with false by (destruct Hguard as [-> | ->]; by rewrite ?andb_false_r).
    unfold launchTerminal. by rewrite Hhide. }
  pose proof (createBackgroundTerminal_wellFormed c st Hwf) as Hwf1.
  assert (parked (snd (createBackgroundTerminal c st)) (nextInstanceId (hosts st)))
    as Hparked.
  { unfold parked, createBackgroundTerminal, createInstance, instanceOf. simpl.
    rewrite lookup_insert_eq. split; [|done].
    apply elem_of_app. right. by apply list_elem_of_singleton. }
  split; [done|]. split; [apply Hparked|]. split; [apply Hwf1, Hparked|].
  intros between Hbetween Hshow.
  pose proof (run_wellFormed between _ [] Hwf1 Hbetween) as Hwf2.
  pose proof (run_parked between _ _ [] Hwf1 Hbetween Hparked Hshow) as [Hin Hflag].
  set (st2 := fst (run between (snd (createBackgroundTerminal c st)) [])) in *.
  set (i := nextInstanceId (hosts st)) in *.
  split; [done|]. split; [by apply Hwf2|].
  split; [unfold setActiveInstance; by rewrite Hflag|].
  destruct Hwf2 as (_ & _ & Hnd & _).
  destruct (splice1_indexOf i _ Hin) as (l1 & l2 & Hl & Hi1 & Hsplice).
  rewrite Hl in Hnd. apply NoDup_app in Hnd as (_ & Hnd12 & Hnd2).
  apply NoDup_cons in Hnd2 as [Hi2 _].
  unfold instances, groupInstances, _showBackgroundTerminal. simpl.
  rewrite Hsplice, concat_app. simpl. repeat split.
  - rewrite elem_of_app. tauto.
  - rewrite elem_of_app, list_elem_of_singleton. tauto.
  - rewrite !elem_of_app, list_elem_of_singleton. tauto.
Qed.

End Background.

(** ** The theorems at concrete inputs *)



Lemma handleNewRegisteredBackend_connects_witness :
  backendRemoteAuthority localBackend = remoteAuthority /\
  connectionState (connection (handleNewRegisteredBackend localBackend (initial true)))
  = Connecting /\
  connectionState
    (connection (settle 0 true (handleNewRegisteredBackend localBackend (initial true))))
  = Connected.
Proof.
  split; [reflexivity|].
  destruct (handleNewRegisteredBackend_connects (Env:=localEnv) localBackend
              (initial true) eq_refl)
    as (Hc & _ & _ & _ & _ & Hs).
  split; [exact Hc|].
  exact (proj1 (Hs (handleNewRegisteredBackend localBackend (initial true)) 0 true
                   eq_refl (or_introl eq_refl))).
Defined.

Lemma reconnected_terminals_recorded_witness :
  _splitTerminal (taskConfig "Task") Panel 1 stateA
  = (Ok 2, fst (run historyA (initial true) [])) /\
  appended stateA (fst (run historyA (initial true) [])) 2 /\
  getReconnectedTerminals "Task" (fst (run historyA (initial true) [])) = Some [1; 2].
Proof.
  assert (_splitTerminal (taskConfig "Task") Panel 1 stateA
          = (Ok 2, fst (run historyA (initial true) []))) as Hsplit by reflexivity.
  destruct reconnected_terminals_recorded as (_ & Happ & Hhist).
  split; [exact Hsplit|]. split.
  - exact (Happ _ _ _ _ _ _ Hsplit).
  - exact (Hhist true historyA "Task"%string).
Defined.

Lemma background_terminals_witness :
  Forall valid_op historyA /\
  hideFromUser hiddenConfig = true /\
  exists i st1,
    createTerminal hiddenOptions (fst (run historyA (initial true) [])) = (Ok i, st1) /\
    i ∈ backgroundedTerminalInstances st1 /\
    (i ∉ instances st1) /\
    i ∈ groupInstances (_showBackgroundTerminal i st1).
Proof.
  assert (Forall valid_op historyA) as Hvalid by (repeat constructor).
  split; [exact Hvalid|]. split; [reflexivity|].
  assert (_resolveCwd (shellLaunchConfigOf hiddenOptions)
            (splitActiveTerminalOf hiddenOptions) hiddenOptions
            (fst (run historyA (initial true) [])) = Ok hiddenConfig) as Hcwd
    by (vm_compute; reflexivity).
  assert (isProcessSupportRegistered (fst (run historyA (initial true) [])) = true)
    as Hproc by (vm_compute; reflexivity).
  destruct (background_terminals true historyA hiddenOptions hiddenConfig Hvalid
              Hcwd eq_refl (or_intror Hproc) eq_refl)
    as (_ & i & st1 & Hrun & Hbg & Hinst & Hlater).
  exists i, st1. split; [exact Hrun|]. split; [exact Hbg|]. split; [exact Hinst|].
  destruct (Hlater [] (Forall_nil_2 _) (not_elem_of_nil _)) as (_ & _ & _ & _ & Hg & _).
  exact Hg.
Defined.

End TerminalTheory.

(* ===================================================================== *)
(** * Part V: the runs of storing and resuming                           *)
(* ===================================================================== *)

Module EditSessionsFlows.
Import EditSessions EditSessionsTheory.

Section Runs.
Context {W : Type} `{HostW : Host W} `{Plat : Platform}.

(** A run of [bind] that returns is a run of its two parts. *)
Lemma bind_inv {A B} (m : Prog W A) (k : A -> Prog W B) h b h2 t :
  bind m k h = (Ok b, h2, t) ->
  exists a h1 t1 t2, m h = (Ok a, h1, t1) /\ k a h1 = (Ok b, h2, t2) /\ t = t1 ++ t2.
Proof.
  unfold bind. destruct (m h) as [[[a|e] h1] t1]; [|done].
  destruct (k a h1) as [[r h3] t2] eqn:E. intros [= -> -> <-]. by exists a, h1, t1, t2.
Qed.

Lemma bind_run {A B} (m : Prog W A) (k : A -> Prog W B) h :
  bind m k h =
  match m h with
  | (Ok a, h1, t1) => (fst (fst (k a h1)), snd (fst (k a h1)), t1 ++ snd (k a h1))
  | (Err e, h1, t1) => (Err e, h1, t1)
  end.
Proof.
  unfold bind. destruct (m h) as [[[a|e] h1] t1]; [|done].
  by destruct (k a h1) as [[r h3] t2].
Qed.

End Runs.

Section Store.
Context {W : Type} `{HostW : Host W} `{Plat : Platform}.

Lemma trackUris_collects uris nm hasEdits wc :
  emits (fun e => collects e = true) (trackUris uris nm hasEdits wc).
Proof.
  revert nm hasEdits wc. induction uris as [|u rest IH]; intros; simpl; prog.
Qed.

Lemma storeRepositories_collects repos hasEdits acc :
  emits (fun e => collects e = true) (storeRepositories repos hasEdits acc).
Proof.
  revert hasEdits acc. pose proof trackUris_collects.
  induction repos as [|r rest IH]; intros; simpl; prog.
Qed.

Lemma collects_quiet e :
  collects e = true -> quiet e /\ writes_storage e = false /\ is_notice e = false.
Proof. by destruct e. Qed.


(** What the loop over the tracked URIs adds to [workingChanges], when
    it completes. *)
Lemma trackUris_spec uris : forall nm hasEdits wc h nm' hasEdits' wc' h' t,
  trackUris uris nm hasEdits wc h = (Ok (nm', hasEdits', wc'), h', t) ->
  exists added,
    (wc' = wc ++ added) /\
    Forall (fun c => storable c = true) added /\
    (length added <= length uris) /\
    (hasEdits' = match added with [] => hasEdits | _ => true end).
Proof.
  induction uris as [|u rest IH]; intros nm hasEdits wc h nm' hasEdits' wc' h' t; simpl.
  { intros [= <- <- <- <- <-]. exists []. by rewrite app_nil_r. }
  intros Hrun. apply bind_inv in Hrun as (wf & h1 & t1 & t2 & Hget & Hrun & ->).
  injection Hget as <- <- <-.
  destruct (getWorkspaceFolder h u) as [wf|].
  2:{ apply IH in Hrun as (added & ? & ? & ? & ?). exists added. repeat split; auto. }
  apply bind_inv in Hrun as ([] & h1 & t1 & t3 & _ & Hrun & ->).
  apply bind_inv in Hrun as (skip & h2 & t4 & t5 & _ & Hrun & ->).
  destruct skip.
  { apply IH in Hrun as (added & ? & ? & ? & ?). exists added. repeat split; auto. }
  apply bind_inv in Hrun as (present & h3 & t6 & t7 & _ & Hrun & ->).
  destruct present.
  - apply bind_inv in Hrun as (value & h4 & t8 & t9 & _ & Hrun & ->).
    apply IH in Hrun as (added & -> & Hall & Hlen & ->).
    eexists (_ :: added). rewrite <- app_assoc. split; [done|].
    split; [by constructor|]. split; [simpl; lia|by destruct added].
  - apply IH in Hrun as (added & -> & Hall & Hlen & ->).
    eexists (_ :: added). rewrite <- app_assoc. split; [done|].
    split; [by constructor|]. split; [simpl; lia|by destruct added].
Qed.

(** The folders that the loop over the repositories adds: one for every
    repository, with no more changes than the repository has changed
    resources, and [hasEdits] tells whether one of them has a change. *)
Lemma storeRepositories_spec repos : forall hasEdits acc h hasEdits' fs h' t,
  storeRepositories repos hasEdits acc h = (Ok (hasEdits', fs), h', t) ->
  exists added,
    (fs = acc ++ added) /\
    Forall2 (fun r f => length (workingChanges f) <= length (getChangedResources r))
            repos added /\
    Forall (fun f => Forall (fun c => storable c = true) (workingChanges f)) added /\
    (hasEdits' = hasEdits || existsb hasChanges added).
Proof.
  induction repos as [|r rest IH]; intros hasEdits acc h hasEdits' fs h' t; simpl.
  { intros [= <- <- <- <-]. exists []. rewrite app_nil_r. by rewrite orb_false_r. }
  intros Hrun. apply bind_inv in Hrun as (wf & h1 & t1 & t2 & _ & Hrun & ->).
  apply bind_inv in Hrun as ([[nm he] wc] & h2 & t3 & t4 & Htrack & Hrun & ->).
  apply trackUris_spec in Htrack as (added & Hwc & Hall & Hlen & Hhe).
  simpl in Hwc. subst wc.
  apply bind_inv in Hrun as (ident & h3 & t5 & t6 & _ & Hrun & ->).
  apply IH in Hrun as (more & -> & Hrel & Hmore & ->).
  eexists (_ :: more). rewrite <- app_assoc. split; [done|].
  split; [by constructor|]. split; [by constructor|].
  simpl. subst he. unfold hasChanges at 1. simpl. by destruct added, hasEdits.
Qed.

(** The runs of [storeEditSession], by what the host answers. *)
Lemma storeEditSession_run fromStoreCommand h :
  storeEditSession fromStoreCommand h =
  match saveAll h with
  | (Err e, h0) => (Err e, h0, [EvSaveAll])
  | (Ok _, h0) =>
      match storeRepositories (repositories h0) false [] h0 with
      | (Err e, h1, t1) => (Err e, h1, EvSaveAll :: t1)
      | (Ok (false, _), h1, t1) =>
          (Ok None, h1,
           EvSaveAll :: t1 ++ (if fromStoreCommand
                               then [EvNotify Info NoWorkingChangesToStore] else []))
      | (Ok (true, fs), h1, t1) =>
          let data := {| folders := fs; version := 2 |} in
          match storage_write h1 data with
          | (Ok ref, h2) => (Ok (Some ref), h2, EvSaveAll :: t1 ++ [EvStorageWrite data])
          | (Err ex, h2) =>
              (Ok None, h2, EvSaveAll :: t1 ++ EvStorageWrite data :: uploadFailureNotice ex)
          end
      end
  end.
Proof.
  unfold storeEditSession, bind, perform, get, tryCatch.
  destruct (saveAll h) as [[[]|e] h0]; simpl; [|done].
  destruct (storeRepositories (repositories h0) false [] h0) as [[[[[] fs]|e] h1] t1];
    simpl; [| |done].
  - destruct (storage_write h1 _) as [[ref|ex] h2]; simpl; [done|].
    by destruct ex as [m|[]].
  - by destruct fromStoreCommand.
Qed.


Lemma storeRepositories_no_write repos hasEdits acc h :
  Forall (fun e => writes_storage e = false)
         (snd (storeRepositories repos hasEdits acc h)).
Proof.
  eapply Forall_impl; [apply (storeRepositories_collects repos hasEdits acc h)|].
  by intros ? (_ & ? & _)%collects_quiet.
Qed.

(** The upload that [storeEditSession] makes, if it makes one. *)
Lemma storeEditSession_write_inv fromStoreCommand h data :
  In (EvStorageWrite data) (calls (storeEditSession fromStoreCommand) h) ->
  exists h0 h1 t1 fs,
    saveAll h = (Ok tt, h0) /\
    storeRepositories (repositories h0) false [] h0 = (Ok (true, fs), h1, t1) /\
    data = {| folders := fs; version := 2 |}.
Proof.
  unfold calls. rewrite storeEditSession_run.
  destruct (saveAll h) as [[[]|e] h0]; simpl; [|by intros [|[]]].
  pose proof (storeRepositories_no_write (repositories h0) false [] h0) as Hq.
  rewrite Forall_forall in Hq.
  destruct (storeRepositories (repositories h0) false [] h0) as [[[[[] fs]|e] h1] t1]
    eqn:Erun; simpl in *.
  - intros Hin. exists h0, h1, t1, fs. split; [done|]. split; [done|].
    assert (In (EvStorageWrite data)
              (t1 ++ EvStorageWrite {| version := 2; folders := fs |}
                  :: match fst (storage_write h1 {| version := 2; folders := fs |}) with
                     | Ok _ => []
                     | Err ex => uploadFailureNotice ex
                     end)) as Hin'.
    { destruct (storage_write h1 _) as [[ref|ex] h2]; simpl in *;
        destruct Hin as [|Hin]; done. }
    apply in_app_or in Hin' as [Hin'|Hin'].
    { by apply list_elem_of_In, Hq in Hin'. }
    destruct Hin' as [[= <-]|Hin']; [done|]. exfalso.
    destruct (storage_write h1 _) as [[ref|[m|[]]] h2]; simpl in Hin';
      intuition discriminate.
  - intros [|Hin]; [done|]. exfalso. apply in_app_or in Hin as [Hin|Hin].
    + by apply list_elem_of_In, Hq in Hin.
    + destruct fromStoreCommand; simpl in Hin; intuition discriminate.
  - intros [|Hin]; [done|]. by apply list_elem_of_In, Hq in Hin.
Qed.

(** X1. A session that [storeEditSession] uploads has one folder for every
    SCM repository (of the moment the editors were saved), also for a
    repository without changes, and the folder of a repository has at most
    as many working changes as the repository has changed resources. *)
Theorem storeEditSession_folder_per_repository (fromStoreCommand : bool) (h : W)
    (data : EditSession) :
  In (EvStorageWrite data) (calls (storeEditSession fromStoreCommand) h) ->
  Forall2 (fun r f => length (workingChanges f) <= length (getChangedResources r))
          (repositories (snd (saveAll h))) (folders data).
Proof.
  intros Hin.
  apply storeEditSession_write_inv in Hin as (h0 & h1 & t1 & fs & Hsave & Hrun & ->).
  rewrite Hsave. simpl.
  by apply storeRepositories_spec in Hrun as (added & -> & Hrel & _ & _).
Qed.

(** X2. A session that [storeEditSession] uploads has version 2, holds at
    least one working change, and each of its working changes is an
    [Addition] with contents or a [Deletion] without. *)
Theorem storeEditSession_stores_changes (fromStoreCommand : bool) (h : W)
    (data : EditSession) :
  In (EvStorageWrite data) (calls (storeEditSession fromStoreCommand) h) ->
  version data = 2%Z /\
  existsb hasChanges (folders data) = true /\
  Forall (fun f => Forall (fun c => storable c = true) (workingChanges f)) (folders data).
Proof.
  intros Hin.
  apply storeEditSession_write_inv in Hin as (h0 & h1 & t1 & fs & Hsave & Hrun & ->).
  apply storeRepositories_spec in Hrun as (added & -> & _ & Hall & Hhe).
  simpl. by split; [|split].
Qed.


(** X3. A failed upload does not make [storeEditSession] fail: it returns
    [undefined], after an error notification that depends on the error
    ('payload too large' for the error code [TooLarge], 'payload failed'
    for the other codes of a [UserDataSyncStoreError], none for another
    exception). *)
Theorem storeEditSession_upload_failure (fromStoreCommand : bool) (h h0 h1 h2 : W)
    (t1 : list Event) (fs : list Folder) (ex : Exn) :
  saveAll h = (Ok tt, h0) ->
  storeRepositories (repositories h0) false [] h0 = (Ok (true, fs), h1, t1) ->
  storage_write h1 {| folders := fs; version := 2 |} = (Err ex, h2) ->
  storeEditSession fromStoreCommand h
  = (Ok None, h2,
     EvSaveAll :: t1 ++ EvStorageWrite {| folders := fs; version := 2 |}
               :: uploadFailureNotice ex).
Proof.
  intros Hsave Hrun Hwrite.
  rewrite storeEditSession_run, Hsave, Hrun. simpl. by rewrite Hwrite.
Qed.

Lemma hasEditSession_false h :
  hasEditSession h = false ->
  Forall (fun r => getChangedResources r = []) (repositories h).
Proof.
  unfold hasEditSession. induction (repositories h) as [|r rest IH]; simpl; [done|].
  intros [Hr Hrest]%orb_false_elim. constructor; [|by apply IH].
  by destruct (getChangedResources r).
Qed.

(** X4. [hasEditSession] and [storeEditSession] agree on what there is to
    store: when no repository has a changed resource (once the editors are
    saved), [storeEditSession] uploads nothing, and returns [undefined] if
    it returns. *)
Theorem storeEditSession_nothing_to_store (fromStoreCommand : bool) (h : W) :
  hasEditSession (snd (saveAll h)) = false ->
  Forall (fun e => writes_storage e = false) (calls (storeEditSession fromStoreCommand) h) /\
  forall ref, result (storeEditSession fromStoreCommand) h = Ok ref -> ref = None.
Proof.
  intros Hhas%hasEditSession_false.
  unfold calls, result. rewrite storeEditSession_run.
  destruct (saveAll h) as [[[]|e] h0]; simpl in *; [|by split; [repeat constructor|]].
  pose proof (storeRepositories_no_write (repositories h0) false [] h0) as Hq.
  destruct (storeRepositories (repositories h0) false [] h0) as [[[[he fs]|e] h1] t1]
    eqn:Erun; simpl in *; [|by split; [constructor|]].
  apply storeRepositories_spec in Erun as (added & -> & Hrel & _ & ->).
  assert (existsb hasChanges added = false) as ->.
  { apply not_true_is_false. intros (f & Hf & Hch)%existsb_exists.
    apply list_elem_of_In, list_elem_of_lookup in Hf as [i Hi].
    destruct (Forall2_lookup_r _ _ _ _ _ Hrel Hi) as (r & Hr & Hlen).
    rewrite Forall_lookup in Hhas. rewrite (Hhas _ _ Hr) in Hlen.
    unfold hasChanges in Hch. destruct (workingChanges f); [done|simpl in Hlen; lia]. }
  simpl. split; [|by intros ? [= <-]].
  constructor; [done|]. apply Forall_app. split; [done|].
  destruct fromStoreCommand; by repeat constructor.
Qed.

End Store.

Section Deciding.
Context {W : Type} `{HostW : Host W} `{Acc : Account W} `{Plat : Platform}.

(** X5. [shouldContinueOnWithEditSession] answers [true] only if there
    is an edit session to store ([hasEditSession]).  It asks the user to
    sign in (it calls [initialize(true)]) exactly when the user is not
    signed in, the setting is not 'off' and there is an edit session; for a
    signed-in user the answer is [hasEditSession], with no call at all. *)
Theorem shouldContinueOnWithEditSession_spec (h : W) :
  (result shouldContinueOnWithEditSession h = Ok true -> hasEditSession h = true) /\
  calls shouldContinueOnWithEditSession h
  = (if negb (isSignedIn h) && negb (continueOnOff h) && hasEditSession h
     then [EvInitialize] else []) /\
  (isSignedIn h = true ->
   shouldContinueOnWithEditSession h = (Ok (hasEditSession h), h, [])).
Proof.
  unfold result, calls, shouldContinueOnWithEditSession, bind, get, perform, ret.
  destruct (isSignedIn h), (continueOnOff h); simpl;
    destruct (hasEditSession h); simpl; try done.
  by destruct (storage_initialize_fromContinueOn h) as [[[]|e] h1].
Qed.



End Deciding.

Section Resuming.
Context {W : Type} `{HostW : Host W} `{Plat : Platform}.

(** The runs of the [try] block of [resumeEditSession]; [generateChanges]
    only reads, so that all of it starts from the same host state. *)
Lemma resumeEditSession_try_run s ref force h :
  resumeEditSession_try s ref force h =
  let gen := calls (generateChanges s ref force) h in
  match result (generateChanges s ref force) h with
  | Err e => (Err e, h, gen)
  | Ok ([], _) => (Ok tt, h, gen)
  | Ok (changes, conflicts) =>
      let asked := match conflicts with
                   | [] => []
                   | _ => [EvConfirm (map rc_uri conflicts)]
                   end in
      match match conflicts with
            | [] => Ok true
            | _ => dialog_confirm h (map rc_uri conflicts)
            end with
      | Err e => (Err e, h, gen ++ asked)
      | Ok false => (Ok tt, h, gen ++ asked)
      | Ok true =>
          match applyChanges (version s) changes h with
          | (Err e, h2, t2) => (Err e, h2, gen ++ asked ++ t2)
          | (Ok _, h2, t2) =>
              (fst (storage_delete h2 ref), snd (storage_delete h2 ref),
               gen ++ asked ++ t2 ++ [EvStorageDelete ref])
          end
      end
  end.
Proof.
  unfold resumeEditSession_try, bind.
  rewrite (readonly_run _ h (generateChanges_readonly s ref force)).
  destruct (result (generateChanges s ref force) h) as [[changes conflicts]|e];
    cbn [fst snd]; [|done].
  destruct changes as [|c0 changes']. { simpl. by rewrite app_nil_r. }
  cbn zeta. generalize (c0 :: changes'). intros cl.
  destruct conflicts as [|c1 conflicts'].
  - unfold ret at 1. cbn [fst snd negb].
    destruct (applyChanges (version s) cl h) as [[[[]|e] h2] t2]; cbn [fst snd]; [|done].
    unfold perform. by destruct (storage_delete h2 ref).
  - unfold ask at 1.
    destruct (dialog_confirm h _) as [[]|e]; cbn [fst snd negb]; [| |done].
    + destruct (applyChanges (version s) cl h) as [[[[]|e] h2] t2]; cbn [fst snd]; [|done].
      unfold perform. by destruct (storage_delete h2 ref).
    + done.
Qed.

(** The runs of the part of [resumeEditSession] before the [try]
    block. *)
Lemma resumeEditSession_read_run ref silent h :
  resumeEditSession_read ref silent h =
  match getEnvironment h with
  | (Err e, h0) => (Err e, h0, [EvGetEnvironment])
  | (Ok _, h0) =>
      match getWorkbenchState h0 with
      | EMPTY => (Ok None, h0, [EvGetEnvironment])
      | _ =>
          let init := if silent then storage_initialize h0 else (Ok true, h0) in
          let asked := if silent then [EvInitialize] else [] in
          let h1 := snd init in
          match fst init with
          | Err e => (Err e, h1, EvGetEnvironment :: asked)
          | Ok false => (Ok None, h1, EvGetEnvironment :: asked)
          | Ok true =>
              let read := EvStorageRead ref (storage_read h1 ref) in
              match storage_read h1 ref with
              | Err e => (Err e, h1, EvGetEnvironment :: asked ++ [read])
              | Ok None =>
                  (Ok None, h1,
                   EvGetEnvironment :: asked ++ read :: nothingToResumeNotice ref silent)
              | Ok (Some (ref', s)) =>
                  if (EditSessionSchemaVersion <? version s)%Z
                  then (Ok None, h1,
                        EvGetEnvironment :: asked ++ [read; EvNotify Error ClientTooOld])
                  else (Ok (Some (ref', s)), h1, EvGetEnvironment :: asked ++ [read])
              end
          end
      end
  end.
Proof.
  unfold resumeEditSession_read, bind, perform, get, ask, emit, ret.
  destruct (getEnvironment h) as [[[]|e] h0]; simpl; [|done].
  destruct (getWorkbenchState h0); simpl; [done| |].
  all: destruct silent; simpl.
  all: try (destruct (storage_initialize h0) as [[[]|e] h1]; simpl; try done).
  all: match goal with |- context [storage_read ?x ?r] =>
         destruct (storage_read x r) as [[[ref' s]|]|?]; simpl; try done end.
  all: try (by destruct (EditSessionSchemaVersion <? version s)%Z).
  all: by destruct ref.
Qed.

(** [resumeEditSession] as its two parts. *)
Lemma resumeEditSession_run ref silent force h :
  resumeEditSession ref silent force h =
  match resumeEditSession_read ref silent h with
  | (Err e, h0, t0) => (Err e, h0, t0)
  | (Ok None, h0, t0) => (Ok tt, h0, t0)
  | (Ok (Some (ref', s)), h0, t0) =>
      match resumeEditSession_try s ref' force h0 with
      | (Ok _, h1, t1) => (Ok tt, h1, t0 ++ t1)
      | (Err _, h1, t1) => (Ok tt, h1, t0 ++ t1 ++ [EvNotify Error ResumeFailed])
      end
  end.
Proof.
  unfold resumeEditSession, bind, tryCatch, emit, ret.
  destruct (resumeEditSession_read ref silent h) as [[[[[ref' s]|]|e] h0] t0]; simpl;
    [| by rewrite app_nil_r | done].
  by destruct (resumeEditSession_try s ref' force h0) as [[[[]|e] h1] t1].
Qed.

(** [generateChanges] only looks. *)
Lemma willChangeLocalContents_looks localChanges u change :
  emits (fun e => looks e = true /\ is_prompt e = false)
        (willChangeLocalContents localChanges u change).
Proof. unfold willChangeLocalContents. prog. Qed.

Lemma matchIdentity_looks canonical ref force wfs :
  emits (fun e => looks e = true /\ (force = true -> is_prompt e = false))
        (matchIdentity canonical ref force wfs).
Proof.
  destruct force; induction wfs as [|f rest IH]; simpl; prog.
Qed.

Lemma resolveChanges_looks localChanges root incoming changes conflicting :
  emits (fun e => looks e = true /\ is_prompt e = false)
        (resolveChanges localChanges root incoming changes conflicting).
Proof.
  revert changes conflicting. pose proof willChangeLocalContents_looks.
  induction incoming as [|c rest IH]; intros; simpl; prog.
Qed.

Lemma generateChanges_looks s ref force :
  emits (fun e => looks e = true /\ (force = true -> is_prompt e = false))
        (generateChanges s ref force).
Proof.
  unfold generateChanges. prog.
  generalize (@nil ResolvedChange) at 1. generalize (@nil ResolvedChange).
  pose proof matchIdentity_looks.
  assert (forall localChanges root incoming changes conflicting,
            emits (fun e => looks e = true /\ (force = true -> is_prompt e = false))
                  (resolveChanges localChanges root incoming changes conflicting)).
  { intros. eapply emits_impl; [|apply resolveChanges_looks]. by intros ? [? ?]. }
  induction (folders s) as [|folder rest IH]; intros; simpl;
    unfold findFolderRoot; prog.
Qed.

(** X7. [generateChanges] only looks: it leaves the host as it is, and
    its calls are questions to the identity service, looks at files and
    the prompt for a partial match; with [force] it does not prompt. *)
Theorem generateChanges_only_looks (s : EditSession) (ref : string) (force : bool)
    (h : W) :
  final (generateChanges s ref force) h = h /\
  Forall (fun e => looks e = true /\ (force = true -> is_prompt e = false))
         (calls (generateChanges s ref force) h).
Proof. split; [apply generateChanges_readonly | apply generateChanges_looks]. Qed.

(** What the loop over the working changes of a folder adds. *)
Lemma resolveChanges_spec localChanges root h incoming :
  forall changes conflicts changes' conflicts',
    result (resolveChanges localChanges root incoming changes conflicts) h
    = Ok (changes', conflicts') ->
    exists addedC,
      (changes' = changes ++ map (resolved root) incoming) /\
      (conflicts' = conflicts ++ addedC) /\
      sublist addedC (map (resolved root) incoming) /\
      Forall (fun c => uri_str (rc_uri c) ∈ localChanges) addedC.
Proof.
  induction incoming as [|c rest IH]; intros changes conflicts changes' conflicts'; simpl.
  { intros [= <- <-]. exists []. rewrite !app_nil_r. repeat split; constructor. }
  rewrite result_bind_readonly by apply willChangeLocalContents_readonly.
  destruct (result (willChangeLocalContents _ _ _) h) as [conflict|e] eqn:Hw; [|done].
  intros Hrun. apply IH in Hrun as (addedC & -> & -> & Hsub & Hall).
  destruct conflict.
  - exists (resolved root c :: addedC). rewrite <- !app_assoc. repeat split.
    + by constructor.
    + constructor; [|done]. revert Hw. unfold result, willChangeLocalContents.
      case_bool_decide; [done|]. by intros [=].
  - exists addedC. rewrite <- !app_assoc. repeat split; [|done]. by constructor.
Qed.

(** The conflicts are among the changes, and they are local changes. *)
Lemma generateChanges_folders_spec ref force wfs h (session : list Folder) fs :
  forall changes conflicts changes' conflicts',
    (forall f, In f fs -> In f session) ->
    sublist conflicts changes ->
    Forall (fun c => exists f, In f session /\ uri_str (rc_uri c) ∈ localChangesOf h f)
           conflicts ->
    result (generateChanges_folders fs ref force wfs changes conflicts) h
    = Ok (changes', conflicts') ->
    sublist conflicts' changes' /\
    Forall (fun c => exists f, In f session /\ uri_str (rc_uri c) ∈ localChangesOf h f)
           conflicts'.
Proof.
  induction fs as [|folder rest IH];
    intros changes conflicts changes' conflicts' Hin Hsub Hall; simpl.
  { by intros [= <- <-]. }
  rewrite result_bind_readonly by apply findFolderRoot_readonly.
  destruct (result (findFolderRoot folder ref force wfs) h) as [[root|]|e]; [| |done].
  2:{ intros [= <- <-]. split; constructor. }
  rewrite result_bind_readonly by apply readonly_get. rewrite result_get.
  rewrite result_bind_readonly by apply resolveChanges_readonly.
  destruct (result (resolveChanges _ _ _ _ _) h) as [[c1 k1]|e] eqn:Hres; [|done].
  apply resolveChanges_spec in Hres as (addedC & -> & -> & Hsub' & Hall').
  simpl. apply IH.
  - intros f Hf. apply Hin. by right.
  - by apply sublist_app.
  - apply Forall_app. split; [done|].
    eapply Forall_impl; [apply Hall'|]. intros c Hc. exists folder. split; [|done].
    apply Hin. by left.
Qed.

Lemma generateChanges_spec s ref force h changes conflicts :
  result (generateChanges s ref force) h = Ok (changes, conflicts) ->
  sublist conflicts changes /\
  Forall (fun c => exists f, In f (folders s) /\ uri_str (rc_uri c) ∈ localChangesOf h f)
         conflicts.
Proof.
  unfold generateChanges.
  rewrite result_bind_readonly by apply readonly_get. rewrite result_get.
  apply generateChanges_folders_spec; [done|constructor|constructor].
Qed.

(** X8. The conflicting changes that [generateChanges] returns are among
    the changes it returns, in their order, and each of them is for a URI
    that has local changes in an SCM repository (of a workspace folder
    named as a folder of the session). *)
Theorem generateChanges_conflicts (s : EditSession) (ref : string) (force : bool)
    (h : W) (changes conflicts : list ResolvedChange) :
  result (generateChanges s ref force) h = Ok (changes, conflicts) ->
  sublist conflicts changes /\
  Forall (fun c => exists f, In f (folders s) /\ uri_str (rc_uri c) ∈ localChangesOf h f)
         conflicts.
Proof. apply generateChanges_spec. Qed.

Lemma applyChanges_keeps_session v changes :
  emits (fun e => deletes_session e = false /\ asks_confirmation e = false)
        (applyChanges v changes).
Proof. induction changes as [|[u [] c] rest IH]; simpl; prog. Qed.

Lemma looks_quiet e : looks e = true -> quiet e /\ asks_confirmation e = false.
Proof. by destruct e. Qed.

Lemma generateChanges_calls s ref force h :
  Forall (fun e => quiet e /\ asks_confirmation e = false)
         (calls (generateChanges s ref force) h).
Proof.
  eapply Forall_impl; [apply generateChanges_looks|]. intros e [? _]. by apply looks_quiet.
Qed.

(** X9. When the user declines to overwrite the conflicting files,
    [resumeEditSession] stops there: after the confirmation dialog it
    makes no call, so that no file is changed and the session stays in the
    cloud store. *)
Theorem resumeEditSession_declined (s : EditSession) (ref : string) (force : bool)
    (h : W) (changes conflicts : list ResolvedChange) :
  result (generateChanges s ref force) h = Ok (changes, conflicts) ->
  conflicts <> [] ->
  dialog_confirm h (map rc_uri conflicts) = Ok false ->
  resumeEditSession_try s ref force h
  = (Ok tt, h, calls (generateChanges s ref force) h ++ [EvConfirm (map rc_uri conflicts)]) /\
  Forall quiet (calls (resumeEditSession_try s ref force) h).
Proof.
  intros Hgen Hne Hno.
  assert (resumeEditSession_try s ref force h
          = (Ok tt, h, calls (generateChanges s ref force) h
                       ++ [EvConfirm (map rc_uri conflicts)])) as Hrun.
  { rewrite resumeEditSession_try_run, Hgen.
    destruct (generateChanges_spec _ _ _ _ _ _ Hgen) as [Hsub _].
    destruct changes as [|c0 changes'].
    { apply sublist_nil_r in Hsub. done. }
    destruct conflicts as [|c1 conflicts']; [done|]. cbn zeta. by rewrite Hno. }
  split; [done|]. unfold calls at 1. rewrite Hrun. simpl.
  apply Forall_app. split; [|by repeat constructor].
  eapply Forall_impl; [apply generateChanges_calls|]. by intros e [? _].
Qed.

(** X10. Once a session of a supported version has been read,
    [resumeEditSession] does not fail: an exception of the [try] block
    (from matching, from the dialog, from a file operation or from the
    deletion of the session) ends in the notification 'resume failed'. *)
Theorem resumeEditSession_failure (ref : option string) (silent force : bool)
    (h h0 : W) (t0 : list Event) (ref' : string) (s : EditSession) (e : Exn) :
  resumeEditSession_read ref silent h = (Ok (Some (ref', s)), h0, t0) ->
  result (resumeEditSession_try s ref' force) h0 = Err e ->
  resumeEditSession ref silent force h
  = (Ok tt, final (resumeEditSession_try s ref' force) h0,
     t0 ++ calls (resumeEditSession_try s ref' force) h0 ++ [EvNotify Error ResumeFailed]).
Proof.
  intros Hread Htry. rewrite resumeEditSession_run, Hread.
  revert Htry. unfold result, final, calls.
  by destruct (resumeEditSession_try s ref' force h0) as [[[[]|e'] h1] t1].
Qed.

(** X11. The session is deleted from the cloud store only when it has been
    applied: a deletion is for the [ref] at hand, it is the last call of
    the [try] block, and by then the loop over the (non-empty) changes has
    run to its end. *)
Theorem resumeEditSession_deletes_last (s : EditSession) (ref r : string) (force : bool)
    (h : W) :
  In (EvStorageDelete r) (calls (resumeEditSession_try s ref force) h) ->
  r = ref /\
  last (calls (resumeEditSession_try s ref force) h) = Some (EvStorageDelete ref) /\
  exists changes conflicts,
    result (generateChanges s ref force) h = Ok (changes, conflicts) /\
    changes <> [] /\
    result (applyChanges (version s) changes) h = Ok tt.
Proof.
  unfold calls at 1 2. rewrite resumeEditSession_try_run.
  pose proof (generateChanges_calls s ref force h) as Hgen. rewrite Forall_forall in Hgen.
  assert (forall l, Forall (fun e => deletes_session e = false) l ->
                    In (EvStorageDelete r) (calls (generateChanges s ref force) h ++ l) ->
                    False) as Hno.
  { intros l Hl [Hin|Hin]%in_app_or.
    - apply list_elem_of_In, Hgen in Hin as [(_ & _ & ?) _]. done.
    - rewrite Forall_forall in Hl. by apply list_elem_of_In, Hl in Hin. }
  cbn zeta.
  destruct (result (generateChanges s ref force) h) as [[changes conflicts]|e] eqn:Hres;
    cbn [snd].
  2:{ intros Hin. destruct (Hno [] ltac:(constructor)). by rewrite app_nil_r. }
  destruct changes as [|c0 changes'].
  { intros Hin. destruct (Hno [] ltac:(constructor)). by rewrite app_nil_r. }
  set (cl := c0 :: changes').
  set (asked := match conflicts with [] => [] | _ => [EvConfirm (map rc_uri conflicts)] end).
  assert (Forall (fun e => deletes_session e = false) asked) as Hasked
    by (subst asked; destruct conflicts; by repeat constructor).
  destruct (match conflicts with [] => Ok true | _ => dialog_confirm h _ end) as [[]|e];
    cbn [snd]; [| by intros Hin; destruct (Hno _ Hasked Hin)..].
  pose proof (applyChanges_keeps_session (version s) cl h) as Happly.
  unfold calls, result in *.
  destruct (applyChanges (version s) cl h) as [[[[]|e] h2] t2] eqn:Erun;
    cbn [fst snd] in *.
  2:{ intros Hin. destruct (Hno (asked ++ t2)); [|done].
      apply Forall_app. split; [done|].
      eapply Forall_impl; [apply Happly|]. by intros ? [? _]. }
  intros Hin. rewrite !app_assoc in *. rewrite last_snoc.
  apply in_app_or in Hin as [Hin|[[= ->]|[]]].
  { destruct (Hno (asked ++ t2)); [|by rewrite app_assoc].
    apply Forall_app. split; [done|].
    eapply Forall_impl; [apply Happly|]. by intros ? [? _]. }
  split; [done|]. split; [done|]. exists cl, conflicts. subst cl. by rewrite Erun.
Qed.

(** What the part before the [try] block has done when the cloud
    store answered that it has nothing. *)
Lemma resumeEditSession_read_nothing ref silent h r h0 t0 :
  resumeEditSession_read ref silent h = (r, h0, t0) ->
  Forall (fun e => modifies_file e = false /\ deletes_session e = false) t0 /\
  forall q, In (EvStorageRead q (Ok None)) t0 ->
    r = Ok None /\
    exists pre, t0 = pre ++ EvStorageRead ref (Ok None) :: nothingToResumeNotice ref silent.
Proof.
  intros Hrun. split.
  { pose proof (resumeEditSession_read_spec ref silent h) as [Hf _].
    unfold calls in Hf. by rewrite Hrun in Hf. }
  intros q. revert Hrun. rewrite resumeEditSession_read_run.
  destruct (getEnvironment h) as [[[]|e] h1].
  2:{ intros [= <- <- <-] Hin. simpl in Hin. intuition discriminate. }
  destruct (getWorkbenchState h1).
  { intros [= <- <- <-] Hin. simpl in Hin. intuition discriminate. }
  all: destruct silent; cbn zeta; cbn [fst snd].
  all: try destruct (storage_initialize h1) as [[[]|e] h2]; cbn [fst snd].
  all: try (intros [= <- <- <-] Hin; simpl in Hin; intuition discriminate).
  all: match goal with |- context [storage_read ?x ?y] =>
         destruct (storage_read x y) as [[[ref' s]|]|?] end.
  all: try destruct (EditSessionSchemaVersion <? version s)%Z.
  all: intros [= <- <- <-] Hin; simpl in Hin.
  all: try (exfalso; intuition discriminate).
  all: split; [done|].
  all: first [by exists [EvGetEnvironment] | by exists [EvGetEnvironment; EvInitialize]].
Qed.

(** X12. When the cloud store has no session to resume, [resumeEditSession]
    returns after telling so: a warning when a [ref] was asked for, an
    information when none was and the call is not silent, nothing for a
    silent call.  No file was changed and no session deleted. *)
Theorem resumeEditSession_nothing_stored (ref q : option string) (silent force : bool)
    (h : W) :
  In (EvStorageRead q (Ok None)) (calls (resumeEditSession ref silent force) h) ->
  result (resumeEditSession ref silent force) h = Ok tt /\
  Forall (fun e => modifies_file e = false /\ deletes_session e = false)
         (calls (resumeEditSession ref silent force) h) /\
  exists pre,
    calls (resumeEditSession ref silent force) h
    = pre ++ EvStorageRead ref (Ok None) :: nothingToResumeNotice ref silent.
Proof.
  unfold calls, result. rewrite resumeEditSession_run.
  destruct (resumeEditSession_read ref silent h) as [[r h0] t0] eqn:Hread.
  destruct (resumeEditSession_read_nothing _ _ _ _ _ _ Hread) as [Hframe Hinv].
  destruct r as [[[ref' s]|]|e]; cbn.
  - pose proof (resumeEditSession_try_emits s ref' force h0) as Htry.
    unfold calls in Htry. rewrite Forall_forall in Htry.
    destruct (resumeEditSession_try s ref' force h0) as [[[[]|e'] h1] t1];
      cbn in *; intros Hin; exfalso.
    all: apply in_app_or in Hin as [Hin|Hin]; [by destruct (Hinv _ Hin) as [[=] _]|].
    + by apply list_elem_of_In, Htry in Hin.
    + apply in_app_or in Hin as [Hin|Hin]; [|simpl in Hin; intuition discriminate].
      by apply list_elem_of_In, Htry in Hin.
  - intros Hin. destruct (Hinv _ Hin) as [_ [pre ->]]. split; [done|]. split; [done|].
    by exists pre.
  - intros Hin. by destruct (Hinv _ Hin) as [[=] _].
Qed.

(** X13. A silent [resumeEditSession] for which the storage service does
    not initialize (its user is not signed in) returns without reading the
    cloud store, and shows nothing. *)
Theorem resumeEditSession_silent_signed_out (ref : option string) (force : bool)
    (h h0 h1 : W) :
  getEnvironment h = (Ok tt, h0) ->
  getWorkbenchState h0 <> EMPTY ->
  storage_initialize h0 = (Ok false, h1) ->
  resumeEditSession ref true force h = (Ok tt, h1, [EvGetEnvironment; EvInitialize]).
Proof.
  intros Henv Hst Hinit.
  rewrite resumeEditSession_run, resumeEditSession_read_run, Henv.
  destruct (getWorkbenchState h0); [done| |]; cbn zeta; by rewrite Hinit.
Qed.

(** X14. Without local changes in the folders of the session, resuming
    never asks for a confirmation: the [try] block of [resumeEditSession]
    does not open the dialog. *)
Theorem resumeEditSession_no_local_changes (s : EditSession) (ref : string)
    (force : bool) (h : W) :
  (forall f, In f (folders s) -> localChangesOf h f = ∅) ->
  Forall (fun e => asks_confirmation e = false)
         (calls (resumeEditSession_try s ref force) h).
Proof.
  intros Hlocal. unfold calls at 1. rewrite resumeEditSession_try_run.
  assert (Forall (fun e => asks_confirmation e = false)
                 (calls (generateChanges s ref force) h)) as Hgen.
  { eapply Forall_impl; [apply generateChanges_calls|]. by intros e [_ ?]. }
  cbn zeta.
  destruct (result (generateChanges s ref force) h) as [[changes conflicts]|e] eqn:Hres;
    [|done].
  destruct changes as [|c0 changes']; [done|].
  assert (conflicts = []) as ->.
  { destruct (generateChanges_spec _ _ _ _ _ _ Hres) as [_ Hall].
    destruct conflicts as [|c1 ?]; [done|]. exfalso.
    apply Forall_cons in Hall as [(f & Hf & Hin) _].
    rewrite (Hlocal f Hf) in Hin. by apply not_elem_of_empty in Hin. }
  pose proof (applyChanges_keeps_session (version s) (c0 :: changes') h) as Happly.
  unfold calls in Happly.
  destruct (applyChanges (version s) (c0 :: changes') h) as [[[[]|e] h2] t2];
    cbn [fst snd] in *.
  all: repeat (apply Forall_app; split); try done.
  all: try (eapply Forall_impl; [apply Happly|]; by intros ? [_ ?]).
  by repeat constructor.
Qed.

End Resuming.

(** ** The theorems at concrete inputs *)

Lemma storeEditSession_uploads_sessionTwice :
  In (EvStorageWrite sessionTwice) (calls (storeEditSession true) hostTwice).
Proof. vm_compute. repeat (first [left; reflexivity | right]). Qed.

Lemma storeEditSession_folder_per_repository_witness :
  In (EvStorageWrite sessionTwice) (calls (storeEditSession true) hostTwice) /\
  Forall2 (fun r f => length (workingChanges f) <= length (getChangedResources r))
          [repoTwice] (folders sessionTwice).
Proof.
  split; [exact storeEditSession_uploads_sessionTwice|].
  exact (storeEditSession_folder_per_repository true hostTwice sessionTwice
           storeEditSession_uploads_sessionTwice).
Defined.

Lemma storeEditSession_stores_changes_witness :
  In (EvStorageWrite sessionTwice) (calls (storeEditSession true) hostTwice) /\
  existsb hasChanges (folders sessionTwice) = true.
Proof.
  split; [exact storeEditSession_uploads_sessionTwice|].
  exact (proj1 (proj2 (storeEditSession_stores_changes true hostTwice sessionTwice
                         storeEditSession_uploads_sessionTwice))).
Defined.

Lemma storeEditSession_upload_failure_witness :
  saveAll hostRefused = (Ok tt, hostRefused) /\
  storeRepositories (repositories hostRefused) false [] hostRefused
  = (Ok (true, folders sessionTwice), hostRefused,
     calls (storeRepositories (repositories hostRefused) false []) hostRefused) /\
  storage_write hostRefused sessionTwice
  = (Err (UserDataSyncStoreError TooLarge), hostRefused) /\
  storeEditSession false hostRefused
  = (Ok None, hostRefused,
     EvSaveAll :: calls (storeRepositories (repositories hostRefused) false []) hostRefused
               ++ [EvStorageWrite sessionTwice; EvNotify Error PayloadTooLarge]).
Proof.
  assert (saveAll hostRefused = (Ok tt, hostRefused)) as Hsave by reflexivity.
  assert (storeRepositories (repositories hostRefused) false [] hostRefused
          = (Ok (true, folders sessionTwice), hostRefused,
             calls (storeRepositories (repositories hostRefused) false []) hostRefused))
    as Hrun by (vm_compute; reflexivity).
  assert (storage_write hostRefused sessionTwice
          = (Err (UserDataSyncStoreError TooLarge), hostRefused)) as Hwrite by reflexivity.
  split; [exact Hsave|]. split; [exact Hrun|]. split; [exact Hwrite|].
  exact (storeEditSession_upload_failure false hostRefused hostRefused hostRefused
           hostRefused _ _ _ Hsave Hrun Hwrite).
Defined.

Lemma storeEditSession_nothing_to_store_witness :
  hasEditSession (snd (saveAll host0)) = false /\
  Forall (fun e => writes_storage e = false) (calls (storeEditSession true) host0).
Proof.
  split; [reflexivity|].
  exact (proj1 (storeEditSession_nothing_to_store true host0 eq_refl)).
Defined.

Lemma generateChanges_conflicts_witness :
  result (generateChanges sessionConflict "r2" false) hostDeclines
  = Ok (changesConflict, changesConflict) /\
  sublist changesConflict changesConflict.
Proof.
  assert (result (generateChanges sessionConflict "r2" false) hostDeclines
          = Ok (changesConflict, changesConflict)) as Hgen by (vm_compute; reflexivity).
  split; [exact Hgen|].
  exact (proj1 (generateChanges_conflicts sessionConflict "r2" false hostDeclines
                  changesConflict changesConflict Hgen)).
Defined.

Lemma resumeEditSession_declined_witness :
  result (generateChanges sessionConflict "r2" false) hostDeclines
  = Ok (changesConflict, changesConflict) /\
  changesConflict <> [] /\
  dialog_confirm hostDeclines (map rc_uri changesConflict) = Ok false /\
  Forall quiet (calls (resumeEditSession_try sessionConflict "r2" false) hostDeclines).
Proof.
  assert (result (generateChanges sessionConflict "r2" false) hostDeclines
          = Ok (changesConflict, changesConflict)) as Hgen by (vm_compute; reflexivity).
  assert (changesConflict <> []) as Hne by discriminate.
  assert (dialog_confirm hostDeclines (map rc_uri changesConflict) = Ok false) as Hno
    by reflexivity.
  split; [exact Hgen|]. split; [exact Hne|]. split; [exact Hno|].
  exact (proj2 (resumeEditSession_declined sessionConflict "r2" false hostDeclines
                  changesConflict changesConflict Hgen Hne Hno)).
Defined.

Lemma resumeEditSession_failure_witness :
  resumeEditSession_read None false hostBlocked
  = (Ok (Some ("r1"%string, sessionA)), hostBlocked,
     calls (resumeEditSession_read None false) hostBlocked) /\
  result (resumeEditSession_try sessionA "r1" false) hostBlocked = Err (JsError "EISDIR") /\
  result (resumeEditSession None false false) hostBlocked = Ok tt /\
  last (calls (resumeEditSession None false false) hostBlocked)
  = Some (EvNotify Error ResumeFailed).
Proof.
  assert (resumeEditSession_read None false hostBlocked
          = (Ok (Some ("r1"%string, sessionA)), hostBlocked,
             calls (resumeEditSession_read None false) hostBlocked)) as Hread
    by (vm_compute; reflexivity).
  assert (result (resumeEditSession_try sessionA "r1" false) hostBlocked
          = Err (JsError "EISDIR")) as Htry by (vm_compute; reflexivity).
  split; [exact Hread|]. split; [exact Htry|].
  pose proof (resumeEditSession_failure None false false hostBlocked hostBlocked _
                "r1"%string sessionA _ Hread Htry) as Hrun.
  unfold result, calls at 1. rewrite Hrun. split; [reflexivity|].
  cbn [snd]. by rewrite app_assoc, last_snoc.
Defined.

Lemma resumeEditSession_deletes_last_witness :
  In (EvStorageDelete "r1") (calls (resumeEditSession_try sessionA "r1" false) hostStored) /\
  last (calls (resumeEditSession_try sessionA "r1" false) hostStored)
  = Some (EvStorageDelete "r1").
Proof.
  assert (In (EvStorageDelete "r1")
             (calls (resumeEditSession_try sessionA "r1" false) hostStored)) as Hin
    by (vm_compute; repeat (first [left; reflexivity | right])).
  split; [exact Hin|].
  exact (proj1 (proj2 (resumeEditSession_deletes_last sessionA "r1" "r1" false
                         hostStored Hin))).
Defined.

Lemma resumeEditSession_nothing_stored_witness :
  In (EvStorageRead None (Ok None)) (calls (resumeEditSession None false false) host0) /\
  result (resumeEditSession None false false) host0 = Ok tt /\
  exists pre,
    calls (resumeEditSession None false false) host0
    = pre ++ [EvStorageRead None (Ok None); EvNotify Info NoCloudChanges].
Proof.
  assert (In (EvStorageRead None (Ok None))
             (calls (resumeEditSession None false false) host0)) as Hin
    by (right; left; reflexivity).
  split; [exact Hin|].
  destruct (resumeEditSession_nothing_stored None None false false host0 Hin)
    as (Hr & _ & Hpre).
  split; [exact Hr | exact Hpre].
Defined.

Lemma resumeEditSession_silent_signed_out_witness :
  getWorkbenchState {| so_host := host0; so_refusal := JsError "offline" |} <> EMPTY /\
  resumeEditSession None true false {| so_host := host0; so_refusal := JsError "offline" |}
  = (Ok tt, {| so_host := host0; so_refusal := JsError "offline" |},
     [EvGetEnvironment; EvInitialize]).
Proof.
  assert (getWorkbenchState {| so_host := host0; so_refusal := JsError "offline" |}
          <> EMPTY) as Hst by discriminate.
  split; [exact Hst|].
  exact (resumeEditSession_silent_signed_out None false _ _ _ eq_refl Hst eq_refl).
Defined.

Lemma resumeEditSession_no_local_changes_witness :
  (forall f, In f (folders sessionA) -> localChangesOf hostStored f = ∅) /\
  Forall (fun e => asks_confirmation e = false)
         (calls (resumeEditSession_try sessionA "r1" false) hostStored).
Proof.
  assert (forall f, In f (folders sessionA) -> localChangesOf hostStored f = ∅) as Hlocal
    by (intros f _; reflexivity).
  split; [exact Hlocal|].
  exact (resumeEditSession_no_local_changes sessionA "r1" false hostStored Hlocal).
Defined.

End EditSessionsFlows.

(* ===================================================================== *)
(** * Part VI: lookup, hosts and shutdown of the terminal service        *)
(* ===================================================================== *)

Module TerminalFlows.
Import Terminal TerminalTheory.

(** ** Looking up instances *)

Lemma lastIndexOf_from (x : nat) (l : list nat) : forall (index i : Z),
  let r := fst (foldl (fun '(index, i) y =>
                         (if bool_decide (y = x) then i else index, (i + 1)%Z))
                      (index, i) l) in
  (x ∉ l -> r = index) /\
  (x ∈ l -> (i <= r < i + Z.of_nat (length l))%Z /\ l !! Z.to_nat (r - i) = Some x).
Proof.
  induction l as [|y l IH]; intros index i; simpl.
  { split; [done|]. by intros ?%elem_of_nil. }
  specialize (IH (if bool_decide (y = x) then i else index) (i + 1)%Z).
  simpl in IH. destruct IH as [IHout IHin].
  match goal with |- context [fst (foldl ?F ?a l)] => set (r := fst (foldl F a l)) in * end.
  destruct (decide (x ∈ l)) as [Hin|Hout].
  - destruct (IHin Hin) as [Hr Hl]. split.
    { intros Hno. exfalso. apply Hno. by right. }
    intros _. split; [lia|].
    replace (Z.to_nat (r - i)) with (S (Z.to_nat (r - (i + 1)))) by lia. done.
  - rewrite (IHout Hout). case_bool_decide as Hy.
    + subst y. split.
      { intros Hno. exfalso. apply Hno. by left. }
      intros _. split; [lia|]. by replace (Z.to_nat (i - i)) with 0 by lia.
    + split; [done|]. intros [?|?]%elem_of_cons; [congruence|done].
Qed.

Lemma lastIndexOf_absent x l : x ∉ l -> lastIndexOf x l = (-1)%Z.
Proof. intros Hx. by apply (lastIndexOf_from x l (-1) 0). Qed.

Lemma lastIndexOf_present x l :
  x ∈ l -> (0 <= lastIndexOf x l)%Z /\ l !! Z.to_nat (lastIndexOf x l) = Some x.
Proof.
  intros Hx. destruct (lastIndexOf_from x l (-1) 0) as [_ H].
  destruct (H Hx) as [Hr Hl]. split; [unfold lastIndexOf; lia|].
  by rewrite Z.sub_0_r in Hl.
Qed.

Section Lookup.
Context `{Env : TerminalEnv}.

(** [_getIndexFromId] returns the index of an instance with that id
    among [instances], when there is one; otherwise it throws. *)
Lemma _getIndexFromId_run (terminalId : nat) (st : State) :
  (forall i, _getIndexFromId terminalId st = Ok i -> instances st !! i = Some terminalId) /\
  (terminalId ∈ instances st -> exists i, _getIndexFromId terminalId st = Ok i) /\
  (terminalId ∉ instances st ->
   _getIndexFromId terminalId st
   = Err (Error ("Terminal with ID "
                 ++ NilZero.string_of_uint (Nat.to_uint terminalId)
                 ++ " does not exist (has it already been disposed?)"))).
Proof.
  unfold _getIndexFromId.
  destruct (decide (terminalId ∈ instances st)) as [Hin|Hout].
  - destruct (lastIndexOf_present _ _ Hin) as [Hr Hl].
    replace (lastIndexOf terminalId (instances st) =? -1)%Z with false
      by (symmetry; apply Z.eqb_neq; lia).
    split; [by intros i [= <-]|]. split; [by eexists|done].
  - rewrite (lastIndexOf_absent _ _ Hout). simpl. by split; [|split].
Qed.

(** [getInstanceFromId] finds exactly the instances that the service
    holds. *)
Lemma getInstanceFromId_run (terminalId : nat) (st : State) :
  getInstanceFromId terminalId st
  = if bool_decide (terminalId ∈ backgroundedTerminalInstances st
                    \/ terminalId ∈ instances st)
    then Some terminalId else None.
Proof.
  unfold getInstanceFromId, _getIndexFromId.
  destruct (decide (terminalId ∈ backgroundedTerminalInstances st)) as [Hbg|Hbg].
  - destruct (lastIndexOf_present _ _ Hbg) as [Hr Hl].
    replace (lastIndexOf terminalId (backgroundedTerminalInstances st) =? -1)%Z
      with false by (symmetry; apply Z.eqb_neq; lia).
    simpl. rewrite Hl. by rewrite bool_decide_eq_true_2 by by left.
  - rewrite (lastIndexOf_absent _ _ Hbg). simpl.
    destruct (decide (terminalId ∈ instances st)) as [Hin|Hout].
    + destruct (lastIndexOf_present _ _ Hin) as [Hr Hl].
      replace (lastIndexOf terminalId (instances st) =? -1)%Z with false
        by (symmetry; apply Z.eqb_neq; lia).
      rewrite Hl. by rewrite bool_decide_eq_true_2 by by right.
    + rewrite (lastIndexOf_absent _ _ Hout). simpl.
      by rewrite bool_decide_eq_false_2 by tauto.
Qed.

(** X15. [getInstanceFromId] finds exactly the instances that the service
    holds, in the background or not: it returns the instance with that id
    if it is a backgrounded instance or one of [instances], and
    [undefined] otherwise.  [_getIndexFromId] returns the index of an
    instance with that id among [instances], when there is one; otherwise
    it throws 'Terminal with ID ... does not exist (has it already been
    disposed?)'. *)
Theorem getInstanceFromId_spec (terminalId : nat) (st : State) :
  getInstanceFromId terminalId st
  = (if bool_decide (terminalId ∈ backgroundedTerminalInstances st
                     \/ terminalId ∈ instances st)
     then Some terminalId else None) /\
  (forall i, _getIndexFromId terminalId st = Ok i -> instances st !! i = Some terminalId) /\
  (terminalId ∈ instances st -> exists i, _getIndexFromId terminalId st = Ok i) /\
  (terminalId ∉ instances st ->
   _getIndexFromId terminalId st
   = Err (Error ("Terminal with ID "
                 ++ NilZero.string_of_uint (Nat.to_uint terminalId)
                 ++ " does not exist (has it already been disposed?)"))).
Proof.
  split; [apply getInstanceFromId_run | apply _getIndexFromId_run].
Qed.

(** Where the creating methods put the instance. *)
Lemma _createTerminal_in c loc st :
  match loc with
  | Editor => fst (_createTerminal c loc st) ∈ editorInstances (hosts (snd (_createTerminal c loc st)))
  | Panel => fst (_createTerminal c loc st) ∈ groupInstances (snd (_createTerminal c loc st))
  end.
Proof.
  unfold _createTerminal, createGroup, createInstance, groupInstances.
  destruct loc; cbn [fst snd]; rewrite _addToReconnected_hosts; simpl.
  - rewrite concat_app. simpl. rewrite elem_of_app, list_elem_of_singleton. by right.
  - rewrite elem_of_app, list_elem_of_singleton. by right.
Qed.

Lemma elem_of_concat_alter_new (i g : nat) (gs : list (list nat)) :
  g < length gs -> i ∈ concat (alter (fun l => l ++ [i]) g gs).
Proof.
  revert g. induction gs as [|l gs IH]; intros g Hg; simpl in *; [lia|].
  destruct g as [|g]; simpl; rewrite elem_of_app.
  - left. rewrite elem_of_app, list_elem_of_singleton. by right.
  - right. apply IH. lia.
Qed.

Lemma _splitTerminal_in c loc parent st i st' :
  _splitTerminal c loc parent st = (Ok i, st') ->
  match loc, target (instanceOf st parent) with
  | Editor, _ | _, Some Editor => i ∈ editorInstances (hosts st')
  | _, _ => i ∈ groupInstances st'
  end.
Proof.
  unfold _splitTerminal. cbv zeta.
  match goal with |- context [splitInstance ?d st] => set (c' := d); clearbody c' end.
  assert (forall d, let r := splitInstance d st in
                    fst r ∈ editorInstances (hosts (_addToReconnected (fst r) (snd r))))
    as Hed.
  { intros d. unfold splitInstance, createInstance. simpl.
    rewrite _addToReconnected_hosts. simpl.
    rewrite elem_of_app, list_elem_of_singleton. by right. }
  assert (forall d g, getGroupForInstance parent st = Some g ->
                      let r := splitGroup g d st in
                      fst r ∈ groupInstances (_addToReconnected (fst r) (snd r))) as Hgr.
  { intros d g Hg. unfold splitGroup, createInstance, groupInstances. simpl.
    rewrite _addToReconnected_hosts. simpl. apply elem_of_concat_alter_new.
    unfold getGroupForInstance in Hg.
    destruct (list_find _ (groups (hosts st))) as [[k l]|] eqn:Hfind; [|done].
    injection Hg as <-. apply list_find_Some in Hfind as (Hk & _ & _).
    by apply lookup_lt_Some in Hk. }
  destruct loc, (target (instanceOf st parent)) as [[]|]; simpl.
  all: try (specialize (Hed c'); simpl in Hed; intros [= <- <-]; exact Hed).
  all: destruct (getGroupForInstance parent st) as [g|] eqn:Hg; [|done].
  all: specialize (Hgr (slc_with_parentTerminalId c' parent) g eq_refl); simpl in Hgr.
  all: intros [= <- <-]; exact Hgr.
Qed.

Lemma _addToReconnected_hasBeenCreated i st :
  terminalHasBeenCreated (_addToReconnected i st) = terminalHasBeenCreated st.
Proof. unfold _addToReconnected. by repeat case_match. Qed.

Lemma _createTerminal_hasBeenCreated c loc st :
  terminalHasBeenCreated (snd (_createTerminal c loc st)) = terminalHasBeenCreated st.
Proof.
  unfold _createTerminal, createGroup, createInstance.
  destruct loc; cbn [snd]; by rewrite _addToReconnected_hasBeenCreated.
Qed.

Lemma _splitTerminal_hasBeenCreated c loc parent st :
  terminalHasBeenCreated (snd (_splitTerminal c loc parent st)) = terminalHasBeenCreated st.
Proof.
  unfold _splitTerminal, splitInstance, splitGroup, createInstance.
  repeat (case_match; cbn [snd]); try done; by rewrite _addToReconnected_hasBeenCreated.
Qed.

(** The successful runs of [createTerminal]. *)
Lemma createTerminal_Ok options st i st' :
  createTerminal options st = (Ok i, st') ->
  (exists profile, contributedProfileOf options = Some profile /\
                   launchContributedProfile profile options st = (Ok i, st')) \/
  (contributedProfileOf options = None /\
   exists c, hideFromUser c = hideFromUser (shellLaunchConfigOf options) /\
             launchTerminal c options st = (Ok i, st')).
Proof.
  unfold createTerminal.
  destruct (_resolveCwd _ _ options st) as [c|e] eqn:Hcwd; [|done].
  apply _resolveCwd_customPty in Hcwd as [_ Hhide].
  destruct (contributedProfileOf options) as [profile|].
  { intros Hrun. left. by exists profile. }
  destruct (negb _ && negb _); [done|].
  intros Hrun. right. split; [done|]. by exists c.
Qed.

Lemma launchContributedProfile_Ok profile options st i st' :
  launchContributedProfile profile options st = (Ok i, st') ->
  i ∈ instances st' /\ terminalHasBeenCreated st' = true.
Proof.
  unfold launchContributedProfile. cbv zeta.
  match goal with |- context [createContributedTerminalProfile profile ?l st] =>
    generalize (createContributedTerminalProfile profile l st) end.
  intros st1.
  destruct (last _) as [j|] eqn:Hlast; [|done]. intros [= <- <-].
  split; [|done]. apply last_Some in Hlast as [l' Hl].
  unfold instances, groupInstances in *. simpl.
  destruct (resolveLocation (location options) st) as [[]|];
    rewrite elem_of_app, Hl, elem_of_app, list_elem_of_singleton; tauto.
Qed.

Lemma launchTerminal_Ok c options st i st' :
  launchTerminal c options st = (Ok i, st') ->
  terminalHasBeenCreated st' = true /\
  if hideFromUser c then i ∈ backgroundedTerminalInstances st'
  else
    match default defaultLocation (resolveLocation (location options) st),
          _getSplitParent (location options) st with
    | Editor, _ => i ∈ editorInstances (hosts st')
    | Panel, Some parent =>
        match target (instanceOf st parent) with
        | Some Editor => i ∈ editorInstances (hosts st')
        | _ => i ∈ groupInstances st'
        end
    | Panel, None => i ∈ groupInstances st'
    end.
Proof.
  unfold launchTerminal. destruct (hideFromUser c).
  { unfold createBackgroundTerminal, createInstance. simpl. intros [= <- <-].
    split; [done|]. simpl. rewrite elem_of_app, list_elem_of_singleton. by right. }
  cbv zeta.
  destruct (_getSplitParent (location options) st) as [parent|].
  - intros Hrun.
    pose proof (_splitTerminal_hasBeenCreated (_evaluateLocalCwd c)
                  (default defaultLocation (resolveLocation (location options) st))
                  parent (with_hasBeenCreated st)) as Hflag.
    rewrite Hrun in Hflag. split; [done|].
    apply _splitTerminal_in in Hrun.
    change (instanceOf (with_hasBeenCreated st) parent) with (instanceOf st parent) in Hrun.
    destruct (default defaultLocation (resolveLocation (location options) st));
      by destruct (target (instanceOf st parent)) as [[]|].
  - pose proof (_createTerminal_hasBeenCreated (_evaluateLocalCwd c)
                  (default defaultLocation (resolveLocation (location options) st))
                  (with_hasBeenCreated st)) as Hflag.
    pose proof (_createTerminal_in (_evaluateLocalCwd c)
                  (default defaultLocation (resolveLocation (location options) st))
                  (with_hasBeenCreated st)) as Hin.
    destruct (_createTerminal _ _ _) as [j st0]. intros [= <- <-].
    split; [done|]. by destruct (default defaultLocation _).
Qed.

(** X16. An instance that [createTerminal] returns can be looked up by its
    id, whichever way it was created (contributed profile, background
    terminal, split or new terminal); and by then the context key
    [terminalHasBeenCreated] is set. *)
Theorem createTerminal_getInstanceFromId (options : CreateTerminalOptions)
    (st st' : State) (i : nat) :
  createTerminal options st = (Ok i, st') ->
  getInstanceFromId i st' = Some i /\ terminalHasBeenCreated st' = true.
Proof.
  intros Hrun. split.
  2:{ apply createTerminal_Ok in Hrun as [(profile & _ & Hrun)|(_ & c & _ & Hrun)].
      - by apply launchContributedProfile_Ok in Hrun as [_ ?].
      - by apply launchTerminal_Ok in Hrun as [? _]. }
  rewrite getInstanceFromId_run.
  rewrite bool_decide_eq_true_2; [done|].
  apply createTerminal_Ok in Hrun as [(profile & _ & Hrun)|(_ & c & _ & Hrun)].
  - right. by apply launchContributedProfile_Ok in Hrun as [? _].
  - apply launchTerminal_Ok in Hrun as [_ Hin]. unfold instances.
    destruct (hideFromUser c); [by left|]. right. rewrite elem_of_app.
    destruct (default defaultLocation (resolveLocation (location options) st)); [|tauto].
    destruct (_getSplitParent (location options) st) as [parent|]; [|tauto].
    destruct (target (instanceOf st parent)) as [[]|]; tauto.
Qed.

(** X17. [getInstanceHost] tells where [createTerminal] puts a terminal
    that is not hidden and does not come from a contributed profile: for a
    location whose host is the editor service, the new instance is among
    the instances of the editor service; for one whose host is the group
    service, it is in a group; and for no location or a split of the
    active terminal (for which [getInstanceHost] answers the terminal
    service itself) it is among [instances]. *)
Theorem createTerminal_instance_host (options : CreateTerminalOptions)
    (st st' : State) (i : nat) :
  createTerminal options st = (Ok i, st') ->
  contributedProfileOf options = None ->
  hideFromUser (shellLaunchConfigOf options) = false ->
  match getInstanceHost (location options) st with
  | TheEditorService => i ∈ editorInstances (hosts st')
  | TheGroupService => i ∈ groupInstances st'
  | TheService => i ∈ instances st'
  end.
Proof.
  intros [(profile & Hp & _)|(_ & c & Hhide & Hrun)]%createTerminal_Ok Hnone Hshown;
    [congruence|].
  rewrite Hshown in Hhide. apply launchTerminal_Ok in Hrun as [_ Hin].
  rewrite Hhide in Hin. revert Hin. unfold getInstanceHost, instances.
  destruct (location options) as [[[]| |p|b]|]; simpl; try done.
  - by destruct (target (instanceOf st p)) as [[]|].
  - rewrite elem_of_app.
    destruct (default Panel _); [|tauto].
    destruct (activeInstance st) as [parent|]; [|tauto].
    destruct (target (instanceOf st parent)) as [[]|]; tauto.
  - rewrite elem_of_app. destruct defaultLocation; tauto.
Qed.

End Lookup.

Section Bookkeeping.
Context `{Env : TerminalEnv}.

Lemma delete_last (l : list nat) : delete (length l - 1) l = removelast l.
Proof.
  induction l as [|x l IH]; [done|]. destruct l as [|y l]; [done|].
  simpl in *. rewrite Nat.sub_0_r in *. by rewrite IH.
Qed.

(** X18. [_showBackgroundTerminal] on an instance that is not in the list
    of backgrounded instances: [indexOf] answers -1 and [splice(-1, 1)]
    removes the last element, so that the last backgrounded instance is
    dropped from the list (it is not shown); the instance at hand gets its
    group all the same. *)
Theorem _showBackgroundTerminal_not_backgrounded (instance : nat) (st : State) :
  instance ∉ backgroundedTerminalInstances st ->
  backgroundedTerminalInstances (_showBackgroundTerminal instance st)
  = removelast (backgroundedTerminalInstances st) /\
  groups (hosts (_showBackgroundTerminal instance st)) = groups (hosts st) ++ [[instance]].
Proof.
  intros Hout. unfold _showBackgroundTerminal. simpl. split; [|done].
  unfold indexOf.
  destruct (list_find _ _) as [[k x]|] eqn:Hfind.
  { apply list_find_Some in Hfind as (Hk & -> & _).
    exfalso. apply Hout. by eapply list_elem_of_lookup_2. }
  unfold splice1. simpl.
  replace (Z.to_nat (Z.max (Z.of_nat (length (backgroundedTerminalInstances st)) + -1) 0))
    with (length (backgroundedTerminalInstances st) - 1) by lia.
  apply delete_last.
Qed.

Lemma step_active op st :
  match op with
  | OpEvaluateActive _ _ => True
  | _ => active (fst (step op st)) = active st
  end.
Proof.
  destruct op as [c loc|c loc parent|c|value|host instance]; simpl; [| | | |done].
  - unfold _createTerminal, createGroup, createInstance, _addToReconnected.
    destruct loc; simpl; by repeat case_match.
  - unfold _splitTerminal, splitInstance, splitGroup, createInstance, _addToReconnected.
    repeat (case_match; simpl); try done; simplify_eq/=; done.
  - done.
  - unfold setActiveInstance, _showBackgroundTerminal. by case_match.
Qed.

Lemma step_activeFollowsHosts op st :
  activeFollowsHosts st -> activeFollowsHosts (fst (step op st)).
Proof.
  intros Hst. pose proof (step_active op st) as Hact.
  destruct op as [c loc|c loc parent|c|value|host instance];
    try (unfold activeFollowsHosts; by rewrite Hact).
  clear Hact. unfold activeFollowsHosts in *. simpl.
  destruct Hst as [Hone Hnone].
  destruct host, instance as [i|]; simpl; try (split; [tauto|done]).
  destruct (editorHostActive (active st)); simpl; split; try tauto; done.
Qed.

Lemma run_activeFollowsHosts ops : forall st created,
  activeFollowsHosts st -> activeFollowsHosts (fst (run ops st created)).
Proof.
  induction ops as [|op ops IH]; intros st created Hst; [done|]. simpl.
  pose proof (step_activeFollowsHosts op st Hst) as Hstep.
  destruct (step op st) as [st1 i]. by apply IH.
Qed.

(** X19. Whatever happens to the service, its active instance
    ([_activeInstance]) is the active terminal of the group service or of
    the editor service, and it is [undefined] only when neither of them
    has an active terminal. *)
Theorem activeInstance_follows_hosts (processSupport : bool) (ops : list Op) :
  activeFollowsHosts (fst (run ops (initial processSupport) [])).
Proof. apply run_activeFollowsHosts. unfold activeFollowsHosts. simpl. tauto. Qed.

End Bookkeeping.

Section Shutdown.
Context `{Env : TerminalEnv} `{LEnv : LifecycleEnv}.

(** X20. Process support is never unregistered: [registerProcessSupport]
    leaves a registered support registered whatever its argument is, and
    it registers it for [true]; and after that [createTerminal] does not
    throw 'Could not create terminal when process support is not
    registered'. *)
Theorem registerProcessSupport_enables (isSupported : bool) (lc : Lifecycle)
    (options : CreateTerminalOptions) :
  (isProcessSupportRegistered (service lc) = true ->
   isProcessSupportRegistered (service (registerProcessSupport isSupported lc)) = true) /\
  isProcessSupportRegistered (service (registerProcessSupport true lc)) = true /\
  fst (createTerminal options (service (registerProcessSupport true lc)))
  <> Err processSupportError.
Proof.
  split; [by destruct isSupported|]. split; [done|].
  unfold createTerminal.
  destruct (_resolveCwd _ _ options _) as [c|e] eqn:Hcwd.
  2:{ apply _resolveCwd_error in Hcwd as ->. simpl. by intros [=]. }
  destruct (contributedProfileOf options) as [profile|].
  { unfold launchContributedProfile. cbv zeta. by destruct (last _). }
  replace (isProcessSupportRegistered (service (registerProcessSupport true lc)))
    with true by done.
  rewrite andb_false_r.
  destruct (launchTerminal_cases c options (service (registerProcessSupport true lc)))
    as [[i ->]|[_ ->]]; by intros [=].
Qed.

(** Terminal processes are never revived on a reload, and only with
    persistent sessions enabled. *)
Lemma _shouldReviveProcesses_not_on_reload (reason : ShutdownReason) (lc : Lifecycle) :
  _shouldReviveProcesses reason lc = true ->
  enablePersistentSessions = true /\ reason <> RELOAD.
Proof.
  unfold _shouldReviveProcesses.
  destruct enablePersistentSessions; simpl; [|done].
  destruct persistentSessionReviveProcess, reason; try done.
Qed.

Lemma _onBeforeShutdownConfirmation_run a lc :
  _onBeforeShutdownConfirmation a lc =
  let lc' := does lc [ConfirmClose (if (length (instances (service lc)) =? 1)%nat
                                    then Singular
                                    else Plural (length (instances (service lc))))] in
  match confirmed a with
  | Ok true => (Ok false, shutting lc')
  | Ok false => (Ok true, lc')
  | Err e => (Err e, lc')
  end.
Proof.
  unfold _onBeforeShutdownConfirmation, _showTerminalCloseConfirmation.
  rewrite orb_false_r. by destruct (confirmed a) as [[]|e].
Qed.

(** The cases of [_onBeforeShutdown]. *)
Ltac shutdown_cases reason lc a :=
  unfold _onBeforeShutdown, _onBeforeShutdownAsync, _onBeforeShutdownAsync_try,
    _onBeforeShutdownConfirmation, _showTerminalCloseConfirmation;
  destruct isWeb; [try done|];
  destruct (instances (service lc)) as [|? ?] eqn:?; [try done|];
  destruct (nativeDelegate lc), (getWindowCount a) as [?|?]; cbn zeta; cbn [fst snd];
    try done;
  try match goal with |- context [_shouldReviveProcesses ?r ?x] =>
    destruct (_shouldReviveProcesses r x) end;
  try destruct (primaryBackend _); try destruct (persisted a) as [[]|?];
    cbn [fst snd]; try done;
  simpl service;
  destruct (hasDirtyInstances (service lc)); rewrite ?andb_false_r, ?andb_true_r;
    cbn [fst snd]; try done;
  destruct enablePersistentSessions eqn:?, reason;
  cbn [negb andb fst snd]; try done;
  destruct (confirmed a) as [[]|?]; cbn [negb fst snd]; try done.


(** X22. [_onBeforeShutdown] fails only as the confirmation dialog fails:
    an exception of the native delegate or of the backend (while the
    state of the terminals is persisted) is swallowed, and the shutdown
    goes on. *)
Theorem _onBeforeShutdown_rejects (reason : ShutdownReason) (a : Answers)
    (lc : Lifecycle) (e : Exn) :
  fst (_onBeforeShutdown reason a lc) = Err e ->
  confirmed a = Err e /\ hasDirtyInstances (service lc) = true.
Proof.
  shutdown_cases reason lc a.
  all: by intros [= ->].
Qed.

(** X23. Once [_onBeforeShutdown] has let the shutdown go on, on the web
    or with terminals around, the service is marked as shutting down, and
    [_saveState] does nothing any more: the layout that the backend holds
    is the one to revive. *)
Theorem _onBeforeShutdown_accepted (reason : ShutdownReason) (a : Answers)
    (lc : Lifecycle) :
  fst (_onBeforeShutdown reason a lc) = Ok false ->
  isWeb = true \/ instances (service lc) <> [] ->
  isShuttingDown (snd (_onBeforeShutdown reason a lc)) = true /\
  _saveState (snd (_onBeforeShutdown reason a lc)) = snd (_onBeforeShutdown reason a lc).
Proof.
  intros Hres Hsome.
  assert (isShuttingDown (snd (_onBeforeShutdown reason a lc)) = true) as Hflag.
  { revert Hres Hsome. shutdown_cases reason lc a.
    all: try (intros _ [?|?]; done). }
  split; [done|]. unfold _saveState. by rewrite Hflag.
Qed.

(** X24. When the window shuts down, [_onWillShutdown] detaches every
    terminal of the panel if the processes are persisted (persistent
    sessions with a reload) and disposes of every one otherwise; the
    terminals in the editor are left to their editors.  It clears the
    layout that the backend holds only if the processes are neither
    persisted nor to be revived; and processes are never revived on a
    reload, and only with persistent sessions enabled. *)
Theorem _onWillShutdown_spec (reason : ShutdownReason) (lc : Lifecycle) :
  (_shouldReviveProcesses reason lc = true ->
   enablePersistentSessions = true /\ reason <> RELOAD) /\
  exists cleared,
    effects (_onWillShutdown reason lc)
    = effects lc
      ++ map (fun i => if enablePersistentSessions && is_reload reason
                       then DetachProcessAndDispose i ExitShutdown
                       else DisposeInstance i ExitShutdown)
             (groupInstances (service lc))
      ++ cleared /\
    (cleared = [] \/
     cleared = [SetTerminalLayoutInfo None] /\
     enablePersistentSessions && is_reload reason = false /\
     _shouldReviveProcesses reason lc = false).
Proof.
  split; [apply _shouldReviveProcesses_not_on_reload|].
  unfold _onWillShutdown. fold (is_reload reason).
  destruct (enablePersistentSessions && is_reload reason) eqn:Hp.
  { exists []. rewrite app_nil_r. split; [done|by left]. }
  change (_shouldReviveProcesses reason (does lc ?l)) with (_shouldReviveProcesses reason lc).
  destruct (_shouldReviveProcesses reason lc) eqn:Hr; simpl.
  { exists []. rewrite app_nil_r. split; [done|by left]. }
  destruct (primaryBackend _); simpl.
  - exists [SetTerminalLayoutInfo None]. rewrite <- app_assoc. split; [done|]. by right.
  - exists []. rewrite app_nil_r. split; [done|by left].
Qed.

(** X25. [safeDisposeTerminal] disposes of the instance unless the user
    was asked and did not confirm.  The user is asked (about one terminal,
    whatever their number) only for a terminal outside the editor that
    has child processes, with [confirmOnKill] set to 'panel' or
    'always'. *)
Theorem safeDisposeTerminal_spec (instance : nat) (answer : Result bool) (lc : Lifecycle) :
  let done := since lc (snd (safeDisposeTerminal instance answer lc)) in
  (In (DisposeInstance instance ExitUser) done <->
   done = [DisposeInstance instance ExitUser] \/ answer = Ok true) /\
  (done <> [DisposeInstance instance ExitUser] ->
   head done = Some (ConfirmClose Singular) /\
   target (instanceOf (service lc) instance) <> Some Editor /\
   hasChildProcesses instance = true /\
   (confirmOnKill = KillPanel \/ confirmOnKill = KillAlways)).
Proof.
  unfold safeDisposeTerminal, _showTerminalCloseConfirmation, since. cbv zeta.
  rewrite orb_true_r.
  destruct (target (instanceOf (service lc) instance)) as [[]|],
    (hasChildProcesses instance), confirmOnKill, answer as [[]|e];
    cbn [negb andb fst snd effects does]; rewrite <- ?app_assoc, ?drop_app_length; simpl.
  all: intuition (try discriminate; try congruence).
Qed.

(** X26. [setEditable], [isEditable] and [getEditableData]: after
    [setEditable(instance, data)] the editable data of a terminal is
    [data] for that instance and [undefined] for every other one; that
    instance is the one that is editable, and [isEditable(undefined)]
    tells whether there is one; without data, none is editable. *)
Theorem setEditable_getEditableData (instance other : nat) (data : option EditableData)
    (lc : Lifecycle) :
  getEditableData other (setEditable instance data lc)
  = (if bool_decide (instance = other) then data else None) /\
  isEditable (Some other) (setEditable instance data lc)
  = bool_decide (instance = other) && bool_decide (is_Some data) /\
  isEditable None (setEditable instance data lc) = bool_decide (is_Some data).
Proof.
  unfold getEditableData, isEditable, setEditable.
  destruct data as [d|]; simpl; by case_bool_decide.
Qed.

End Shutdown.

(** ** The theorems at concrete inputs *)

Lemma createTerminal_getInstanceFromId_witness :
  createTerminal noOptions (initial true)
  = (Ok 1, snd (createTerminal noOptions (initial true))) /\
  getInstanceFromId 1 (snd (createTerminal noOptions (initial true))) = Some 1.
Proof.
  assert (createTerminal noOptions (initial true)
          = (Ok 1, snd (createTerminal noOptions (initial true)))) as Hrun
    by (vm_compute; reflexivity).
  split; [exact Hrun|].
  exact (proj1 (createTerminal_getInstanceFromId noOptions (initial true) _ 1 Hrun)).
Defined.

Lemma createTerminal_instance_host_witness :
  createTerminal inEditor (initial true)
  = (Ok 1, snd (createTerminal inEditor (initial true))) /\
  contributedProfileOf inEditor = None /\
  hideFromUser (shellLaunchConfigOf inEditor) = false /\
  1 ∈ editorInstances (hosts (snd (createTerminal inEditor (initial true)))).
Proof.
  assert (createTerminal inEditor (initial true)
          = (Ok 1, snd (createTerminal inEditor (initial true)))) as Hrun
    by (vm_compute; reflexivity).
  split; [exact Hrun|]. split; [reflexivity|]. split; [reflexivity|].
  exact (createTerminal_instance_host inEditor (initial true) _ 1 Hrun eq_refl eq_refl).
Defined.

Lemma _showBackgroundTerminal_not_backgrounded_witness :
  backgroundedTerminalInstances (snd (createTerminal hiddenOptions (initial true))) = [1] /\
  (2 ∉ backgroundedTerminalInstances (snd (createTerminal hiddenOptions (initial true)))) /\
  backgroundedTerminalInstances
    (_showBackgroundTerminal 2 (snd (createTerminal hiddenOptions (initial true)))) = [].
Proof.
  assert (2 ∉ backgroundedTerminalInstances
                (snd (createTerminal hiddenOptions (initial true)))) as Hout.
  { intros Hin. apply list_elem_of_singleton in Hin. discriminate. }
  split; [reflexivity|]. split; [exact Hout|].
  exact (proj1 (_showBackgroundTerminal_not_backgrounded 2 _ Hout)).
Defined.


Lemma _onBeforeShutdown_rejects_witness :
  fst (_onBeforeShutdown CLOSE dialogFails lifeA) = Err (Error "dialog") /\
  confirmed dialogFails = Err (Error "dialog").
Proof.
  assert (fst (_onBeforeShutdown CLOSE dialogFails lifeA) = Err (Error "dialog")) as Hfail
    by (vm_compute; reflexivity).
  split; [exact Hfail|].
  exact (proj1 (_onBeforeShutdown_rejects CLOSE dialogFails lifeA _ Hfail)).
Defined.

Lemma _onBeforeShutdown_accepted_witness :
  fst (_onBeforeShutdown CLOSE accepts lifeA) = Ok false /\
  (isWeb = true \/ instances (service lifeA) <> []) /\
  isShuttingDown (snd (_onBeforeShutdown CLOSE accepts lifeA)) = true.
Proof.
  assert (fst (_onBeforeShutdown CLOSE accepts lifeA) = Ok false) as Hres
    by (vm_compute; reflexivity).
  assert (isWeb = true \/ instances (service lifeA) <> []) as Hsome
    by (right; vm_compute; discriminate).
  split; [exact Hres|]. split; [exact Hsome|].
  exact (proj1 (_onBeforeShutdown_accepted CLOSE accepts lifeA Hres Hsome)).
Defined.

End TerminalFlows.

(* ===================================================================== *)
(** * Part VII: properties of 'Continue Working On...'                   *)
(* ===================================================================== *)

Module ContinueOnTheory.
Import EditSessions ContinueOn.

Section Handler.
Context `{WB : Workbench}.

Lemma contribute_run contributions : forall options standalone,
  contribute contributions options standalone
  = (if forallb known contributions
     then Some (options ++ omap itemFor contributions) else None,
     standalone ++ omap standaloneFor (knownPrefix contributions)).
Proof.
  induction contributions as [|c rest IH]; intros options standalone; simpl.
  { by rewrite !app_nil_r. }
  assert (known c = bool_decide (is_Some (getCommand (contrib_command c)))) as -> by done.
  assert (itemFor c = (command ← getCommand (contrib_command c);
                       Some (itemOf command c))) as -> by done.
  assert (standaloneFor c
          = (command ← getCommand (contrib_command c);
             if truthy (qualifiedName c) then
               Some (generateStandaloneOptionCommand (cmd_id command)
                       (default EmptyString (qualifiedName c))
                       (cmd_category command) (deserialize (contrib_when c))
                       (remoteGroup c))
             else None)) as Hs by done.
  destruct (getCommand (contrib_command c)) as [command|]; simpl.
  2:{ by rewrite app_nil_r. }
  rewrite IH, Hs. simpl. f_equal.
  - destruct (forallb known rest); [|done]. by rewrite <- app_assoc.
  - destruct (truthy (qualifiedName c)); [|done]. by rewrite <- app_assoc.
Qed.

Lemma knownPrefix_app l1 l2 :
  knownPrefix (l1 ++ l2)
  = if forallb known l1 then l1 ++ knownPrefix l2 else knownPrefix l1.
Proof.
  induction l1 as [|c l1 IH]; simpl; [done|].
  destruct (known c); simpl; [|done]. rewrite IH. by destruct (forallb known l1).
Qed.

Lemma knownPrefix_all l : forallb known l = true -> knownPrefix l = l.
Proof.
  induction l as [|c l IH]; simpl; [done|].
  intros [-> Hl]%andb_prop. by rewrite IH.
Qed.

Lemma handleExtensions_run extensions : forall options standalone,
  handleExtensions extensions options standalone
  = (if forallb known (contributionsOf extensions)
     then Some (options ++ omap itemFor (contributionsOf extensions)) else None,
     standalone ++ omap standaloneFor (knownPrefix (contributionsOf extensions))).
Proof.
  induction extensions as [|ext rest IH]; intros options standalone.
  { simpl. by rewrite !app_nil_r. }
  unfold contributionsOf. simpl. fold (contributionsOf rest).
  destruct (proposedApiEnabled ext); simpl; [|apply IH].
  destruct (value ext) as [cs|]; simpl; [|apply IH].
  rewrite contribute_run, forallb_app, knownPrefix_app.
  destruct (forallb known cs) eqn:Hcs; simpl; [|done].
  rewrite IH, (knownPrefix_all _ Hcs), !omap_app, <- !app_assoc. done.
Qed.

(** X27. The handler of the extension point [continueEditSession].  When
    the command of every contribution (of the extensions with the proposed
    API enabled and an array of contributions) is registered, the options
    become one item for every contribution, in order.  When the command of
    a contribution is not registered, the handler returns on the spot: the
    options stay what they were, none of the contributions is taken; but
    the standalone commands of the contributions before that one have been
    registered. *)
Theorem handler_spec (extensions : list Extension) (st : Options) :
  continueEditSessionOptions (handler extensions st)
  = (if forallb known (contributionsOf extensions)
     then omap itemFor (contributionsOf extensions)
     else continueEditSessionOptions st) /\
  registered (handler extensions st)
  = registered st ++ omap standaloneFor (knownPrefix (contributionsOf extensions)).
Proof.
  unfold handler. rewrite handleExtensions_run.
  by destruct (forallb known (contributionsOf extensions)).
Qed.

(** X28. What the quick pick offers: an option is offered exactly when
    it is one of [continueEditSessionOptions] and is shown in the current
    context (it has no [when], or its [when] matches), when it is the
    built-in 'Open in Local Folder' in a virtual workspace on the desktop,
    or when it is 'Install additional development environment options'.
    The last two entries are always a separator and that item, and no
    other entry is a separator. *)
Theorem createPickItems_offers (st : Options) (item : ContinueEditSessionItem) :
  (In (Pick item) (createPickItems st) <->
   (In item (continueEditSessionOptions st) /\ shown item = true) \/
   (virtualWorkspaceOnDesktop = true /\ item = builtinItem) \/
   item = installItem) /\
  (exists picks, createPickItems st = map Pick picks ++ [Separator; Pick installItem]).
Proof.
  unfold createPickItems. split; [|by eexists].
  rewrite in_app_iff, in_map_iff. split.
  - intros [(x & [= ->] & Hin)|[|[[= <-]|[]]]]; [|done|by right; right].
    apply list_elem_of_In in Hin. rewrite sortByLabel_rearranges in Hin.
    destruct virtualWorkspaceOnDesktop.
    + apply elem_of_app in Hin as [Hin|Hin%list_elem_of_singleton].
      * left. by apply list_elem_of_In, filter_In in Hin.
      * right. by left.
    + left. by apply list_elem_of_In, filter_In in Hin.
  - intros [[Hin Hshown]|[[Hv ->]| ->]]; [| |right; simpl; tauto].
    + left. exists item. split; [done|]. apply list_elem_of_In.
      rewrite sortByLabel_rearranges.
      assert (item ∈ List.filter shown (continueEditSessionOptions st)).
      { by apply list_elem_of_In, filter_In. }
      destruct virtualWorkspaceOnDesktop; [|done]. apply elem_of_app. by left.
    + left. exists builtinItem. split; [done|]. apply list_elem_of_In.
      rewrite sortByLabel_rearranges, Hv. apply elem_of_app. right. by left.
Qed.

End Handler.


Section Action.
Context {W : Type} `{HostW : Host W} `{Acc : Account W} `{Cmd : Commands W}
        `{Plat : Platform}.













End Action.

(** The handler over [memWorkbench]: of two extensions, the one without
    the proposed API is skipped. *)
Lemma handler_runs :
  let contribution name :=
    {| contrib_command := "remote.continueOn"; contrib_when := Some "true"%string;
       contrib_documentation := None; qualifiedName := name; remoteGroup := None |} in
  let st := handler [ {| proposedApiEnabled := false;
                         value := Some [contribution None] |};
                      {| proposedApiEnabled := true;
                         value := Some [contribution (Some "Continue in Remote"%string)] |} ]
                    {| continueEditSessionOptions := []; registered := [] |} in
  map label (continueEditSessionOptions st) = ["$(remote) Continue in Remote"%string] /\
  map sc_id (registered st)
  = ["_workbench.editSessions.actions.continueEditSession.remote.continueOn"%string] /\
  length (createPickItems st) = 4.
Proof. vm_compute. done. Qed.



End ContinueOnTheory.
